(** * myKiwoom dashboard script: a shallow embedding and its properties

    The repository's browser script exists in two versions,
    [src/static/js/app.js] and [src/unnamed/part_000].  Both are embedded
    below, function by function, over one model of the JavaScript values,
    the page (DOM), the timers and the network they run against.

    - Values are JSON data plus [undefined]; numbers are IEEE 754 doubles
      ([spec_float] of the Standard Library); objects are finite maps.
    - The script's global variables, the page, the pending timers and a
      trace of what the script did to the outside world (console, network,
      calls into other scripts) form the [state].
    - Code that may throw runs in the state-and-exception monad [M].
    - An [async] function is run from its call to its end; the outcome of
      its [fetch] is an argument ([fetch_outcome]).
    - Built-in conversions of the JavaScript engine that the script only
      calls ([parseFloat], [toLocaleString], ...) are the fields of [Host].
    - The server (session gate, order routes) is not among the sources; the
      module [Server] models what the specification says about it.

    Functions of the script that no statement below depends on (server
    status and selection, [handleError], ...) are left out. *)

From Stdlib Require Import ZArith QArith String Ascii List Lia.
From Stdlib Require Import Floats.SpecFloat.
From stdpp Require Import base option strings gmap list.

Set Warnings "-register-all".
Local Open Scope Z_scope.

(** ** JavaScript values *)

Inductive value : Type :=
| VUndefined
| VNull
| VBool (b : bool)
| VNum (n : spec_float)
| VStr (s : string)
| VArr (l : list value)
| VObj (m : gmap string value).

(** Values thrown by the modelled code. *)
Inductive error : Type :=
| TypeError (msg : string)
| ReferenceError (name : string)
| SyntaxError
| HttpError (status : Z)          (* new Error(`HTTP error! status: ${response.status}`) *)
| NetworkError.                   (* fetch() rejected *)

(** [if (v)]: ToBoolean. *)
Definition truthy (v : value) : bool :=
  match v with
  | VUndefined | VNull => false
  | VBool b => b
  | VNum (S754_zero _) | VNum S754_nan => false
  | VNum _ => true
  | VStr s => negb (String.eqb s "")
  | VArr _ | VObj _ => true
  end.

(** [v === false]. *)
Definition is_false (v : value) : bool :=
  match v with VBool false => true | _ => false end.

(** [v === null || v === undefined || v === '']. *)
Definition is_blank (v : value) : bool :=
  match v with
  | VNull | VUndefined => true
  | VStr s => String.eqb s ""
  | _ => false
  end.

(** [isNaN(n)] on a number. *)
Definition isNaN (n : spec_float) : bool :=
  match n with S754_nan => true | _ => false end.

(** Strings are kept as UTF-8 bytes; [js_length] is JavaScript's [.length],
    the number of UTF-16 code units of the same text. *)
Definition utf16_units (c : ascii) : nat :=
  let n := nat_of_ascii c in
  if (n <? 128)%nat then 1%nat          (* ASCII *)
  else if (n <? 192)%nat then 0%nat     (* continuation byte *)
  else if (n <? 240)%nat then 1%nat     (* lead of a 2- or 3-byte sequence *)
  else 2%nat.                           (* lead of a 4-byte sequence: surrogate pair *)

Fixpoint js_length (s : string) : nat :=
  match s with
  | EmptyString => 0%nat
  | String c s' => (utf16_units c + js_length s')%nat
  end.

(** [s.replace(/pat/g, rep)] for a literal, non-empty pattern: [skip] counts
    the characters of a match still to be dropped. *)
Fixpoint replace_from (pat rep : string) (skip : nat) (s : string) : string :=
  match s with
  | EmptyString => EmptyString
  | String c s' =>
      match skip with
      | S k => replace_from pat rep k s'
      | O =>
          if String.prefix pat s
          then rep +:+ replace_from pat rep (String.length pat - 1) s'
          else String c (replace_from pat rep 0 s')
      end
  end.

Definition replaceAll (pat rep s : string) : string := replace_from pat rep 0 s.

(** The property names the script reads off JSON payloads.  None of them is
    a property of a string, number, boolean or array, so reading one there
    gives [undefined]; reading it off [undefined] or [null] throws. *)
Inductive field : Type :=
| f_success | f_authenticated | f_message | f_data | f_stock_code | f_server_info.

Definition field_name (f : field) : string :=
  match f with
  | f_success => "success"
  | f_authenticated => "authenticated"
  | f_message => "message"
  | f_data => "data"
  | f_stock_code => "stock_code"
  | f_server_info => "server_info"
  end.

(** ** The host: built-ins the script calls but does not define *)

Class Host : Type := {
  (** [parseFloat(v)]; ToString of JSON data never throws. *)
  parseFloat : value -> spec_float;
  (** [n.toLocaleString('ko-KR')]. *)
  toLocaleString : spec_float -> string;
  (** [n.toFixed(digits)]. *)
  toFixed : spec_float -> nat -> string;
  (** [new Date(v).toLocaleDateString('ko-KR')]. *)
  toLocaleDateString : value -> string;
  (** [new Date(v).toLocaleTimeString('ko-KR')]. *)
  toLocaleTimeString : value -> string;
  (** ToString of a number, as in a template literal. *)
  numberToString : spec_float -> string
}.

(** ToString of a value, as a template literal applies it. *)
Fixpoint ToString `{Host} (v : value) : string :=
  match v with
  | VUndefined => "undefined"
  | VNull => "null"
  | VBool true => "true"
  | VBool false => "false"
  | VNum n => numberToString n
  | VStr s => s
  | VArr l =>
      String.concat ","
        (List.map (fun e => match e with
                            | VUndefined | VNull => EmptyString
                            | _ => ToString e
                            end) l)
  | VObj _ => "[object Object]"
  end.

(** ** The page *)

(** What [authBtn.onclick] can be bound to. *)
Inductive handler : Type := HLogin | HLogout.

(** A node made by [document.createElement] and appended to an element. *)
Record node : Type := {
  node_id : nat;
  node_className : string;
  node_innerHTML : string
}.

Record element : Type := {
  innerHTML : string;
  textContent : string;
  className : list string;          (* the class tokens *)
  onclick : option handler;
  style_width : string;
  children : list node;
  bs_modal : option bool;              (* a bootstrap.Modal instance, and whether it is shown *)
  remove_when_hidden : bool         (* a once-listener of hidden.bs.modal that removes it *)
}.

Definition blank_element : element :=
  {| innerHTML := ""; textContent := ""; className := []; onclick := None;
     style_width := ""; children := []; bs_modal := None;
     remove_when_hidden := false |}.

(** Assigning [innerHTML] replaces the children. *)
Definition set_innerHTML (h : string) (e : element) : element :=
  {| innerHTML := h; textContent := textContent e; className := className e;
     onclick := onclick e; style_width := style_width e; children := [];
     bs_modal := bs_modal e; remove_when_hidden := remove_when_hidden e |}.

Definition set_textContent (t : string) (e : element) : element :=
  {| innerHTML := innerHTML e; textContent := t; className := className e;
     onclick := onclick e; style_width := style_width e; children := children e;
     bs_modal := bs_modal e; remove_when_hidden := remove_when_hidden e |}.

Definition set_className (c : list string) (e : element) : element :=
  {| innerHTML := innerHTML e; textContent := textContent e; className := c;
     onclick := onclick e; style_width := style_width e; children := children e;
     bs_modal := bs_modal e; remove_when_hidden := remove_when_hidden e |}.

Definition set_onclick (h : handler) (e : element) : element :=
  {| innerHTML := innerHTML e; textContent := textContent e; className := className e;
     onclick := Some h; style_width := style_width e; children := children e;
     bs_modal := bs_modal e; remove_when_hidden := remove_when_hidden e |}.

Definition set_style_width (w : string) (e : element) : element :=
  {| innerHTML := innerHTML e; textContent := textContent e; className := className e;
     onclick := onclick e; style_width := w; children := children e;
     bs_modal := bs_modal e; remove_when_hidden := remove_when_hidden e |}.

Definition set_children (c : list node) (e : element) : element :=
  {| innerHTML := innerHTML e; textContent := textContent e; className := className e;
     onclick := onclick e; style_width := style_width e; children := c;
     bs_modal := bs_modal e; remove_when_hidden := remove_when_hidden e |}.

Definition set_bs_modal (m : option bool) (e : element) : element :=
  {| innerHTML := innerHTML e; textContent := textContent e; className := className e;
     onclick := onclick e; style_width := style_width e; children := children e;
     bs_modal := m; remove_when_hidden := remove_when_hidden e |}.

Definition set_remove_when_hidden (b : bool) (e : element) : element :=
  {| innerHTML := innerHTML e; textContent := textContent e; className := className e;
     onclick := onclick e; style_width := style_width e; children := children e;
     bs_modal := bs_modal e; remove_when_hidden := b |}.

(** [classList.add] and [classList.remove]. *)
Definition classList_add (c : string) (e : element) : element :=
  if existsb (String.eqb c) (className e) then e
  else set_className (className e ++ [c]) e.

Definition classList_remove (c : string) (e : element) : element :=
  set_className (List.filter (fun x => negb (String.eqb c x)) (className e)) e.

(** ** Timers, listeners, the network and the trace *)

(** The closures the script hands to [setTimeout] and [setInterval]. *)
Inductive task : Type :=
| RefreshWhenDefined     (* app.js login: refreshDashboard() when it is a function *)
| ReloadPage             (* app.js logout: location.reload() *)
| LoginProgressDone      (* part_000 login: close the modal, alert, refresh *)
| RecheckAuthStatus      (* part_000 logout: await checkAuthStatus() *)
| RemoveAlert (id : nat) (* showAlert: remove the alert if still attached *)
| AutoRefreshTick        (* setupAutoRefresh *)
| LoginProgressStep (currentStep : nat).
                         (* part_000 startLoginProgressAnimation, with the closure's counter *)

Record timer : Type := {
  delay : Z;              (* milliseconds *)
  periodic : bool;        (* setInterval rather than setTimeout *)
  callback : task;
  active : bool           (* not yet cleared *)
}.

(** The functions [connectWebSocket] passes to [socket.on]. *)
Inductive socket_handler : Type :=
| OnConnect | OnDisconnect | OnStatus | OnUpdate | OnSubscribed.

Record request : Type := {
  url : string;
  method : string;
  headers : list (string * string);
  payload : option string
}.

Record response : Type := {
  status : Z;
  body : option value     (* [None]: the body is not JSON, so [json()] rejects *)
}.

(** [response.ok]. *)
Definition ok (r : response) : bool := (200 <=? status r) && (status r <=? 299).

Inductive fetch_outcome : Type :=
| NetworkFailure
| Responded (r : response).

(** What the script did to the world outside the page, oldest first. *)
Inductive event : Type :=
| ConsoleLog (label : string) (arg : option value)
| ConsoleError (label : string) (e : error)
| Fetch (r : request)
| Invoke (fn : string) (arg : option value)   (* a call whose effect lies outside the modelled state *)
| Reload.

(** Names that other scripts of the page may or may not define. *)
Record globals : Type := {
  has_io : bool;                 (* socket.io's [io] *)
  has_bootstrap : bool;          (* [bootstrap] *)
  has_refreshDashboard : bool    (* typeof refreshDashboard === 'function' *)
}.

Record state : Type := {
  (* the script's global variables *)
  socket : option (list (string * socket_handler));
  isAuthenticated : value;
  refreshInterval : option nat;
  currentServerInfo : value;
  (* the browser *)
  dom : gmap string element;
  next_node : nat;
  timers : list timer;
  trace : list event;
  env : globals
}.

Definition set_socket (s : option (list (string * socket_handler))) (st : state) : state :=
  {| socket := s; isAuthenticated := isAuthenticated st;
     refreshInterval := refreshInterval st; currentServerInfo := currentServerInfo st;
     dom := dom st; next_node := next_node st; timers := timers st;
     trace := trace st; env := env st |}.

Definition set_isAuthenticated (v : value) (st : state) : state :=
  {| socket := socket st; isAuthenticated := v;
     refreshInterval := refreshInterval st; currentServerInfo := currentServerInfo st;
     dom := dom st; next_node := next_node st; timers := timers st;
     trace := trace st; env := env st |}.

Definition set_refreshInterval (i : option nat) (st : state) : state :=
  {| socket := socket st; isAuthenticated := isAuthenticated st;
     refreshInterval := i; currentServerInfo := currentServerInfo st;
     dom := dom st; next_node := next_node st; timers := timers st;
     trace := trace st; env := env st |}.

Definition set_dom (d : gmap string element) (st : state) : state :=
  {| socket := socket st; isAuthenticated := isAuthenticated st;
     refreshInterval := refreshInterval st; currentServerInfo := currentServerInfo st;
     dom := d; next_node := next_node st; timers := timers st;
     trace := trace st; env := env st |}.

Definition set_next_node (n : nat) (st : state) : state :=
  {| socket := socket st; isAuthenticated := isAuthenticated st;
     refreshInterval := refreshInterval st; currentServerInfo := currentServerInfo st;
     dom := dom st; next_node := n; timers := timers st;
     trace := trace st; env := env st |}.

Definition set_timers (t : list timer) (st : state) : state :=
  {| socket := socket st; isAuthenticated := isAuthenticated st;
     refreshInterval := refreshInterval st; currentServerInfo := currentServerInfo st;
     dom := dom st; next_node := next_node st; timers := t;
     trace := trace st; env := env st |}.

Definition set_trace (t : list event) (st : state) : state :=
  {| socket := socket st; isAuthenticated := isAuthenticated st;
     refreshInterval := refreshInterval st; currentServerInfo := currentServerInfo st;
     dom := dom st; next_node := next_node st; timers := timers st;
     trace := t; env := env st |}.

(** ** The monad of code that reads and writes the state and may throw *)

Inductive result (A : Type) : Type :=
| Ok (a : A)
| Throw (e : error).
Arguments Ok {A} a.
Arguments Throw {A} e.

Definition M (A : Type) : Type := state -> result A * state.

#[global] Instance M_ret : MRet M := fun A a st => (Ok a, st).
#[global] Instance M_bind : MBind M := fun A B f m st =>
  match m st with
  | (Ok a, st') => f a st'
  | (Throw e, st') => (Throw e, st')
  end.
#[global] Instance M_throw : MThrow error M := fun A e st => (Throw e, st).

Definition modify (f : state -> state) : M unit := fun st => (Ok tt, f st).
Definition gets {A} (f : state -> A) : M A := fun st => (Ok (f st), st).

(** [try { m } catch (error) { h error }]. *)
Definition try_catch {A} (m : M A) (h : error -> M A) : M A := fun st =>
  match m st with
  | (Throw e, st') => h e st'
  | r => r
  end.

(** [try { m } finally { f }]: [f] runs either way; if it throws, its error wins. *)
Definition try_finally {A} (m : M A) (f : M unit) : M A := fun st =>
  match m st with
  | (r, st') =>
      match f st' with
      | (Ok _, st'') => (r, st'')
      | (Throw e, st'') => (Throw e, st'')
      end
  end.

Definition when (b : bool) (m : M unit) : M unit := if b then m else mret tt.

(** *** Primitive effects *)

Definition emit (e : event) : M unit :=
  modify (fun st => set_trace (trace st ++ [e]) st).

Definition console_log (label : string) (arg : option value) : M unit :=
  emit (ConsoleLog label arg).
Definition console_error (label : string) (e : error) : M unit :=
  emit (ConsoleError label e).

(** [v.f] on a JSON payload that is neither [undefined] nor [null]. *)
Definition member (v : value) (f : field) : value :=
  match v with
  | VObj m => default VUndefined (m !! field_name f)
  | _ => VUndefined
  end.

(** [v.f] on any JSON payload. *)
Definition getField (v : value) (f : field) : M value :=
  match v with
  | VUndefined => mthrow (TypeError "Cannot read properties of undefined")
  | VNull => mthrow (TypeError "Cannot read properties of null")
  | _ => mret (member v f)
  end.

(** The number of own enumerable string keys of a value that is neither
    [undefined] nor [null]: the fields of an object, the indices of an
    array or of a string. *)
Definition own_keys (v : value) : nat :=
  match v with
  | VObj m => size m
  | VArr l => length l
  | VStr s => js_length s
  | _ => 0%nat
  end.

(** [Object.keys(v).length]. *)
Definition keys_length (v : value) : M nat :=
  match v with
  | VUndefined | VNull =>
      mthrow (TypeError "Cannot convert undefined or null to object")
  | _ => mret (own_keys v)
  end.

(** [document.getElementById(id)]; [None] is JavaScript's [null]. *)
Definition getElementById (id : string) : M (option element) :=
  gets (fun st => dom st !! id).

(** Writing a property of the element found under [id]: a TypeError when
    the lookup gave [null]. *)
Definition update_element (id : string) (e : option element) (f : element -> element) : M unit :=
  match e with
  | None => mthrow (TypeError "Cannot set properties of null")
  | Some _ => modify (fun st => set_dom (alter f id (dom st)) st)
  end.

Definition setTimer (d : Z) (p : bool) (t : task) : M nat := fun st =>
  (Ok (length (timers st)),
   set_timers (timers st ++ [{| delay := d; periodic := p; callback := t; active := true |}]) st).

Definition setTimeout (t : task) (d : Z) : M unit := setTimer d false t ;; mret tt.
Definition setInterval (t : task) (d : Z) : M nat := setTimer d true t.

(** [await fetch(url, init)], then [await response.json()]. *)
Definition fetch (r : request) (o : fetch_outcome) : M response :=
  emit (Fetch r) ;;
  match o with
  | NetworkFailure => mthrow NetworkError
  | Responded resp => mret resp
  end.

Definition json (r : response) : M value :=
  match body r with
  | Some v => mret v
  | None => mthrow SyntaxError
  end.

(** [refreshDashboard] lives in another script of the page. *)
Definition refreshDashboard : M unit := emit (Invoke "refreshDashboard" None).

Definition typeof_refreshDashboard_is_function : M bool :=
  gets (fun st => has_refreshDashboard (env st)).

(** [document.createElement]: a fresh node identity. *)
Definition createElement : M nat := fun st =>
  (Ok (next_node st), set_next_node (S (next_node st)) st).

(** [clearInterval(id)]. *)
Definition clearInterval (id : nat) : M unit :=
  modify (fun st => set_timers (alter (fun t =>
    {| delay := delay t; periodic := periodic t; callback := callback t; active := false |})
    id (timers st)) st).

(** ** Markup literals of the script *)

Definition dquote : string := String (ascii_of_nat 34) EmptyString.
Definition newline : string := String (ascii_of_nat 10) EmptyString.

(** [<i class="cls"></i>] *)
Definition icon (cls : string) : string :=
  "<i class=" +:+ dquote +:+ cls +:+ dquote +:+ "></i>".

Definition login_label : string := icon "fas fa-sign-in-alt me-1" +:+ "로그인".
Definition logout_label : string := icon "fas fa-sign-out-alt me-1" +:+ "로그아웃".
Definition connected_label : string := icon "fas fa-circle text-success me-1" +:+ "연결됨".
Definition disconnected_label : string := icon "fas fa-circle text-danger me-1" +:+ "연결 끊김".

(** The chain of [replace] calls in [showAlert]. *)
Definition formatMessage (message : string) : string :=
  replaceAll "ℹ️" (icon "fas fa-info-circle text-info me-1")
    (replaceAll "⚠️" (icon "fas fa-exclamation-triangle text-warning me-1")
      (replaceAll "❌" (icon "fas fa-times-circle text-danger me-1")
        (replaceAll "✅" (icon "fas fa-check-circle text-success me-1")
          (replaceAll newline "<br>" message)))).

(** The template literal assigned to [alertDiv.innerHTML]. *)
Definition alert_markup (formattedMessage : string) : string :=
  newline +:+
  "        <div class=" +:+ dquote +:+ "d-flex align-items-start" +:+ dquote +:+ ">" +:+ newline +:+
  "            <div class=" +:+ dquote +:+ "flex-grow-1" +:+ dquote +:+ ">" +:+ newline +:+
  "                " +:+ formattedMessage +:+ newline +:+
  "            </div>" +:+ newline +:+
  "            <button type=" +:+ dquote +:+ "button" +:+ dquote +:+
  " class=" +:+ dquote +:+ "btn-close" +:+ dquote +:+
  " data-bs-dismiss=" +:+ dquote +:+ "alert" +:+ dquote +:+
  " aria-label=" +:+ dquote +:+ "Close" +:+ dquote +:+ "></button>" +:+ newline +:+
  "        </div>" +:+ newline +:+
  "    ".

Definition json_headers : list (string * string) := [("Content-Type", "application/json")].

(** The [options] argument of [apiRequest], as far as [fetch] reads it. *)
Record request_init : Type := {
  init_method : option string;
  init_headers : option (list (string * string));
  init_body : option string
}.

Definition no_options : request_init :=
  {| init_method := None; init_headers := None; init_body := None |}.

(** * [src/static/js/app.js] *)

Module App.
Section Script.
Context `{Host}.

(** ** Alerts and the loading spinner *)

Definition showAlert (message : value) (type : option string) (duration : option Z) : M unit :=
  let type := default "info" type in
  let duration := default 5000 duration in
  alertContainer ← getElementById "alert-container";
  alertDiv ← createElement;
  let className := "alert alert-" +:+ type +:+ " alert-dismissible fade show" in
  formattedMessage ←
    match message with
    | VStr s => mret (formatMessage s)
    | _ => mthrow (TypeError "message.replace is not a function")
    end;
  update_element "alert-container" alertContainer (fun e =>
    set_children (children e ++
      [{| node_id := alertDiv; node_className := className;
          node_innerHTML := alert_markup formattedMessage |}]) e);;
  setTimeout (RemoveAlert alertDiv) duration.

Definition showLoading (show : bool) : M unit :=
  spinner ← getElementById "loading-spinner";
  if spinner is Some _ then
    if show
    then update_element "loading-spinner" spinner (classList_remove "d-none")
    else update_element "loading-spinner" spinner (classList_add "d-none")
  else mret tt.

Definition hideLoading : M unit := showLoading false.

(** ** Authentication *)

Definition updateAuthUI (authenticated : value) : M unit :=
  authBtn ← getElementById "auth-btn";
  connectionStatus ← getElementById "connection-status";
  if truthy authenticated then
    update_element "auth-btn" authBtn (set_innerHTML logout_label);;
    update_element "auth-btn" authBtn (set_onclick HLogout);;
    update_element "connection-status" connectionStatus (set_innerHTML connected_label)
  else
    update_element "auth-btn" authBtn (set_innerHTML login_label);;
    update_element "auth-btn" authBtn (set_onclick HLogin);;
    update_element "connection-status" connectionStatus (set_innerHTML disconnected_label).

Definition checkAuthStatus (o : fetch_outcome) : M unit :=
  try_catch
    (response ← fetch {| url := "/api/auth/status"; method := "GET";
                         headers := []; payload := None |} o;
     data ← json response;
     authenticated ← getField data f_authenticated;
     modify (set_isAuthenticated authenticated);;
     updateAuthUI authenticated;;
     if truthy authenticated then
       console_log "인증됨 - 데이터 로드 시작" None;;
       defined ← typeof_refreshDashboard_is_function;
       when defined refreshDashboard
     else
       console_log "인증 필요" None)
    (fun error =>
       console_error "인증 상태 확인 실패:" error;;
       showAlert (VStr "인증 상태 확인에 실패했습니다.") (Some "danger") None).

Definition login (o : fetch_outcome) : M unit :=
  try_finally
    (try_catch
       (showLoading true;;
        console_log "로그인 시도 시작" None;;
        response ← fetch {| url := "/api/auth/login"; method := "POST";
                            headers := json_headers; payload := None |} o;
        data ← json response;
        success ← getField data f_success;
        if truthy success then
          modify (set_isAuthenticated (VBool true));;
          updateAuthUI (VBool true);;
          message ← getField data f_message;
          showAlert message (Some "success") None;;
          setTimeout RefreshWhenDefined 1000
        else
          message ← getField data f_message;
          showAlert message (Some "danger") None)
       (fun error =>
          console_error "로그인 실패:" error;;
          showAlert (VStr "로그인 중 오류가 발생했습니다.") (Some "danger") None))
    (showLoading false).

(** [confirmed] is the user's answer to the [confirm] dialog. *)
Definition logout (confirmed : bool) (o : fetch_outcome) : M unit :=
  try_finally
    (try_catch
       (if negb confirmed then mret tt
        else
          showLoading true;;
          response ← fetch {| url := "/api/auth/logout"; method := "POST";
                              headers := json_headers; payload := None |} o;
          data ← json response;
          success ← getField data f_success;
          if truthy success then
            modify (set_isAuthenticated (VBool false));;
            updateAuthUI (VBool false);;
            message ← getField data f_message;
            showAlert message (Some "info") None;;
            setTimeout ReloadPage 1000
          else
            message ← getField data f_message;
            showAlert message (Some "danger") None)
       (fun error =>
          console_error "로그아웃 실패:" error;;
          showAlert (VStr "로그아웃 중 오류가 발생했습니다.") (Some "danger") None))
    (showLoading false).

(** ** The push channel *)

Definition updateConnectionStatus (connected : bool) : M unit :=
  connectionStatus ← getElementById "connection-status";
  if connected
  then update_element "connection-status" connectionStatus (set_innerHTML connected_label)
  else update_element "connection-status" connectionStatus (set_innerHTML disconnected_label).

(** The body is empty in the source; the call is recorded in the trace so
    that it can be observed. *)
Definition updateRealTimeData (data : value) : M unit :=
  emit (Invoke "updateRealTimeData" (Some data)).

Definition handleRealTimeUpdate (data : value) : M unit :=
  d ← getField data f_data;
  if truthy d then
    n ← keys_length d;
    if (0 <? n)%nat then
      d ← getField data f_data;
      updateRealTimeData d
    else mret tt
  else mret tt.

(** [socket.on(name, h)]. *)
Definition socket_on (name : string) (h : socket_handler) : M unit :=
  s ← gets socket;
  match s with
  | Some listeners => modify (set_socket (Some (listeners ++ [(name, h)])))
  | None => mthrow (TypeError "Cannot read properties of null")
  end.

(** [io()]: a fresh socket without listeners. *)
Definition io : M (list (string * socket_handler)) :=
  loaded ← gets (fun st => has_io (env st));
  if (loaded : bool) then mret ([] : list (string * socket_handler))
  else mthrow (ReferenceError "io").

Definition connectWebSocket : M unit :=
  try_catch
    (s ← io;
     modify (set_socket (Some s));;
     socket_on "connect" OnConnect;;
     socket_on "disconnect" OnDisconnect;;
     socket_on "status" OnStatus;;
     socket_on "update" OnUpdate;;
     socket_on "subscribed" OnSubscribed)
    (fun error => console_error "웹소켓 연결 실패:" error).

(** The functions given to [socket.on], applied to an event's payload. *)
Definition socket_listener (h : socket_handler) (data : value) : M unit :=
  match h with
  | OnConnect =>
      console_log "웹소켓 연결됨" None;;
      updateConnectionStatus true
  | OnDisconnect =>
      console_log "웹소켓 연결 끊김" None;;
      updateConnectionStatus false
  | OnStatus =>
      console_log "서버 상태:" (Some data)
  | OnUpdate =>
      console_log "실시간 업데이트:" (Some data);;
      handleRealTimeUpdate data
  | OnSubscribed =>
      console_log "구독됨:" (Some data);;
      stock_code ← getField data f_stock_code;
      showAlert (VStr (ToString stock_code +:+ " 종목 구독됨")) (Some "info") None
  end.

(** An event arriving on the socket runs the listeners registered under
    its name, in registration order. *)
Fixpoint run_listeners (ls : list (string * socket_handler)) (name : string) (data : value)
  : M unit :=
  match ls with
  | [] => mret tt
  | (n, h) :: ls' =>
      (if String.eqb n name then socket_listener h data else mret tt);;
      run_listeners ls' name data
  end.

Definition socket_receive (name : string) (data : value) : M unit :=
  s ← gets socket;
  match s with
  | Some listeners => run_listeners listeners name data
  | None => mret tt
  end.

(** ** Quote lookup from the stock-code field *)

Definition displayStockInfo (stockInfo : value) : M unit :=
  console_log "종목 정보:" (Some stockInfo).

Definition searchStockInfo (stockCode : string) (o : fetch_outcome) : M unit :=
  try_catch
    (response ← fetch {| url := "/api/quote/stock/" +:+ stockCode; method := "GET";
                         headers := []; payload := None |} o;
     data ← json response;
     success ← getField data f_success;
     if truthy success then
       d ← getField data f_data;
       displayStockInfo d
     else mret tt)
    (fun error => console_error "종목 정보 검색 실패:" error).

(** The [input] listener that [setupEventListeners] puts on [#stock-code]
    (when the page has that element); [value] is [this.value]. *)
Definition stockCodeInput_input (value : string) (o : fetch_outcome) : M unit :=
  if (6 <=? js_length value)%nat then searchStockInfo value o else mret tt.

(** ** Auto refresh *)

Definition autoRefresh_interval : Z := 60000.

Definition setupAutoRefresh : M unit :=
  id ← setInterval AutoRefreshTick autoRefresh_interval;
  modify (set_refreshInterval (Some id)).

(** The closure given to [setInterval]. *)
Definition autoRefresh_tick : M unit :=
  authenticated ← gets isAuthenticated;
  if truthy authenticated then
    defined ← typeof_refreshDashboard_is_function;
    when defined refreshDashboard
  else mret tt.

(** ** Formatting *)

Definition formatNumber (num : value) : string :=
  if is_blank num then "0"
  else
    let number := parseFloat num in
    if isNaN number then "0"
    else toLocaleString number.

Definition formatCurrency (amount : value) : string :=
  formatNumber amount +:+ "원".

Definition formatPercentage (rate : value) : string :=
  if is_blank rate then "0.00%"
  else
    let number := parseFloat rate in
    if isNaN number then "0.00%"
    else toFixed number 2 +:+ "%".

(** [new Date] and [toLocaleDateString] do not throw on JSON data, so the
    [catch] branch of the source is not reached. *)
Definition formatDate (dateString : value) : string :=
  if negb (truthy dateString) then "-"
  else toLocaleDateString dateString.

Definition formatTime (timeString : value) : string :=
  if negb (truthy timeString) then "-"
  else toLocaleTimeString timeString.

(** ** The common request function *)

Definition apiRequest (url : string) (options : option request_init) (o : fetch_outcome)
  : M value :=
  let options := default no_options options in
  try_catch
    (response ← fetch {| url := url;
                         method := default "GET" (init_method options);
                         (* [...options] after [headers:] replaces the merged headers *)
                         headers := default json_headers (init_headers options);
                         payload := init_body options |} o;
     (if negb (ok response) then mthrow (HttpError (status response)) else mret tt);;
     data ← json response;
     success ← getField data f_success;
     (if is_false success then
        authenticated ← getField data f_authenticated;
        if is_false authenticated then
          console_log "인증 실패 감지, 자동 로그아웃 처리" None;;
          modify (set_isAuthenticated (VBool false));;
          updateAuthUI (VBool false);;
          showAlert (VStr "세션이 만료되었습니다. 다시 로그인해주세요.") (Some "warning") None
        else mret tt
      else mret tt);;
     mret data)
    (fun error =>
       console_error "API 요청 실패:" error;;
       mthrow error).

(** ** Navigation *)

(** [navItems.forEach(...)]. *)
Fixpoint forEach {A} (l : list A) (f : A -> M unit) : M unit :=
  match l with
  | [] => mret tt
  | x :: l' => f x;; forEach l' f
  end.

(** [document.getElementById(id)?.classList.add('active')]. *)
Definition activate (id : string) : M unit :=
  item ← getElementById id;
  if item is Some _ then update_element id item (classList_add "active") else mret tt.

(** [currentPath] is [window.location.pathname]; [navItems] holds the ids
    of the elements that [querySelectorAll('.navbar-nav .nav-link')] finds
    (the page is kept by id). *)
Definition setActiveNavigation (currentPath : string) (navItems : list string) : M unit :=
  forEach navItems (fun item =>
    modify (fun st => set_dom (alter (classList_remove "active") item (dom st)) st));;
  if String.eqb currentPath "/" then activate "nav-dashboard"
  else if String.eqb currentPath "/portfolio" then activate "nav-portfolio"
  else if String.eqb currentPath "/orders" then activate "nav-orders"
  else if String.eqb currentPath "/trading-diary" then activate "nav-trading"
  else if String.eqb currentPath "/auto-trading" then activate "nav-auto-trading"
  else mret tt.

(** ** Leaving the page *)

(** [socket.disconnect()]: the call goes to socket.io. *)
Definition socket_disconnect : M unit := emit (Invoke "socket.disconnect" None).

(** The [beforeunload] listener.  A timer id of the browser is a positive
    number, so [if (refreshInterval)] asks whether the variable was set. *)
Definition beforeunload : M unit :=
  interval ← gets refreshInterval;
  (if interval is Some id then clearInterval id else mret tt);;
  s ← gets socket;
  if s is Some _ then socket_disconnect else mret tt.

(** ** Timer callbacks *)

Definition run_task (t : task) : M unit :=
  match t with
  | RefreshWhenDefined =>
      defined ← typeof_refreshDashboard_is_function;
      when defined refreshDashboard
  | ReloadPage => emit Reload
  | RemoveAlert id =>
      (* if (alertDiv.parentNode) alertDiv.remove() *)
      modify (fun st => set_dom (alter (fun e =>
        set_children (List.filter (fun n => negb (Nat.eqb (node_id n) id)) (children e)) e)
        "alert-container" (dom st)) st)
  | AutoRefreshTick => autoRefresh_tick
  (* closures of the other version, never scheduled by this one *)
  | LoginProgressDone | RecheckAuthStatus | LoginProgressStep _ => mret tt
  end.

(** The browser running the closure of timer [id] when it is due: a
    cleared timer does not run, and a [setTimeout] timer runs once. *)
Definition fire (id : nat) : M unit :=
  t ← gets (fun st => timers st !! id);
  match t with
  | Some t =>
      if active t then
        (if periodic t then mret tt else clearInterval id);;
        run_task (callback t)
      else mret tt
  | None => mret tt
  end.

End Script.
End App.

(** * [src/unnamed/part_000] *)

Module Part000.
Section Script.
Context `{Host}.

(** ** Alerts and the loading spinner *)

Definition showAlert (message : value) (type : option string) (duration : option Z) : M unit :=
  let type := default "info" type in
  let duration := default 5000 duration in
  alertContainer ← getElementById "alert-container";
  alertDiv ← createElement;
  let className := "alert alert-" +:+ type +:+ " alert-dismissible fade show" in
  formattedMessage ←
    match message with
    | VStr s => mret (formatMessage s)
    | _ => mthrow (TypeError "message.replace is not a function")
    end;
  update_element "alert-container" alertContainer (fun e =>
    set_children (children e ++
      [{| node_id := alertDiv; node_className := className;
          node_innerHTML := alert_markup formattedMessage |}]) e);;
  setTimeout (RemoveAlert alertDiv) duration.

Definition showLoading (show : bool) : M unit :=
  spinner ← getElementById "loading-spinner";
  if spinner is Some _ then
    if show
    then update_element "loading-spinner" spinner (classList_remove "d-none")
    else update_element "loading-spinner" spinner (classList_add "d-none")
  else mret tt.

Definition hideLoading : M unit := showLoading false.

(** ** Authentication *)

Definition updateAuthUI (authenticated : value) : M unit :=
  authBtn ← getElementById "auth-btn";
  connectionStatus ← getElementById "connection-status";
  if truthy authenticated then
    update_element "auth-btn" authBtn (set_innerHTML logout_label);;
    update_element "auth-btn" authBtn (set_onclick HLogout);;
    update_element "connection-status" connectionStatus (set_innerHTML connected_label)
  else
    update_element "auth-btn" authBtn (set_innerHTML login_label);;
    update_element "auth-btn" authBtn (set_onclick HLogin);;
    update_element "connection-status" connectionStatus (set_innerHTML disconnected_label).

Definition checkAuthStatus (o : fetch_outcome) : M unit :=
  try_catch
    (response ← fetch {| url := "/api/auth/status"; method := "GET";
                         headers := []; payload := None |} o;
     data ← json response;
     authenticated ← getField data f_authenticated;
     modify (set_isAuthenticated authenticated);;
     updateAuthUI authenticated;;
     if truthy authenticated then
       console_log "인증됨 - 데이터 로드 시작" None;;
       defined ← typeof_refreshDashboard_is_function;
       when defined refreshDashboard
     else
       console_log "인증 필요" None)
    (fun error =>
       console_error "인증 상태 확인 실패:" error;;
       showAlert (VStr "인증 상태 확인에 실패했습니다.") (Some "danger") None).

(** The elements with an [id] in the markup that [showLoginProgressModal]
    inserts; the rest of that markup is not kept. *)
Definition loginProgress_ids : list string :=
  ["loginProgressModal"; "loginProgressModalLabel"; "loginProgressMessage";
   "loginProgressBar"; "loginProgressDetail"].

Definition modalHTML (d : gmap string element) : gmap string element :=
  <["loginProgressDetail" :=
      set_textContent "토큰 발급 중..." (set_className ["text-muted"] blank_element)]>
  (<["loginProgressBar" :=
      set_style_width "0%"
        (set_className ["progress-bar"; "progress-bar-striped";
                        "progress-bar-animated"; "bg-primary"] blank_element)]>
  (<["loginProgressMessage" := set_textContent "🔐 로그인 중..." blank_element]>
  (<["loginProgressModalLabel" :=
      set_innerHTML (icon "fas fa-sign-in-alt me-2" +:+ "로그인 진행 중")
        (set_className ["modal-title"] blank_element)]>
  (<["loginProgressModal" := set_className ["modal"; "fade"] blank_element]> d)))).

(** [modal.remove()]: the modal leaves the document with its descendants. *)
Definition remove_modal : M unit :=
  modify (fun st => set_dom (foldr delete (dom st) loginProgress_ids) st).

(** The steps of the progress animation: bar width and detail text. *)
Definition steps : list (string * string) :=
  [("15%", "토큰 발급 중...");
   ("25%", "보유종목 조회 중...");
   ("35%", "체결내역 수집 시작...");
   ("50%", "최근 30일 데이터 수집 중...");
   ("70%", "매수 주문 필터링 중...");
   ("85%", "데이터 저장 중...");
   ("95%", "완료 처리 중...")].

Definition startLoginProgressAnimation : M unit :=
  progressBar ← getElementById "loginProgressBar";
  progressDetail ← getElementById "loginProgressDetail";
  setInterval (LoginProgressStep 0) 3000;;
  mret tt.

Definition showLoginProgressModal : M unit :=
  existingModal ← getElementById "loginProgressModal";
  (if existingModal is Some _ then remove_modal else mret tt);;
  (* document.body.insertAdjacentHTML('beforeend', modalHTML) *)
  modify (fun st => set_dom (modalHTML (dom st)) st);;
  (* new bootstrap.Modal(document.getElementById('loginProgressModal')) *)
  loaded ← gets (fun st => has_bootstrap (env st));
  (if (loaded : bool) then mret tt else mthrow (ReferenceError "bootstrap"));;
  modal ← getElementById "loginProgressModal";
  update_element "loginProgressModal" modal (set_bs_modal (Some false));;
  (* modal.show() *)
  update_element "loginProgressModal" modal (set_bs_modal (Some true));;
  startLoginProgressAnimation.

Definition updateLoginProgress (message : string) (type : option string) : M unit :=
  let type := default "info" type in
  progressMessage ← getElementById "loginProgressMessage";
  progressBar ← getElementById "loginProgressBar";
  if progressMessage is Some _ then
    update_element "loginProgressMessage" progressMessage (set_textContent message);;
    if String.eqb type "success" then
      update_element "loginProgressMessage" progressMessage (set_className ["text-success"]);;
      update_element "loginProgressBar" progressBar (set_className ["progress-bar"; "bg-success"]);;
      update_element "loginProgressBar" progressBar (set_style_width "100%")
    else if String.eqb type "danger" then
      update_element "loginProgressMessage" progressMessage (set_className ["text-danger"]);;
      update_element "loginProgressBar" progressBar (set_className ["progress-bar"; "bg-danger"])
    else mret tt
  else mret tt.

Definition hideLoginProgressModal : M unit :=
  modal ← getElementById "loginProgressModal";
  if modal is Some m then
    (* bootstrap.Modal.getInstance(modal) *)
    loaded ← gets (fun st => has_bootstrap (env st));
    (if (loaded : bool) then mret tt else mthrow (ReferenceError "bootstrap"));;
    (if bs_modal m is Some _
     then update_element "loginProgressModal" modal (set_bs_modal (Some false))
     else mret tt);;
    (* modal.addEventListener('hidden.bs.modal', ..., { once: true }) *)
    update_element "loginProgressModal" modal (set_remove_when_hidden true)
  else mret tt.

(** The [hidden.bs.modal] listener added by [hideLoginProgressModal]. *)
Definition modal_hidden : M unit :=
  modal ← getElementById "loginProgressModal";
  if modal is Some m then
    if remove_when_hidden m then remove_modal else mret tt
  else mret tt.

Definition login (o : fetch_outcome) : M unit :=
  try_finally
    (try_catch
       (showLoading true;;
        console_log "로그인 시도 시작" None;;
        showLoginProgressModal;;
        response ← fetch {| url := "/api/auth/login"; method := "POST";
                            headers := json_headers; payload := None |} o;
        data ← json response;
        success ← getField data f_success;
        if truthy success then
          modify (set_isAuthenticated (VBool true));;
          updateAuthUI (VBool true);;
          updateLoginProgress "✅ 로그인 성공! 매수 체결내역 수집이 완료되었습니다."
            (Some "success");;
          setTimeout LoginProgressDone 2000
        else
          hideLoginProgressModal;;
          message ← getField data f_message;
          showAlert message (Some "danger") None)
       (fun error =>
          console_error "로그인 실패:" error;;
          hideLoginProgressModal;;
          showAlert (VStr "로그인 중 오류가 발생했습니다.") (Some "danger") None))
    (showLoading false).

(** [elementsToClear.forEach(...)]. *)
Fixpoint forEach {A} (l : list A) (f : A -> M unit) : M unit :=
  match l with
  | [] => mret tt
  | x :: l' => f x;; forEach l' f
  end.

(** The selectors are all of the form [#id]; they are kept as ids. *)
Definition elementsToClear : list string :=
  ["connection-status"; "account-info"; "portfolio-summary"; "recent-orders";
   "trading-diary"].

Definition loading_placeholder : string :=
  "<div class=" +:+ dquote +:+ "text-muted" +:+ dquote +:+ ">데이터를 불러오는 중...</div>".

Definition clearDashboard : M unit :=
  console_log "대시보드 데이터 초기화" None;;
  forEach elementsToClear (fun selector =>
    element ← getElementById selector;
    if element is Some _
    then update_element selector element (set_innerHTML loading_placeholder)
    else mret tt).

(** [confirmed] is the user's answer to the [confirm] dialog. *)
Definition logout (confirmed : bool) (o : fetch_outcome) : M unit :=
  try_finally
    (try_catch
       (if negb confirmed then mret tt
        else
          showLoading true;;
          response ← fetch {| url := "/api/auth/logout"; method := "POST";
                              headers := json_headers; payload := None |} o;
          data ← json response;
          success ← getField data f_success;
          if truthy success then
            modify (set_isAuthenticated (VBool false));;
            updateAuthUI (VBool false);;
            (* typeof clearDashboard === 'function': this script defines it *)
            clearDashboard;;
            message ← getField data f_message;
            showAlert message (Some "info") None;;
            setTimeout RecheckAuthStatus 500
          else
            message ← getField data f_message;
            showAlert message (Some "danger") None)
       (fun error =>
          console_error "로그아웃 실패:" error;;
          showAlert (VStr "로그아웃 중 오류가 발생했습니다.") (Some "danger") None))
    (showLoading false).

(** ** The push channel *)

Definition updateConnectionStatus (connected : bool) : M unit :=
  connectionStatus ← getElementById "connection-status";
  if connected
  then update_element "connection-status" connectionStatus (set_innerHTML connected_label)
  else update_element "connection-status" connectionStatus (set_innerHTML disconnected_label).

(** The body is empty in the source; the call is recorded in the trace so
    that it can be observed. *)
Definition updateRealTimeData (data : value) : M unit :=
  emit (Invoke "updateRealTimeData" (Some data)).

Definition handleRealTimeUpdate (data : value) : M unit :=
  d ← getField data f_data;
  if truthy d then
    n ← keys_length d;
    if (0 <? n)%nat then
      d ← getField data f_data;
      updateRealTimeData d
    else mret tt
  else mret tt.

(** [socket.on(name, h)]. *)
Definition socket_on (name : string) (h : socket_handler) : M unit :=
  s ← gets socket;
  match s with
  | Some listeners => modify (set_socket (Some (listeners ++ [(name, h)])))
  | None => mthrow (TypeError "Cannot read properties of null")
  end.

(** [io()]: a fresh socket without listeners. *)
Definition io : M (list (string * socket_handler)) :=
  loaded ← gets (fun st => has_io (env st));
  if (loaded : bool) then mret ([] : list (string * socket_handler))
  else mthrow (ReferenceError "io").

Definition connectWebSocket : M unit :=
  try_catch
    (s ← io;
     modify (set_socket (Some s));;
     socket_on "connect" OnConnect;;
     socket_on "disconnect" OnDisconnect;;
     socket_on "status" OnStatus;;
     socket_on "update" OnUpdate;;
     socket_on "subscribed" OnSubscribed)
    (fun error => console_error "웹소켓 연결 실패:" error).

(** The functions given to [socket.on], applied to an event's payload. *)
Definition socket_listener (h : socket_handler) (data : value) : M unit :=
  match h with
  | OnConnect =>
      console_log "웹소켓 연결됨" None;;
      updateConnectionStatus true
  | OnDisconnect =>
      console_log "웹소켓 연결 끊김" None;;
      updateConnectionStatus false
  | OnStatus =>
      console_log "서버 상태:" (Some data)
  | OnUpdate =>
      console_log "실시간 업데이트:" (Some data);;
      handleRealTimeUpdate data
  | OnSubscribed =>
      console_log "구독됨:" (Some data);;
      stock_code ← getField data f_stock_code;
      showAlert (VStr (ToString stock_code +:+ " 종목 구독됨")) (Some "info") None
  end.

(** An event arriving on the socket runs the listeners registered under
    its name, in registration order. *)
Fixpoint run_listeners (ls : list (string * socket_handler)) (name : string) (data : value)
  : M unit :=
  match ls with
  | [] => mret tt
  | (n, h) :: ls' =>
      (if String.eqb n name then socket_listener h data else mret tt);;
      run_listeners ls' name data
  end.

Definition socket_receive (name : string) (data : value) : M unit :=
  s ← gets socket;
  match s with
  | Some listeners => run_listeners listeners name data
  | None => mret tt
  end.

(** ** Quote lookup from the stock-code field *)

Definition displayStockInfo (stockInfo : value) : M unit :=
  console_log "종목 정보:" (Some stockInfo).

Definition searchStockInfo (stockCode : string) (o : fetch_outcome) : M unit :=
  try_catch
    (response ← fetch {| url := "/api/quote/stock/" +:+ stockCode; method := "GET";
                         headers := []; payload := None |} o;
     data ← json response;
     success ← getField data f_success;
     if truthy success then
       d ← getField data f_data;
       displayStockInfo d
     else mret tt)
    (fun error => console_error "종목 정보 검색 실패:" error).

(** The [input] listener that [setupEventListeners] puts on [#stock-code]
    (when the page has that element); [value] is [this.value]. *)
Definition stockCodeInput_input (value : string) (o : fetch_outcome) : M unit :=
  if (6 <=? js_length value)%nat then searchStockInfo value o else mret tt.

(** ** Auto refresh *)

Definition autoRefresh_interval : Z := 60000.

Definition setupAutoRefresh : M unit :=
  id ← setInterval AutoRefreshTick autoRefresh_interval;
  modify (set_refreshInterval (Some id)).

(** The closure given to [setInterval]. *)
Definition autoRefresh_tick : M unit :=
  authenticated ← gets isAuthenticated;
  if truthy authenticated then
    defined ← typeof_refreshDashboard_is_function;
    when defined refreshDashboard
  else mret tt.

(** ** Formatting *)

Definition formatNumber (num : value) : string :=
  if is_blank num then "0"
  else
    let number := parseFloat num in
    if isNaN number then "0"
    else toLocaleString number.

Definition formatCurrency (amount : value) : string :=
  formatNumber amount +:+ "원".

Definition formatPercentage (rate : value) : string :=
  if is_blank rate then "0.00%"
  else
    let number := parseFloat rate in
    if isNaN number then "0.00%"
    else toFixed number 2 +:+ "%".

(** [new Date] and [toLocaleDateString] do not throw on JSON data, so the
    [catch] branch of the source is not reached. *)
Definition formatDate (dateString : value) : string :=
  if negb (truthy dateString) then "-"
  else toLocaleDateString dateString.

Definition formatTime (timeString : value) : string :=
  if negb (truthy timeString) then "-"
  else toLocaleTimeString timeString.

(** ** The common request function *)

Definition apiRequest (url : string) (options : option request_init) (o : fetch_outcome)
  : M value :=
  let options := default no_options options in
  try_catch
    (response ← fetch {| url := url;
                         method := default "GET" (init_method options);
                         (* [...options] after [headers:] replaces the merged headers *)
                         headers := default json_headers (init_headers options);
                         payload := init_body options |} o;
     (if negb (ok response) then mthrow (HttpError (status response)) else mret tt);;
     data ← json response;
     success ← getField data f_success;
     (if is_false success then
        authenticated ← getField data f_authenticated;
        if is_false authenticated then
          console_log "인증 실패 감지, 자동 로그아웃 처리" None;;
          modify (set_isAuthenticated (VBool false));;
          updateAuthUI (VBool false);;
          showAlert (VStr "세션이 만료되었습니다. 다시 로그인해주세요.") (Some "warning") None
        else mret tt
      else mret tt);;
     mret data)
    (fun error =>
       console_error "API 요청 실패:" error;;
       mthrow error).

(** ** Navigation *)

(** [document.getElementById(id)?.classList.add('active')]. *)
Definition activate (id : string) : M unit :=
  item ← getElementById id;
  if item is Some _ then update_element id item (classList_add "active") else mret tt.

(** [currentPath] is [window.location.pathname]; [navItems] holds the ids
    of the elements that [querySelectorAll('.navbar-nav .nav-link')] finds
    (the page is kept by id). *)
Definition setActiveNavigation (currentPath : string) (navItems : list string) : M unit :=
  forEach navItems (fun item =>
    modify (fun st => set_dom (alter (classList_remove "active") item (dom st)) st));;
  if String.eqb currentPath "/" then activate "nav-dashboard"
  else if String.eqb currentPath "/portfolio" then activate "nav-portfolio"
  else if String.eqb currentPath "/orders" then activate "nav-orders"
  else if String.eqb currentPath "/trading-diary" then activate "nav-trading"
  else if String.eqb currentPath "/auto-trading" then activate "nav-auto-trading"
  else mret tt.

(** ** Leaving the page *)

(** [socket.disconnect()]: the call goes to socket.io. *)
Definition socket_disconnect : M unit := emit (Invoke "socket.disconnect" None).

(** The [beforeunload] listener.  A timer id of the browser is a positive
    number, so [if (refreshInterval)] asks whether the variable was set. *)
Definition beforeunload : M unit :=
  interval ← gets refreshInterval;
  (if interval is Some id then clearInterval id else mret tt);;
  s ← gets socket;
  if s is Some _ then socket_disconnect else mret tt.

(** ** Timer callbacks *)

(** [id] is the timer the closure belongs to; [o] is the outcome of the
    request an [async] closure makes. *)
Definition run_task (id : nat) (t : task) (o : fetch_outcome) : M unit :=
  match t with
  | LoginProgressDone =>
      hideLoginProgressModal;;
      showAlert (VStr "✅ 로그인 성공!") (Some "success") None;;
      defined ← typeof_refreshDashboard_is_function;
      when defined refreshDashboard
  | RecheckAuthStatus =>
      try_catch (checkAuthStatus o)
        (fun error => console_error "로그아웃 후 인증 상태 확인 실패:" error)
  | RemoveAlert alertDiv =>
      (* if (alertDiv.parentNode) alertDiv.remove() *)
      modify (fun st => set_dom (alter (fun e =>
        set_children (List.filter (fun n => negb (Nat.eqb (node_id n) alertDiv)) (children e)) e)
        "alert-container" (dom st)) st)
  | AutoRefreshTick => autoRefresh_tick
  | LoginProgressStep currentStep =>
      match steps !! currentStep with
      | Some (progress, message) =>
          (* progressBar and progressDetail were found when the animation started *)
          modify (fun st => set_dom
            (alter (set_textContent message) "loginProgressDetail"
              (alter (set_style_width progress) "loginProgressBar" (dom st))) st);;
          (* currentStep++ *)
          modify (fun st => set_timers (alter (fun t =>
            {| delay := delay t; periodic := periodic t;
               callback := LoginProgressStep (S currentStep); active := active t |})
            id (timers st)) st)
      | None => clearInterval id
      end
  (* closures of the other version, never scheduled by this one *)
  | RefreshWhenDefined | ReloadPage => mret tt
  end.

(** The browser running the closure of timer [id] when it is due: a
    cleared timer does not run, and a [setTimeout] timer runs once.  [o] is
    the outcome of the request the closure makes, if it makes one. *)
Definition fire (id : nat) (o : fetch_outcome) : M unit :=
  t ← gets (fun st => timers st !! id);
  match t with
  | Some t =>
      if active t then
        (if periodic t then mret tt else clearInterval id);;
        run_task id (callback t) o
      else mret tt
  | None => mret tt
  end.

End Script.
End Part000.

(** * The server side, as far as the specification describes it *)

Module Server.

(** ** Order placement *)

(** Modelled from the spec: the sides and the one order type of an
    [OrderRequest] (section 3); credit order types are excluded by design. *)
Inductive side : Type := buy | sell.
Inductive order_type : Type := cash.

(** Modelled from the spec: the order routes of the HTTP facade and the
    broker client (src/web/app.py, src/api/order.py) are missing from the
    source tree.  An [OrderRequest] as it arrives, before validation
    (section 3): quantity is an integer and price a decimal of any sign. *)
Record OrderRequest : Type := {
  symbol_code : string;
  order_side : side;
  quantity : Z;
  price : Q;
  kind : order_type
}.

(** Modelled from the spec: the error taxonomy of section 7. *)
Inductive error_kind : Type :=
| AuthError
| ValidationError (field : string)
| UpstreamError
| TransportError.

(** Modelled from the spec: the structured result of an order route
    (sections 4.5 and 7). *)
Inductive reply : Type :=
| Submitted (order_id : string)
| Failed (k : error_kind) (message : string).

Definition is_digit (c : ascii) : bool :=
  let n := nat_of_ascii c in ((48 <=? n) && (n <=? 57))%nat.

(** Modelled from the spec: "symbol_code is a fixed-length numeric string"
    (section 3), of six digits (section 8). *)
Definition is_symbol_code (s : string) : bool :=
  Nat.eqb (String.length s) 6 && forallb is_digit (list_ascii_of_string s).

(** Modelled from the spec: the request-shape validation of section 4.5,
    with the field-level message of section 7; [None] when the request
    satisfies the invariants of section 3. *)
Definition validate (r : OrderRequest) : option string :=
  if negb (is_symbol_code (symbol_code r)) then Some "symbol_code"
  else if (quantity r <=? 0)%Z then Some "quantity"
  else if Qle_bool (price r) 0 then Some "price"
  else None.

(** Modelled from the spec: order placement behind the facade (sections
    4.5 and 8): validate, then one round trip to the broker.  [broker] is
    the external brokerage; the second component lists the network calls
    made.  The [requireAuth] guard of section 4.1 sits in front of this. *)
Definition placeOrder (broker : OrderRequest -> reply) (r : OrderRequest)
  : reply * list OrderRequest :=
  match validate r with
  | Some field => (Failed (ValidationError field) ("invalid " +:+ field), [])
  | None => (broker r, [r])
  end.

(** Modelled from the spec: a request violates an invariant of section 3
    when its quantity or its price is not positive or its symbol code is
    malformed (section 7, ValidationError). *)
Definition violates_invariant (r : OrderRequest) : Prop :=
  (quantity r <= 0)%Z \/ (price r <= 0)%Q \/ is_symbol_code (symbol_code r) = false.

(** ** The session gate *)

(** Modelled from the spec: [server_type] of the session (section 3). *)
Inductive server_type : Type := mock | real.

(** Modelled from the spec: the process-wide session of sections 3 and 4.1
    (src/api/auth.py and src/web/app.py are missing from the source
    tree). *)
Record Session : Type := {
  authenticated : bool;
  access_token : string;
  token_expiry : Z;
  server : server_type
}.

(** Modelled from the spec: the [{success, message}] answer of [logout]. *)
Record logout_reply : Type := { success : bool; message : string }.

(** Modelled from the spec: "clears Session state unconditionally". *)
Definition logout (s : Session) : logout_reply * Session :=
  ({| success := true; message := "logged out" |},
   {| authenticated := false; access_token := ""; token_expiry := 0;
      server := server s |}).

(** Modelled from the spec: "pure read of current Session state". *)
Definition status (s : Session) : bool := authenticated s.

End Server.

(** * Concrete inputs *)

(** A host for running the script on concrete inputs.  Its [parseFloat]
    reads a number as itself and a string of decimal digits as that
    integer, and answers NaN otherwise; its formatting functions only tell
    NaN from a number. *)
Fixpoint digits_value (acc : Z) (s : string) : option Z :=
  match s with
  | EmptyString => Some acc
  | String c s' =>
      if Server.is_digit c
      then digits_value (10 * acc + (Z.of_nat (nat_of_ascii c) - 48)) s'
      else None
  end.

Definition digits_parseFloat (v : value) : spec_float :=
  match v with
  | VNum n => n
  | VStr (String c s') =>
      match digits_value 0 (String c s') with
      | Some z => binary_normalize 53 1024 z 0 false
      | None => S754_nan
      end
  | _ => S754_nan
  end.

Definition digits_host : Host :=
  {| parseFloat := digits_parseFloat;
     toLocaleString := fun n => if isNaN n then "NaN" else "number";
     toFixed := fun n _ => if isNaN n then "NaN" else "number";
     toLocaleDateString := fun _ => "date";
     toLocaleTimeString := fun _ => "time";
     numberToString := fun n => if isNaN n then "NaN" else "number" |}.

Definition object (fields : list (string * value)) : value :=
  VObj (list_to_map fields).

(** A page with the elements of the authentication UI, showing the
    logged-in state, and an empty alert container. *)
Definition page_logged_in : gmap string element :=
  <["auth-btn" := set_onclick HLogout (set_innerHTML logout_label blank_element)]>
  (<["connection-status" := set_innerHTML connected_label blank_element]>
  (<["alert-container" := blank_element]> ∅)).

Definition page_logged_out : gmap string element :=
  <["auth-btn" := set_onclick HLogin (set_innerHTML login_label blank_element)]>
  (<["connection-status" := set_innerHTML disconnected_label blank_element]>
  (<["alert-container" := blank_element]> ∅)).

Definition all_loaded : globals :=
  {| has_io := true; has_bootstrap := true; has_refreshDashboard := true |}.

Definition st_logged_in : state :=
  {| socket := None; isAuthenticated := VBool true; refreshInterval := None;
     currentServerInfo := VNull; dom := page_logged_in; next_node := 0;
     timers := []; trace := []; env := all_loaded |}.

Definition st_logged_out : state :=
  {| socket := None; isAuthenticated := VBool false; refreshInterval := None;
     currentServerInfo := VNull; dom := page_logged_out; next_node := 0;
     timers := []; trace := []; env := all_loaded |}.

(** The structured "unauthenticated" body, sent with HTTP status 401 and
    with HTTP status 200. *)
Definition unauthenticated_body : value :=
  object [("success", VBool false); ("authenticated", VBool false);
          ("message", VStr "login required")].

Definition response_401 : response :=
  {| status := 401; body := Some unauthenticated_body |}.

Definition response_200 (v : value) : response :=
  {| status := 200; body := Some v |}.

(** The logged-out page with a spinner that is showing. *)
Definition st_loading : state :=
  set_dom (<["loading-spinner" := set_className ["spinner-border"] blank_element]>
             page_logged_out) st_logged_out.

(** A page with two navigation links, the second one marked active. *)
Definition st_navigation : state :=
  set_dom (<["nav-dashboard" := set_className ["nav-link"] blank_element]>
          (<["nav-orders" := set_className ["nav-link"; "active"] blank_element]> ∅))
    st_logged_out.

(** The logged-out page when the bootstrap script has not been loaded. *)
Definition st_no_bootstrap : state :=
  {| socket := None; isAuthenticated := VBool false; refreshInterval := None;
     currentServerInfo := VNull; dom := page_logged_out; next_node := 0;
     timers := []; trace := [];
     env := {| has_io := true; has_bootstrap := false; has_refreshDashboard := true |} |}.

(** * Vocabulary of the statements *)

(** The page has the two elements of the authentication UI. *)
Definition has_auth_ui (st : state) (authBtn connectionStatus : element) : Prop :=
  dom st !! "auth-btn" = Some authBtn /\
  dom st !! "connection-status" = Some connectionStatus.

(** The page has the container that alerts are appended to. *)
Definition has_alert_container (st : state) (alertContainer : element) : Prop :=
  dom st !! "alert-container" = Some alertContainer.

(** The authentication UI in its two states, over the elements it started from. *)
Definition shows_logged_out (st : state) (authBtn connectionStatus : element) : Prop :=
  dom st !! "auth-btn" = Some (set_onclick HLogin (set_innerHTML login_label authBtn)) /\
  dom st !! "connection-status" = Some (set_innerHTML disconnected_label connectionStatus).

Definition shows_logged_in (st : state) (authBtn connectionStatus : element) : Prop :=
  dom st !! "auth-btn" = Some (set_onclick HLogout (set_innerHTML logout_label authBtn)) /\
  dom st !! "connection-status" = Some (set_innerHTML connected_label connectionStatus).

(** The node [showAlert] builds for a message of a given type. *)
Definition alert_node (id : nat) (type message : string) : node :=
  {| node_id := id;
     node_className := "alert alert-" +:+ type +:+ " alert-dismissible fade show";
     node_innerHTML := alert_markup (formatMessage message) |}.

(** The alert container, once that node has been appended to it. *)
Definition alert_shown (st : state) (alertContainer : element) (id : nat)
    (type message : string) : Prop :=
  dom st !! "alert-container" =
    Some (set_children (children alertContainer ++ [alert_node id type message])
            alertContainer).

(** The body of a response asks for the forced logout:
    [data.success === false && data.authenticated === false]. *)
Definition auth_failure (data : value) : bool :=
  is_false (member data f_success) && is_false (member data f_authenticated).

(** The request [apiRequest] sends. *)
Definition api_request (url : string) (options : option request_init) : request :=
  {| url := url;
     method := default "GET" (init_method (default no_options options));
     headers := default json_headers (init_headers (default no_options options));
     payload := init_body (default no_options options) |}.

(** A one-shot timer, as [setTimeout] registers it. *)
Definition timeout (d : Z) (t : task) : timer :=
  {| delay := d; periodic := false; callback := t; active := true |}.

(** The page after [showLoading(show)]. *)
Definition spinner_dom (show : bool) (d : gmap string element) : gmap string element :=
  match d !! "loading-spinner" with
  | Some _ =>
      alter (if show then classList_remove "d-none" else classList_add "d-none")
        "loading-spinner" d
  | None => d
  end.

(** The page after [updateAuthUI(authenticated)]. *)
Definition auth_ui_dom (authenticated : bool) (d : gmap string element)
  : gmap string element :=
  if authenticated then
    alter (set_innerHTML connected_label) "connection-status"
      (alter (set_onclick HLogout) "auth-btn"
        (alter (set_innerHTML logout_label) "auth-btn" d))
  else
    alter (set_innerHTML disconnected_label) "connection-status"
      (alter (set_onclick HLogin) "auth-btn"
        (alter (set_innerHTML login_label) "auth-btn" d)).

(** The state after [showAlert(message, type)]. *)
Definition alert_state (type message : string) (st : state) : state :=
  set_timers (timers st ++ [timeout 5000 (RemoveAlert (next_node st))])
    (set_dom (alter (fun e => set_children
                                (children e ++ [alert_node (next_node st) type message]) e)
                "alert-container" (dom st))
       (set_next_node (S (next_node st)) st)).

(** The page after [showLoginProgressModal()] of part_000. *)
Definition modal_dom (d : gmap string element) : gmap string element :=
  alter (set_bs_modal (Some true)) "loginProgressModal"
    (alter (set_bs_modal (Some false)) "loginProgressModal"
      (Part000.modalHTML
        (match d !! "loginProgressModal" with
         | Some _ => foldr delete d Part000.loginProgress_ids
         | None => d
         end))).

(** The page after [updateLoginProgress(message, 'success')] of part_000. *)
Definition progress_dom (message : string) (d : gmap string element)
  : gmap string element :=
  alter (set_style_width "100%") "loginProgressBar"
    (alter (set_className ["progress-bar"; "bg-success"]) "loginProgressBar"
      (alter (set_className ["text-success"]) "loginProgressMessage"
        (alter (set_textContent message) "loginProgressMessage" d))).

(** The page after [hideLoginProgressModal()] of part_000. *)
Definition hidden_dom (d : gmap string element) : gmap string element :=
  match d !! "loginProgressModal" with
  | Some m =>
      alter (set_remove_when_hidden true) "loginProgressModal"
        (if bs_modal m is Some _
         then alter (set_bs_modal (Some false)) "loginProgressModal" d
         else d)
  | None => d
  end.

Definition logged_out (st : state) : Prop := isAuthenticated st = VBool false.

(** Running [m] keeps the state predicate [P], however [m] ends. *)
Definition preserves {A} (P : state -> Prop) (m : M A) : Prop :=
  forall st, P st -> P (snd (m st)).

(** The listeners that [connectWebSocket] leaves on the socket. *)
Definition registered : list (string * socket_handler) :=
  [("connect", OnConnect); ("disconnect", OnDisconnect); ("status", OnStatus);
   ("update", OnUpdate); ("subscribed", OnSubscribed)].

(** ** Vocabulary of the further properties *)

(** [s] holds no byte [n]. *)
Definition no_byte (n : nat) (s : string) : bool :=
  forallb (fun c => negb (nat_of_ascii c =? n)%nat) (list_ascii_of_string s).

(** Every alert on the page is older than the next node to be created. *)
Definition fresh_nodes (st : state) : bool :=
  match dom st !! "alert-container" with
  | Some a => forallb (fun n => (node_id n <? next_node st)%nat) (children a)
  | None => true
  end.

(** The state after [showAlert(message, type, duration)]. *)
Definition alert_state_for (type : option string) (duration : option Z) (message : string)
    (st : state) : state :=
  set_timers (timers st ++ [timeout (default 5000 duration) (RemoveAlert (next_node st))])
    (set_dom (alter (fun e => set_children
                (children e ++ [alert_node (next_node st) (default "info" type) message]) e)
                "alert-container" (dom st))
       (set_next_node (S (next_node st)) st)).

(** A timer that has run or was cleared. *)
Definition spent (t : timer) : timer :=
  {| delay := delay t; periodic := periodic t; callback := callback t; active := false |}.

(** The interval that [setupAutoRefresh] registers. *)
Definition refresh_timer : timer :=
  {| delay := App.autoRefresh_interval; periodic := true; callback := AutoRefreshTick;
     active := true |}.

(** The page after [updateAuthUI] has switched the button and then failed
    on a missing [#connection-status]. *)
Definition auth_btn_dom (authenticated : bool) (d : gmap string element)
  : gmap string element :=
  if authenticated
  then alter (set_onclick HLogout) "auth-btn" (alter (set_innerHTML logout_label) "auth-btn" d)
  else alter (set_onclick HLogin) "auth-btn" (alter (set_innerHTML login_label) "auth-btn" d).

(** The page has an element with this id. *)
Definition has_element (id : string) (st : state) : Prop := is_Some (dom st !! id).

(** The element under [id] carries the class [c]. *)
Definition has_class (c id : string) (st : state) : Prop :=
  exists e, dom st !! id = Some e /\ c ∈ className e.

(** The request brings no JSON object to read: the network failed, the body
    is not JSON, or it is [null]. *)
Definition no_data (o : fetch_outcome) : bool :=
  match o with
  | NetworkFailure => true
  | Responded r =>
      match body r with
      | None | Some VNull | Some VUndefined => true
      | Some _ => false
      end
  end.

(** What reading such a response throws. *)
Definition request_error (o : fetch_outcome) : error :=
  match o with
  | NetworkFailure => NetworkError
  | Responded r =>
      match body r with
      | Some VUndefined => TypeError "Cannot read properties of undefined"
      | Some VNull => TypeError "Cannot read properties of null"
      | _ => SyntaxError
      end
  end.

(** The page after [clearDashboard()] of part_000. *)
Definition cleared_dom (d : gmap string element) : gmap string element :=
  foldl (fun d id => alter (set_innerHTML Part000.loading_placeholder) id d) d
    Part000.elementsToClear.

(** What [checkAuthStatus] writes to the console and calls after the
    response. *)
Definition auth_status_log (authenticated : value) (st : state) : list event :=
  if truthy authenticated then
    ConsoleLog "인증됨 - 데이터 로드 시작" None ::
    (if has_refreshDashboard (env st) then [Invoke "refreshDashboard" None] else [])
  else [ConsoleLog "인증 필요" None].

(** The requests in a trace, oldest first. *)
Definition requests (t : list event) : list request :=
  omap (fun e => match e with Fetch r => Some r | _ => None end) t.

(** The requests sent so far are [l]. *)
Definition sent (l : list request) (st : state) : Prop := requests (trace st) = l.

(** An event other than a request. *)
Definition no_request (e : event) : bool :=
  match e with Fetch _ => false | _ => true end.

(** The requests of [login], [logout] and [checkAuthStatus]. *)
Definition login_request : request :=
  {| url := "/api/auth/login"; method := "POST"; headers := json_headers; payload := None |}.
Definition logout_request : request :=
  {| url := "/api/auth/logout"; method := "POST"; headers := json_headers; payload := None |}.
Definition status_request : request :=
  {| url := "/api/auth/status"; method := "GET"; headers := []; payload := None |}.
Definition quote_request (stockCode : string) : request :=
  {| url := "/api/quote/stock/" +:+ stockCode; method := "GET"; headers := [];
     payload := None |}.

(** The page after [showLoginProgressModal()] of part_000 has failed for
    want of bootstrap: the markup is in, no dialog object was made. *)
Definition modal_markup_dom (d : gmap string element) : gmap string element :=
  Part000.modalHTML
    (match d !! "loginProgressModal" with
     | Some _ => foldr delete d Part000.loginProgress_ids
     | None => d
     end).

(** The page has none of the elements of the login dialog. *)
Definition no_modal (d : gmap string element) : bool :=
  forallb (fun id => if d !! id is Some _ then false else true) Part000.loginProgress_ids.

(** The interval of the progress animation, with its closure's counter. *)
Definition animation (currentStep : nat) (running : bool) : timer :=
  {| delay := 3000; periodic := true; callback := LoginProgressStep currentStep;
     active := running |}.

(** The state after the browser has fired timer [id] [n] times (part_000). *)
Fixpoint fired (n : nat) (id : nat) (o : fetch_outcome) (st : state) : state :=
  match n with
  | O => st
  | S n' => snd (Part000.fire id o (fired n' id o st))
  end.

(** Bar width and detail text of the login dialog after [n] ticks of its
    animation: the markup's at first, then the steps', the last one for good. *)
Definition animation_frame (n : nat) : string * string :=
  match n with
  | O => ("0%", "토큰 발급 중...")
  | S k => default ("95%", "완료 처리 중...") (Part000.steps !! k)
  end.

(** What the dialog shows: the width of its bar and its detail text. *)
Definition dialog_shows (st : state) (frame : string * string) : Prop :=
  style_width <$> dom st !! "loginProgressBar" = Some (fst frame) /\
  textContent <$> dom st !! "loginProgressDetail" = Some (snd frame).

(** The navigation link that [setActiveNavigation] picks for a path. *)
Definition nav_target (currentPath : string) : option string :=
  if String.eqb currentPath "/" then Some "nav-dashboard"
  else if String.eqb currentPath "/portfolio" then Some "nav-portfolio"
  else if String.eqb currentPath "/orders" then Some "nav-orders"
  else if String.eqb currentPath "/trading-diary" then Some "nav-trading"
  else if String.eqb currentPath "/auto-trading" then Some "nav-auto-trading"
  else None.

(** * Running the script symbolically *)

Arguments M_bind {A B} f m st /.
Arguments M_ret {A} a st /.
Arguments M_throw {A} e st /.
Arguments modify f st /.
Arguments gets {A} f st /.
Arguments try_catch {A} m h st /.
Arguments try_finally {A} m f st /.
Arguments when b m /.
Arguments emit e st /.
Arguments console_log label arg st /.
Arguments console_error label e st /.
Arguments getElementById id st /.
Arguments update_element id e f st /.
Arguments setTimer d p t st /.
Arguments setTimeout t d st /.
Arguments setInterval t d st /.
Arguments clearInterval id st /.
Arguments createElement st /.
Arguments fetch r o st /.
Arguments json r st /.
Arguments getField v f st /.
Arguments keys_length v st /.
Arguments refreshDashboard st /.
Arguments typeof_refreshDashboard_is_function st /.
Arguments login_label : simpl never.
Arguments logout_label : simpl never.
Arguments connected_label : simpl never.
Arguments disconnected_label : simpl never.
Arguments alert_markup : simpl never.
Arguments formatMessage : simpl never.
Arguments String.append : simpl never.
Arguments js_length : simpl never.
Arguments own_keys : simpl never.
Arguments member : simpl never.
Arguments ok : simpl never.

Create HintDb js discriminated.
#[global] Hint Unfold
  App.showAlert App.showLoading App.hideLoading App.updateAuthUI App.checkAuthStatus
  App.login App.logout App.updateConnectionStatus App.updateRealTimeData
  App.handleRealTimeUpdate App.socket_on App.io App.connectWebSocket App.socket_listener
  App.socket_receive App.displayStockInfo App.searchStockInfo App.stockCodeInput_input
  App.setupAutoRefresh App.autoRefresh_tick App.apiRequest App.run_task : js.
#[global] Hint Unfold
  Part000.showAlert Part000.showLoading Part000.hideLoading Part000.updateAuthUI
  Part000.checkAuthStatus Part000.modalHTML Part000.remove_modal Part000.startLoginProgressAnimation
  Part000.showLoginProgressModal Part000.updateLoginProgress Part000.hideLoginProgressModal
  Part000.modal_hidden Part000.login Part000.clearDashboard Part000.logout
  Part000.updateConnectionStatus Part000.updateRealTimeData Part000.handleRealTimeUpdate
  Part000.socket_on Part000.io Part000.connectWebSocket Part000.socket_listener
  Part000.socket_receive Part000.displayStockInfo Part000.searchStockInfo
  Part000.stockCodeInput_input Part000.setupAutoRefresh Part000.autoRefresh_tick
  Part000.apiRequest Part000.run_task : js.

#[global] Hint Unfold
  App.activate App.setActiveNavigation App.socket_disconnect App.beforeunload App.fire
  Part000.activate Part000.setActiveNavigation Part000.socket_disconnect
  Part000.beforeunload Part000.fire : js.

(** Lookups in the page after the script's updates. *)
Ltac js_lookup :=
  repeat first
    [ rewrite lookup_alter_eq
    | rewrite lookup_alter_ne by done
    | rewrite lookup_insert_eq
    | rewrite lookup_insert_ne by done
    | rewrite lookup_delete_eq
    | rewrite lookup_delete_ne by done
    | match goal with
      | H : _ !! _ = _ |- _ => rewrite H
      | H : body _ = _ |- _ => rewrite H
      | H : ok _ = _ |- _ => rewrite H
      | H : member _ _ = _ |- _ => rewrite H
      | H : truthy _ = _ |- _ => rewrite H
      | H : is_false _ = _ |- _ => rewrite H
      | H : has_io _ = _ |- _ => rewrite H
      | H : has_bootstrap _ = _ |- _ => rewrite H
      | H : has_refreshDashboard _ = _ |- _ => rewrite H
      | H : bs_modal _ = _ |- _ => rewrite H
      | H : Nat.leb _ _ = _ |- _ => rewrite H
      | H : Nat.ltb _ _ = _ |- _ => rewrite H
      end ].

(** Unfold the script down to the primitive effects and run it as far as
    the hypotheses determine the path. *)
Ltac js_run :=
  repeat autounfold with js;
  repeat (progress (try unfold mbind; try unfold mret; try unfold mthrow; cbn; js_lookup)).

(** * The definitions on small inputs *)

Example js_length_digits : js_length "005930" = 6%nat.
Proof. reflexivity. Qed.

Example js_length_hangul : js_length "종목" = 2%nat.
Proof. reflexivity. Qed.

Example js_length_surrogates : js_length "🔐" = 2%nat.
Proof. reflexivity. Qed.

Example formatMessage_line_break_and_icon :
  formatMessage ("a" +:+ newline +:+ "b ✅") =
    "a<br>b " +:+ icon "fas fa-check-circle text-success me-1".
Proof. reflexivity. Qed.

Example formatMessage_plain : formatMessage "005930 종목 구독됨" = "005930 종목 구독됨".
Proof. reflexivity. Qed.

Example truthy_negative_zero : truthy (VNum (S754_zero true)) = false.
Proof. reflexivity. Qed.

Example truthy_empty_object : truthy (VObj ∅) = true.
Proof. reflexivity. Qed.

Example own_keys_of_string : own_keys (VStr "abc") = 3%nat.
Proof. reflexivity. Qed.

Example ToString_array :
  @ToString digits_host (VArr [VStr "a"; VNull; VBool true]) = "a,,true".
Proof. reflexivity. Qed.

Example symbol_code_samsung : Server.is_symbol_code "005930" = true.
Proof. reflexivity. Qed.

Example ok_statuses : ok (response_200 VNull) = true /\ ok response_401 = false.
Proof. split; reflexivity. Qed.

Example digits_parseFloat_reads : isNaN (digits_parseFloat (VStr "70000")) = false.
Proof. reflexivity. Qed.

(** app.js: a successful logout schedules the page reload; part_000
    schedules the status check instead, after clearing the dashboard. *)
Example logout_schedules :
  last (timers (snd (App.logout true
          (Responded (response_200 (object [("success", VBool true);
                                            ("message", VStr "bye")])))
          st_logged_in))) = Some (timeout 1000 ReloadPage) /\
  last (timers (snd (Part000.logout true
          (Responded (response_200 (object [("success", VBool true);
                                            ("message", VStr "bye")])))
          st_logged_in))) = Some (timeout 500 RecheckAuthStatus).
Proof. split; vm_compute; reflexivity. Qed.

(** A cancelled [confirm] sends nothing. *)
Example logout_cancelled :
  App.logout false NetworkFailure st_logged_in = (Ok tt, st_logged_in).
Proof. reflexivity. Qed.

(** * Properties of the monad *)

Lemma bind_ok {A B} (m : M A) (f : A -> M B) st a st1 :
  m st = (Ok a, st1) -> (m ≫= f) st = f a st1.
Proof. intros E. unfold mbind, M_bind. rewrite E. reflexivity. Qed.

(** Stepping over a statement of a [try] block that completes normally. *)
Lemma try_step {A B} (m : M A) (f : A -> M B) (h : error -> M B) (fin : M unit) st a st1 :
  m st = (Ok a, st1) ->
  try_finally (try_catch (m ≫= f) h) fin st = try_finally (try_catch (f a) h) fin st1.
Proof. intros E. unfold try_finally, try_catch. rewrite (bind_ok _ _ _ _ _ E). reflexivity. Qed.

(** The last statement of a [try] block, and the [finally] block after it. *)
Lemma try_done {A} (m : M A) (h : error -> M A) (fin : M unit) st a st1 st2 :
  m st = (Ok a, st1) -> fin st1 = (Ok tt, st2) ->
  try_finally (try_catch m h) fin st = (Ok a, st2).
Proof. intros E F. unfold try_finally, try_catch. rewrite E, F. reflexivity. Qed.

(** Stepping over a statement of a [try] block without [finally]. *)
Lemma catch_step {A B} (m : M A) (f : A -> M B) (h : error -> M B) st a st1 :
  m st = (Ok a, st1) -> try_catch (m ≫= f) h st = try_catch (f a) h st1.
Proof. intros E. unfold try_catch. rewrite (bind_ok _ _ _ _ _ E). reflexivity. Qed.

Lemma set_dom_same st : set_dom (dom st) st = st.
Proof. destruct st; reflexivity. Qed.




Lemma getField_member data f st :
  data <> VUndefined -> data <> VNull -> getField data f st = (Ok (member data f), st).
Proof. destruct data; try congruence; reflexivity. Qed.

Lemma keys_length_truthy d st :
  truthy d = true -> keys_length d st = (Ok (own_keys d), st).
Proof. destruct d; try discriminate; reflexivity. Qed.

Lemma truthy_member_object d f : truthy (member d f) = true -> exists m, d = VObj m.
Proof. destruct d; try discriminate. eauto. Qed.


Lemma unit_bind_ret (m : M unit) st : (m ;; mret tt) st = m st.
Proof. unfold mbind, M_bind. destruct (m st) as [[[]|e] st']; reflexivity. Qed.

(** ** State predicates that only the script's own assignments can change *)

Section Invariant.

Variable P : state -> Prop.
Hypothesis P_dom : forall d st, P st -> P (set_dom d st).
Hypothesis P_trace : forall t st, P st -> P (set_trace t st).
Hypothesis P_timers : forall t st, P st -> P (set_timers t st).
Hypothesis P_next_node : forall n st, P st -> P (set_next_node n st).

Lemma preserves_ret {A} (a : A) : preserves P (mret a).
Proof. intros st H. exact H. Qed.

Lemma preserves_throw {A} (e : error) : preserves P (mthrow e : M A).
Proof. intros st H. exact H. Qed.

Lemma preserves_bind {A B} (m : M A) (f : A -> M B) :
  preserves P m -> (forall a, preserves P (f a)) -> preserves P (m ≫= f).
Proof.
  intros Hm Hf st H. unfold mbind, M_bind. specialize (Hm st H).
  destruct (m st) as [[a|e] st1]; cbn in *; [apply Hf; exact Hm | exact Hm].
Qed.

Lemma preserves_try_catch {A} (m : M A) (h : error -> M A) :
  preserves P m -> (forall e, preserves P (h e)) -> preserves P (try_catch m h).
Proof.
  intros Hm Hh st H. unfold try_catch. specialize (Hm st H).
  destruct (m st) as [[a|e] st1]; cbn in *; [exact Hm | apply Hh; exact Hm].
Qed.

Lemma preserves_try_finally {A} (m : M A) (fin : M unit) :
  preserves P m -> preserves P fin -> preserves P (try_finally m fin).
Proof.
  intros Hm Hf st H. unfold try_finally. specialize (Hm st H).
  destruct (m st) as [r st1]; cbn in *. specialize (Hf st1 Hm).
  destruct (fin st1) as [[[]|e] st2]; cbn in *; exact Hf.
Qed.

Lemma preserves_gets {A} (f : state -> A) : preserves P (gets f).
Proof. intros st H. exact H. Qed.

Lemma preserves_emit e : preserves P (emit e).
Proof. intros st H. cbn. apply P_trace, H. Qed.

Lemma preserves_update_element id e f : preserves P (update_element id e f).
Proof. intros st H. destruct e; cbn; [apply P_dom, H | exact H]. Qed.

Lemma preserves_setTimer d p t : preserves P (setTimer d p t).
Proof. intros st H. cbn. apply P_timers, H. Qed.

Lemma preserves_createElement : preserves P createElement.
Proof. intros st H. cbn. apply P_next_node, H. Qed.

Lemma preserves_getField v f : preserves P (getField v f).
Proof. intros st H. destruct v; exact H. Qed.

Lemma preserves_modify_dom (g : state -> gmap string element) :
  preserves P (modify (fun st => set_dom (g st) st)).
Proof. intros st H. cbn. apply P_dom, H. Qed.

Lemma preserves_fetch r o : preserves P (fetch r o).
Proof. intros st H. destruct o; cbn; apply P_trace, H. Qed.

Lemma preserves_json r : preserves P (json r).
Proof. intros st H. unfold json. destruct (body r); exact H. Qed.


(** What holds after [m] still holds after code that keeps it. *)
Lemma bind_post {A B} (m : M A) (k : A -> M B) st :
  P (snd (m st)) -> (forall a, preserves P (k a)) -> P (snd ((m ≫= k) st)).
Proof.
  intros Hm Hk. unfold mbind, M_bind.
  destruct (m st) as [[a|e] st1]; cbn in *; [apply Hk; exact Hm | exact Hm].
Qed.

Lemma catch_post {A} (m : M A) (h : error -> M A) st :
  P (snd (m st)) -> (forall e, preserves P (h e)) -> P (snd (try_catch m h st)).
Proof.
  intros Hm Hh. unfold try_catch.
  destruct (m st) as [[a|e] st1]; cbn in *; [exact Hm | apply Hh; exact Hm].
Qed.

End Invariant.

Create HintDb preserves discriminated.
#[global] Hint Resolve preserves_ret preserves_throw preserves_gets preserves_emit
  preserves_update_element preserves_setTimer preserves_createElement preserves_getField
  preserves_modify_dom preserves_fetch preserves_json
  : preserves.

(** Decompose a [preserves] goal along the structure of the code. *)
Ltac preserves_tac :=
  repeat autounfold with js;
  unfold getElementById, console_log, console_error, setTimeout, setInterval, when;
  repeat first
    [ progress intros
    | apply preserves_bind
    | apply preserves_try_catch
    | apply preserves_try_finally
    | solve [ eauto with preserves ]
    | match goal with
      | |- preserves _ (match ?x with _ => _ end) => destruct x
      | |- preserves _ (if ?x then _ else _) => destruct x
      end ].

Section AuthInvariant.

Variable P : state -> Prop.
Hypothesis P_dom : forall d st, P st -> P (set_dom d st).
Hypothesis P_trace : forall t st, P st -> P (set_trace t st).
Hypothesis P_timers : forall t st, P st -> P (set_timers t st).
Hypothesis P_next_node : forall n st, P st -> P (set_next_node n st).

Lemma App_showAlert_preserves message type duration :
  preserves P (App.showAlert message type duration).
Proof. preserves_tac. Qed.

Lemma App_showLoading_preserves show : preserves P (App.showLoading show).
Proof. preserves_tac. Qed.

Lemma App_updateAuthUI_preserves authenticated :
  preserves P (App.updateAuthUI authenticated).
Proof. preserves_tac. Qed.

Lemma Part000_showAlert_preserves message type duration :
  preserves P (Part000.showAlert message type duration).
Proof. preserves_tac. Qed.

Lemma Part000_showLoading_preserves show : preserves P (Part000.showLoading show).
Proof. preserves_tac. Qed.

Lemma Part000_updateAuthUI_preserves authenticated :
  preserves P (Part000.updateAuthUI authenticated).
Proof. preserves_tac. Qed.

Lemma forEach_preserves {A} (l : list A) (f : A -> M unit) :
  (forall x, preserves P (f x)) -> preserves P (Part000.forEach l f).
Proof.
  intros Hf. induction l as [|x l IH]; cbn [Part000.forEach].
  - apply preserves_ret.
  - apply preserves_bind; [apply Hf | intros _; exact IH].
Qed.

Lemma Part000_clearDashboard_preserves : preserves P Part000.clearDashboard.
Proof.
  unfold Part000.clearDashboard. apply preserves_bind.
  - apply preserves_emit, P_trace.
  - intros _. apply forEach_preserves. intros x. preserves_tac.
Qed.

Lemma Part000_showLoginProgressModal_preserves :
  preserves P Part000.showLoginProgressModal.
Proof. preserves_tac. Qed.

Lemma Part000_hideLoginProgressModal_preserves :
  preserves P Part000.hideLoginProgressModal.
Proof. preserves_tac. Qed.




End AuthInvariant.

(** ** What the page helpers do *)

Lemma spinner_dom_lookup_ne show d id :
  id <> "loading-spinner" -> spinner_dom show d !! id = d !! id.
Proof.
  intros Hne. unfold spinner_dom. destruct (d !! "loading-spinner"); [|reflexivity].
  apply lookup_alter_ne. congruence.
Qed.

Lemma App_showLoading_run show st :
  App.showLoading show st = (Ok tt, set_dom (spinner_dom show (dom st)) st).
Proof.
  unfold App.showLoading, spinner_dom.
  destruct (dom st !! "loading-spinner") eqn:E, show; js_run;
    rewrite ?set_dom_same; reflexivity.
Qed.

Lemma App_updateAuthUI_run authenticated st b c :
  has_auth_ui st b c ->
  App.updateAuthUI authenticated st =
    (Ok tt, set_dom (auth_ui_dom (truthy authenticated) (dom st)) st).
Proof.
  intros [Hb Hc]. unfold auth_ui_dom.
  destruct (truthy authenticated) eqn:E; js_run; reflexivity.
Qed.


Lemma auth_ui_dom_lookup_ne authenticated d id :
  id <> "auth-btn" -> id <> "connection-status" ->
  auth_ui_dom authenticated d !! id = d !! id.
Proof.
  intros H1 H2. unfold auth_ui_dom.
  destruct authenticated; rewrite !lookup_alter_ne by congruence; reflexivity.
Qed.

Lemma App_showAlert_run message type st a :
  has_alert_container st a ->
  App.showAlert (VStr message) (Some type) None st = (Ok tt, alert_state type message st).
Proof. intros Ha. unfold has_alert_container in Ha. js_run. reflexivity. Qed.


(** The unchanged functions of part_000 are those of app.js. *)
Lemma Part000_showLoading_eq : Part000.showLoading = App.showLoading.
Proof. reflexivity. Qed.
Lemma Part000_updateAuthUI_eq : Part000.updateAuthUI = App.updateAuthUI.
Proof. reflexivity. Qed.
Lemma Part000_showAlert_eq : Part000.showAlert = App.showAlert.
Proof. reflexivity. Qed.

Lemma modal_dom_lookup_ne d id :
  id ∉ Part000.loginProgress_ids -> modal_dom d !! id = d !! id.
Proof.
  unfold Part000.loginProgress_ids. rewrite !not_elem_of_cons.
  intros (H1 & H2 & H3 & H4 & H5 & _). unfold modal_dom, Part000.modalHTML.
  rewrite !lookup_alter_ne, !lookup_insert_ne by congruence.
  destruct (d !! "loginProgressModal"); [|reflexivity].
  cbn. rewrite !lookup_delete_ne by congruence. reflexivity.
Qed.

Lemma Part000_showLoginProgressModal_run st :
  has_bootstrap (env st) = true ->
  Part000.showLoginProgressModal st =
    (Ok tt,
     set_timers (timers st ++ [{| delay := 3000; periodic := true;
                                  callback := LoginProgressStep 0; active := true |}])
       (set_dom (modal_dom (dom st)) st)).
Proof.
  intros Hbs. unfold modal_dom.
  destruct (dom st !! "loginProgressModal") eqn:E; js_run; reflexivity.
Qed.




Lemma progress_dom_lookup_ne message d id :
  id <> "loginProgressMessage" -> id <> "loginProgressBar" ->
  progress_dom message d !! id = d !! id.
Proof.
  intros H1 H2. unfold progress_dom. rewrite !lookup_alter_ne by congruence. reflexivity.
Qed.

Lemma hidden_dom_lookup_ne d id :
  id <> "loginProgressModal" -> hidden_dom d !! id = d !! id.
Proof.
  intros Hne. unfold hidden_dom. destruct (d !! "loginProgressModal") as [m|]; [|reflexivity].
  destruct (bs_modal m); rewrite !lookup_alter_ne by congruence; reflexivity.
Qed.

Lemma Part000_hideLoginProgressModal_run st :
  has_bootstrap (env st) = true ->
  Part000.hideLoginProgressModal st = (Ok tt, set_dom (hidden_dom (dom st)) st).
Proof.
  intros Hbs. unfold hidden_dom.
  destruct (dom st !! "loginProgressModal") as [m|] eqn:E;
    [destruct (bs_modal m) eqn:Hi|]; js_run; rewrite ?set_dom_same; reflexivity.
Qed.


(** Side conditions: an id is none of the ids a helper touches. *)
Ltac js_ne :=
  solve [ congruence
        | unfold Part000.loginProgress_ids; rewrite !not_elem_of_cons;
          repeat split; solve [ congruence | apply not_elem_of_nil ] ].

(** Lookups in the page of a state built by the helpers. *)
Ltac js_dom :=
  unfold has_auth_ui, has_alert_container, alert_state in *;
  cbn [dom isAuthenticated next_node timers trace env socket
       set_dom set_trace set_timers set_next_node set_isAuthenticated set_socket];
  repeat first
    [ rewrite spinner_dom_lookup_ne by js_ne
    | rewrite modal_dom_lookup_ne by js_ne
    | rewrite auth_ui_dom_lookup_ne by js_ne
    | rewrite hidden_dom_lookup_ne by js_ne
    | rewrite progress_dom_lookup_ne by js_ne
    | rewrite lookup_alter_ne by js_ne ];
  try solve [ intuition eauto ].

(** * The claims *)

(** ** C1: forced logout in [apiRequest] *)

Lemma apiRequest_not_ok url options r st :
  ok r = false ->
  App.apiRequest url options (Responded r) st =
    (Throw (HttpError (status r)),
     set_trace (trace st ++ [Fetch (api_request url options);
                             ConsoleError "API 요청 실패:" (HttpError (status r))]) st).
Proof.
  intros Hok. js_run. rewrite <- app_assoc. reflexivity.
Qed.

Lemma apiRequest_pass url options r d st :
  ok r = true -> body r = Some d -> d <> VNull -> d <> VUndefined -> auth_failure d = false ->
  App.apiRequest url options (Responded r) st =
    (Ok d, set_trace (trace st ++ [Fetch (api_request url options)]) st).
Proof.
  intros Hok Hb Hn Hu Hf. unfold auth_failure in Hf.
  destruct d; try congruence;
    destruct (is_false (member _ f_success)) eqn:Hs; cbn in Hf; js_run; reflexivity.
Qed.

Lemma apiRequest_logout url options r d st b c a :
  ok r = true -> body r = Some d -> auth_failure d = true ->
  has_auth_ui st b c -> has_alert_container st a ->
  exists st', App.apiRequest url options (Responded r) st = (Ok d, st') /\
    isAuthenticated st' = VBool false /\ shows_logged_out st' b c /\
    alert_shown st' a (next_node st) "warning" "세션이 만료되었습니다. 다시 로그인해주세요.".
Proof.
  intros Hok Hb Hf [Hbtn Hcs] Hac. unfold has_alert_container in Hac.
  unfold auth_failure in Hf. apply andb_prop in Hf as [Hs Ha].
  destruct d; try discriminate Hs.
  js_run.
  eexists. split; [reflexivity|].
  unfold shows_logged_out, alert_shown. js_run. auto.
Qed.

(** The forced logout sets the flag whatever the page looks like. *)
Lemma apiRequest_clears_flag url options r d st :
  ok r = true -> body r = Some d -> auth_failure d = true ->
  isAuthenticated (snd (App.apiRequest url options (Responded r) st)) = VBool false.
Proof.
  intros Hok Hb Hf. unfold auth_failure in Hf. apply andb_prop in Hf as [Hs Ha].
  assert (exists m, d = VObj m) as [m ->] by (destruct d; try discriminate; eauto).
  unfold App.apiRequest.
  erewrite catch_step by reflexivity.
  rewrite Hok. cbn [negb].
  erewrite catch_step by reflexivity.
  erewrite catch_step by (cbn; rewrite Hb; reflexivity).
  erewrite catch_step by reflexivity.
  rewrite Hs.
  apply (catch_post logged_out); [|intros e; preserves_tac].
  apply (bind_post logged_out); [|intros _; preserves_tac].
  erewrite bind_ok by reflexivity. rewrite Ha.
  erewrite bind_ok by reflexivity.
  erewrite bind_ok by reflexivity.
  apply (bind_post logged_out); [|intros _; apply App_showAlert_preserves; auto].
  apply App_updateAuthUI_preserves; auto. reflexivity.
Qed.

(** C1, as the code has it: a response that passes the [response.ok] gate
    and whose body has [success === false] and [authenticated === false]
    makes [apiRequest] set [isAuthenticated] to [false] and, on a page
    that has the authentication UI and the alert container, switch that UI
    to the logged-out state and return the body; any other body of such a
    response (other than [null]) is returned with [isAuthenticated] and
    the page untouched; a response that does not pass the gate makes
    [apiRequest] throw, with [isAuthenticated] and the page untouched,
    whatever its body says. *)
Theorem apiRequest_forced_logout url options r d st :
  body r = Some d ->
  (ok r = true -> auth_failure d = true ->
   isAuthenticated (snd (App.apiRequest url options (Responded r) st)) = VBool false /\
   forall b c a, has_auth_ui st b c -> has_alert_container st a ->
   exists st', App.apiRequest url options (Responded r) st = (Ok d, st') /\
     isAuthenticated st' = VBool false /\ shows_logged_out st' b c) /\
  (ok r = true -> auth_failure d = false -> d <> VNull -> d <> VUndefined ->
   exists st', App.apiRequest url options (Responded r) st = (Ok d, st') /\
     isAuthenticated st' = isAuthenticated st /\ dom st' = dom st) /\
  (ok r = false ->
   exists st', App.apiRequest url options (Responded r) st =
                 (Throw (HttpError (status r)), st') /\
     isAuthenticated st' = isAuthenticated st /\ dom st' = dom st).
Proof.
  intros Hb. split; [|split].
  - intros Hok Hf. split; [apply (apiRequest_clears_flag url options r d st); assumption|].
    intros b c a Hui Hac.
    destruct (apiRequest_logout url options r d st b c a) as (st' & E & F & G & _); eauto.
  - intros Hok Hf Hn Hu. rewrite (apiRequest_pass url options r d st) by assumption. eauto.
  - intros Hok. rewrite apiRequest_not_ok by assumption. eauto.
Qed.

Lemma apiRequest_forced_logout_witness :
  (exists st', App.apiRequest "/api/account/balance" None
                 (Responded (response_200 unauthenticated_body)) st_logged_in
               = (Ok unauthenticated_body, st') /\
     isAuthenticated st' = VBool false /\
     shows_logged_out st'
       (set_onclick HLogout (set_innerHTML logout_label blank_element))
       (set_innerHTML connected_label blank_element)) /\
  (exists st', App.apiRequest "/api/account/balance" None
                 (Responded response_401) st_logged_in
               = (Throw (HttpError 401), st') /\
     isAuthenticated st' = VBool true /\ dom st' = page_logged_in).
Proof.
  split.
  - refine (proj2 (proj1 (apiRequest_forced_logout _ None (response_200 unauthenticated_body)
                     unauthenticated_body st_logged_in eq_refl) eq_refl eq_refl)
                  _ _ blank_element _ _).
    + split; reflexivity.
    + reflexivity.
  - exact (proj2 (proj2 (apiRequest_forced_logout _ None response_401
                     unauthenticated_body st_logged_in eq_refl)) eq_refl).
Defined.

(** The claim as stated fails on a response that carries the
    "unauthenticated" body under HTTP status 401: [apiRequest] throws at
    the [response.ok] gate and the client stays logged in. *)
Lemma apiRequest_401_keeps_session :
  body response_401 = Some unauthenticated_body /\
  member unauthenticated_body f_success = VBool false /\
  member unauthenticated_body f_authenticated = VBool false /\
  isAuthenticated st_logged_in = VBool true /\
  App.apiRequest "/api/account/balance" None (Responded response_401) st_logged_in =
    (Throw (HttpError 401),
     set_trace [Fetch (api_request "/api/account/balance" None);
                ConsoleError "API 요청 실패:" (HttpError 401)] st_logged_in) /\
  isAuthenticated
    (snd (App.apiRequest "/api/account/balance" None (Responded response_401) st_logged_in))
    = VBool true /\
  shows_logged_in
    (snd (App.apiRequest "/api/account/balance" None (Responded response_401) st_logged_in))
    blank_element blank_element.
Proof. repeat split; reflexivity. Qed.

(** ** C2: order validation *)

(** C2: an order request with a non-positive quantity, a non-positive
    price or a malformed symbol code is answered with a validation error,
    and no call to the broker is made. *)
Theorem invalid_order_not_submitted broker r :
  Server.violates_invariant r ->
  exists field message,
    Server.placeOrder broker r =
      (Server.Failed (Server.ValidationError field) message, []).
Proof.
  intros Hv. unfold Server.placeOrder, Server.validate.
  destruct (Server.is_symbol_code (Server.symbol_code r)) eqn:Hc; cbn [negb]; [|eauto].
  destruct (Z.leb_spec (Server.quantity r) 0) as [Hq|Hq]; [eauto|].
  destruct (Qle_bool (Server.price r) 0) eqn:Hp; [eauto|].
  exfalso. destruct Hv as [Hv|[Hv|Hv]].
  - lia.
  - apply Qle_bool_iff in Hv. congruence.
  - congruence.
Qed.

Lemma invalid_order_not_submitted_witness :
  exists field message,
    Server.placeOrder (fun _ => Server.Submitted "1")
      {| Server.symbol_code := "005930"; Server.order_side := Server.buy;
         Server.quantity := 0; Server.price := 70000; Server.kind := Server.cash |} =
      (Server.Failed (Server.ValidationError field) message, []).
Proof.
  apply invalid_order_not_submitted. left. cbn. lia.
Defined.

(** ** C3: logout *)

Lemma App_logout_clears r d st :
  body r = Some d -> truthy (member d f_success) = true ->
  isAuthenticated (snd (App.logout true (Responded r) st)) = VBool false.
Proof.
  intros Hb Hs. destruct (truthy_member_object _ _ Hs) as [m ->].
  unfold App.logout. cbn [negb].
  erewrite try_step by apply App_showLoading_run.
  erewrite try_step by reflexivity.
  erewrite try_step by (cbn; rewrite Hb; reflexivity).
  erewrite try_step by reflexivity.
  rewrite Hs.
  erewrite try_step by reflexivity.
  apply (preserves_try_finally logged_out); [| | reflexivity].
  - apply preserves_try_catch; [apply preserves_bind|].
    + apply App_updateAuthUI_preserves; auto.
    + intros _. apply preserves_bind; [apply preserves_getField|].
      intros msg. apply preserves_bind; [apply App_showAlert_preserves; auto|].
      intros _. preserves_tac.
    + intros e. apply preserves_bind; [preserves_tac|].
      intros _. apply App_showAlert_preserves; auto.
  - apply App_showLoading_preserves; auto.
Qed.

Lemma Part000_logout_clears r d st :
  body r = Some d -> truthy (member d f_success) = true ->
  isAuthenticated (snd (Part000.logout true (Responded r) st)) = VBool false.
Proof.
  intros Hb Hs. destruct (truthy_member_object _ _ Hs) as [m ->].
  unfold Part000.logout. cbn [negb].
  erewrite try_step by (rewrite Part000_showLoading_eq; apply App_showLoading_run).
  erewrite try_step by reflexivity.
  erewrite try_step by (cbn; rewrite Hb; reflexivity).
  erewrite try_step by reflexivity.
  rewrite Hs.
  erewrite try_step by reflexivity.
  apply (preserves_try_finally logged_out); [| | reflexivity].
  - apply preserves_try_catch; [apply preserves_bind|].
    + apply Part000_updateAuthUI_preserves; auto.
    + intros _. apply preserves_bind; [apply Part000_clearDashboard_preserves; auto|].
      intros _. apply preserves_bind; [apply preserves_getField|].
      intros msg. apply preserves_bind; [apply Part000_showAlert_preserves; auto|].
      intros _. preserves_tac.
    + intros e. apply preserves_bind; [preserves_tac|].
      intros _. apply Part000_showAlert_preserves; auto.
  - apply Part000_showLoading_preserves; auto.
Qed.

(** part_000 checks the status again half a second after a logout: when
    the server then reports [authenticated: false], the flag stays off. *)
Lemma Part000_recheck_stays_logged_out id r d st :
  body r = Some d -> member d f_authenticated = VBool false ->
  isAuthenticated (snd (Part000.run_task id RecheckAuthStatus (Responded r) st)) = VBool false.
Proof.
  intros Hb Ha. destruct d; try discriminate Ha.
  cbn [Part000.run_task].
  apply (catch_post logged_out); [|intros e; preserves_tac].
  unfold Part000.checkAuthStatus.
  erewrite catch_step by reflexivity.
  erewrite catch_step by (cbn; rewrite Hb; reflexivity).
  erewrite catch_step by reflexivity.
  rewrite Ha.
  erewrite catch_step by reflexivity.
  apply (preserves_try_catch logged_out); [| |reflexivity].
  - apply preserves_bind; [apply Part000_updateAuthUI_preserves; auto|].
    intros _. cbn [truthy]. preserves_tac.
  - intros e. apply preserves_bind; [preserves_tac|].
    intros _. apply Part000_showAlert_preserves; auto.
Qed.

(** C3: after a logout that reports success the authenticated state reads
    [false], whatever it was before, and a second logout again succeeds
    and changes nothing (the session gate, as the specification describes
    it); in both versions of the client, handling a logout response whose
    [success] is true leaves [isAuthenticated] at [false], whatever the
    state and the page were before, and the status check that part_000
    schedules afterwards keeps it there when the server reports
    [authenticated: false]. *)
Theorem logout_idempotent :
  (forall s : Server.Session,
     let (reply1, s1) := Server.logout s in
     let (reply2, s2) := Server.logout s1 in
     Server.success reply1 = true /\ Server.status s1 = false /\
     Server.success reply2 = true /\ Server.status s2 = false /\ s2 = s1) /\
  (forall r d st,
     body r = Some d -> truthy (member d f_success) = true ->
     isAuthenticated (snd (App.logout true (Responded r) st)) = VBool false /\
     isAuthenticated (snd (Part000.logout true (Responded r) st)) = VBool false) /\
  (forall id r d st,
     body r = Some d -> member d f_authenticated = VBool false ->
     isAuthenticated (snd (Part000.run_task id RecheckAuthStatus (Responded r) st))
       = VBool false).
Proof.
  split; [|split].
  - intros s. cbn. auto.
  - intros r d st Hb Hs. split.
    + apply (App_logout_clears r d st Hb Hs).
    + apply (Part000_logout_clears r d st Hb Hs).
  - apply Part000_recheck_stays_logged_out.
Qed.

Lemma logout_idempotent_witness :
  isAuthenticated
    (snd (App.logout true
            (Responded (response_200 (object [("success", VBool true);
                                              ("message", VStr "bye")])))
            st_logged_in)) = VBool false /\
  isAuthenticated
    (snd (Part000.logout true
            (Responded (response_200 (object [("success", VBool true);
                                              ("message", VStr "bye")])))
            st_logged_in)) = VBool false.
Proof.
  apply (proj1 (proj2 logout_idempotent)
           (response_200 (object [("success", VBool true); ("message", VStr "bye")]))
           (object [("success", VBool true); ("message", VStr "bye")])
           st_logged_in); reflexivity.
Defined.

(** ** C4: auto refresh *)

Lemma App_setupAutoRefresh_run st :
  App.setupAutoRefresh st =
    (Ok tt,
     set_refreshInterval (Some (length (timers st)))
       (set_timers (timers st ++ [{| delay := App.autoRefresh_interval; periodic := true;
                                     callback := AutoRefreshTick; active := true |}]) st)).
Proof. js_run. reflexivity. Qed.

Lemma App_tick_idle st :
  truthy (isAuthenticated st) = false -> App.autoRefresh_tick st = (Ok tt, st).
Proof. intros H. js_run. reflexivity. Qed.

Lemma App_tick_refresh st :
  trace (snd (App.autoRefresh_tick st)) <> trace st ->
  truthy (isAuthenticated st) = true /\
  App.autoRefresh_tick st =
    (Ok tt, set_trace (trace st ++ [Invoke "refreshDashboard" None]) st).
Proof.
  unfold App.autoRefresh_tick.
  destruct (truthy (isAuthenticated st)) eqn:Ha, (has_refreshDashboard (env st)) eqn:Hd;
    js_run; intros H; try contradiction; auto.
Qed.

Lemma App_tick_fires st :
  truthy (isAuthenticated st) = true -> has_refreshDashboard (env st) = true ->
  App.autoRefresh_tick st =
    (Ok tt, set_trace (trace st ++ [Invoke "refreshDashboard" None]) st).
Proof. intros Ha Hd. js_run. reflexivity. Qed.

Lemma Part000_autoRefresh_eq :
  Part000.setupAutoRefresh = App.setupAutoRefresh /\
  Part000.autoRefresh_tick = App.autoRefresh_tick.
Proof. split; reflexivity. Qed.

(** C4: [setupAutoRefresh] registers one periodic timer whose period,
    60000 ms, lies between 30 and 60 seconds; a tick of that timer calls
    [refreshDashboard] only when [isAuthenticated] is true (and does call
    it then, if the page defines it), and when [isAuthenticated] is
    [false] the tick does nothing at all.  Both versions. *)
Theorem auto_refresh_only_when_authenticated st :
  isAuthenticated st = VBool false ->
  (exists t, timers (snd (App.setupAutoRefresh st)) = timers st ++ [t] /\
     timers (snd (Part000.setupAutoRefresh st)) = timers st ++ [t] /\
     periodic t = true /\ callback t = AutoRefreshTick /\
     30 * 1000 <= delay t <= 60 * 1000) /\
  (App.run_task AutoRefreshTick st = (Ok tt, st) /\
   forall id o, Part000.run_task id AutoRefreshTick o st = (Ok tt, st)) /\
  (forall st0, trace (snd (App.run_task AutoRefreshTick st0)) <> trace st0 ->
               truthy (isAuthenticated st0) = true) /\
  (forall st0 id o, trace (snd (Part000.run_task id AutoRefreshTick o st0)) <> trace st0 ->
                    truthy (isAuthenticated st0) = true) /\
  (forall st0 id o,
     truthy (isAuthenticated st0) = true -> has_refreshDashboard (env st0) = true ->
     App.run_task AutoRefreshTick st0 =
       (Ok tt, set_trace (trace st0 ++ [Invoke "refreshDashboard" None]) st0) /\
     Part000.run_task id AutoRefreshTick o st0 = App.run_task AutoRefreshTick st0).
Proof.
  intros Hf. destruct Part000_autoRefresh_eq as [Es Et].
  split; [|split; [|split; [|split]]].
  - eexists. rewrite Es, App_setupAutoRefresh_run. cbn.
    repeat split; try reflexivity; cbn; unfold App.autoRefresh_interval; lia.
  - split; [|intros id o]; cbn [App.run_task Part000.run_task]; rewrite ?Et;
      apply App_tick_idle; rewrite Hf; reflexivity.
  - intros st0 H. apply (App_tick_refresh st0 H).
  - intros st0 id o H. cbn [Part000.run_task] in H. rewrite Et in H.
    apply (App_tick_refresh st0 H).
  - intros st0 id o Ha Hd. cbn [App.run_task Part000.run_task]. rewrite Et.
    split; [apply App_tick_fires; assumption | reflexivity].
Qed.

Lemma auto_refresh_only_when_authenticated_witness :
  App.run_task AutoRefreshTick st_logged_out = (Ok tt, st_logged_out).
Proof.
  exact (proj1 (proj1 (proj2 (auto_refresh_only_when_authenticated st_logged_out eq_refl)))).
Defined.

(** ** C5: the login response *)











(** ** C6: quote lookup from the stock-code field *)

Lemma searchStockInfo_requests stockCode o st :
  exists rest,
    fst (App.searchStockInfo stockCode o st) = Ok tt /\
    trace (snd (App.searchStockInfo stockCode o st)) =
      trace st ++ Fetch {| url := "/api/quote/stock/" +:+ stockCode; method := "GET";
                           headers := []; payload := None |} :: rest.
Proof.
  destruct o as [|[s [d|]]]; [| |].
  - js_run. rewrite <- app_assoc. eexists; split; reflexivity.
  - destruct (truthy (member d f_success)) eqn:Hs; destruct d;
      js_run; rewrite <- ?app_assoc; eexists; split; reflexivity.
  - js_run. rewrite <- app_assoc. eexists; split; reflexivity.
Qed.

Lemma Part000_stockCodeInput_eq :
  Part000.stockCodeInput_input = App.stockCodeInput_input.
Proof. reflexivity. Qed.

(** C6, as the code has it: typing into the stock-code field issues the
    quote request [/api/quote/stock/<value>] exactly when the value has
    six or more characters, whatever the characters are: for a shorter
    value nothing happens, for any value of length six or more the request
    is the first thing sent.  Both versions. *)
Theorem quote_request_by_length value o st :
  ((js_length value < 6)%nat ->
   App.stockCodeInput_input value o st = (Ok tt, st) /\
   Part000.stockCodeInput_input value o st = (Ok tt, st)) /\
  ((6 <= js_length value)%nat ->
   exists rest,
     Part000.stockCodeInput_input value o st = App.stockCodeInput_input value o st /\
     fst (App.stockCodeInput_input value o st) = Ok tt /\
     trace (snd (App.stockCodeInput_input value o st)) =
       trace st ++ Fetch {| url := "/api/quote/stock/" +:+ value; method := "GET";
                            headers := []; payload := None |} :: rest).
Proof.
  rewrite Part000_stockCodeInput_eq. unfold App.stockCodeInput_input. split.
  - intros H. apply Nat.leb_gt in H. rewrite H. auto.
  - intros H. apply Nat.leb_le in H. rewrite H.
    destruct (searchStockInfo_requests value o st) as (rest & E & F). eauto.
Qed.

Lemma quote_request_by_length_witness :
  App.stockCodeInput_input "00593" NetworkFailure st_logged_in = (Ok tt, st_logged_in) /\
  exists rest,
    trace (snd (App.stockCodeInput_input "005930" NetworkFailure st_logged_in)) =
      [] ++ Fetch {| url := "/api/quote/stock/" +:+ "005930"; method := "GET";
                     headers := []; payload := None |} :: rest.
Proof.
  split.
  - apply (proj1 (quote_request_by_length "00593" NetworkFailure st_logged_in)).
    vm_compute. lia.
  - destruct (proj2 (quote_request_by_length "005930" NetworkFailure st_logged_in))
      as (rest & _ & _ & E); [vm_compute; lia|].
    exists rest. exact E.
Defined.

(** The claim as stated fails on a value that is no symbol code: seven
    letters make the field issue a quote request. *)
Lemma quote_request_for_non_code :
  Server.is_symbol_code "abcdefg" = false /\
  App.stockCodeInput_input "abcdefg"
    (Responded (response_200 (object [("success", VBool false)]))) st_logged_in =
    (Ok tt,
     set_trace [Fetch {| url := "/api/quote/stock/abcdefg"; method := "GET";
                         headers := []; payload := None |}] st_logged_in).
Proof. split; reflexivity. Qed.

(** ** C7: the push channel *)


Lemma App_receive_update `{Host} data st :
  socket st = Some registered ->
  App.socket_receive "update" data st =
    (console_log "실시간 업데이트:" (Some data);; App.handleRealTimeUpdate data) st.
Proof.
  intros Hs. unfold App.socket_receive.
  erewrite bind_ok by (cbn; rewrite Hs; reflexivity).
  unfold registered. cbn [App.run_listeners String.eqb Ascii.eqb Bool.eqb].
  do 3 (erewrite bind_ok by reflexivity).
  change (App.socket_listener OnUpdate data) with
    (console_log "실시간 업데이트:" (Some data);; App.handleRealTimeUpdate data).
  set (m := (console_log _ _ ;; _)).
  transitivity ((m ;; mret tt) st); [|apply unit_bind_ret].
  unfold mbind, M_bind. destruct (m st) as [[[]|e] st']; reflexivity.
Qed.



Lemma Part000_socket_eq `{Host} :
  Part000.connectWebSocket = App.connectWebSocket /\
  Part000.socket_receive = App.socket_receive /\
  Part000.handleRealTimeUpdate = App.handleRealTimeUpdate.
Proof. repeat split; reflexivity. Qed.



(** ** C8: number formatting *)



(** ** C9: empty real-time updates *)

Lemma App_handleRealTimeUpdate_cases data st :
  App.handleRealTimeUpdate data st =
    (Ok tt, set_trace (trace st ++
              [Invoke "updateRealTimeData" (Some (member data f_data))]) st) /\
    truthy (member data f_data) = true /\ (0 < own_keys (member data f_data))%nat
  \/
  snd (App.handleRealTimeUpdate data st) = st /\
    (data = VUndefined \/ data = VNull \/ truthy (member data f_data) = false \/
     own_keys (member data f_data) = 0%nat).
Proof.
  assert (data = VUndefined \/ data = VNull \/ (data <> VUndefined /\ data <> VNull))
    as [->|[->|[Hu Hn]]]
    by (destruct data; auto; right; right; split; discriminate);
    [right; split; [reflexivity|tauto] | right; split; [reflexivity|tauto] | ].
  unfold App.handleRealTimeUpdate.
  erewrite bind_ok by (apply getField_member; assumption).
  destruct (truthy (member data f_data)) eqn:Ht; [|right; split; [reflexivity|tauto]].
  erewrite bind_ok by (apply keys_length_truthy; assumption).
  destruct (0 <? own_keys (member data f_data))%nat eqn:Hk.
  - left. erewrite bind_ok by (apply getField_member; assumption).
    apply Nat.ltb_lt in Hk. auto.
  - right. apply Nat.ltb_ge in Hk. split; [reflexivity|]. right; right; right. lia.
Qed.

(** C9: when the payload of an [update] event has no [data] field, or its
    [data] has no keys, [handleRealTimeUpdate] leaves the whole state as it
    is and the event changes nothing on the page; whenever
    [handleRealTimeUpdate] does change the state, [data.data] is truthy
    and has at least one key, and the change is the one call of
    [updateRealTimeData] on it.  Both versions. *)
Theorem empty_update_changes_nothing `{Host} data st :
  member data f_data = VUndefined \/ own_keys (member data f_data) = 0%nat ->
  (snd (App.handleRealTimeUpdate data st) = st /\
   snd (Part000.handleRealTimeUpdate data st) = st /\
   (socket st = Some registered ->
    dom (snd (App.socket_receive "update" data st)) = dom st /\
    dom (snd (Part000.socket_receive "update" data st)) = dom st)) /\
  (forall data0 st0,
     snd (App.handleRealTimeUpdate data0 st0) <> st0 ->
     truthy (member data0 f_data) = true /\ (0 < own_keys (member data0 f_data))%nat /\
     App.handleRealTimeUpdate data0 st0 =
       (Ok tt, set_trace (trace st0 ++
                 [Invoke "updateRealTimeData" (Some (member data0 f_data))]) st0) /\
     Part000.handleRealTimeUpdate data0 st0 = App.handleRealTimeUpdate data0 st0).
Proof.
  intros Hempty.
  assert (Hidle : forall st1, snd (App.handleRealTimeUpdate data st1) = st1).
  { intros st1.
    destruct (App_handleRealTimeUpdate_cases data st1) as [(_ & Ht & Hk)|[E _]]; [|exact E].
    exfalso. destruct Hempty as [Hu|Hz]; [rewrite Hu in Ht; discriminate | lia]. }
  destruct Part000_socket_eq as (_ & Er & Eh). rewrite Er, Eh. split.
  - split; [apply Hidle|]. split; [apply Hidle|].
    intros Hs. rewrite App_receive_update by assumption.
    erewrite bind_ok by reflexivity. rewrite Hidle. auto.
  - intros data0 st0 Hne.
    destruct (App_handleRealTimeUpdate_cases data0 st0) as [(E & Ht & Hk)|[E _]];
      [auto | contradiction].
Qed.

Lemma empty_update_changes_nothing_witness :
  snd (App.handleRealTimeUpdate (object [("data", VObj ∅)]) st_logged_in) = st_logged_in /\
  snd (App.handleRealTimeUpdate (object [("status", VStr "ok")]) st_logged_in)
    = st_logged_in.
Proof.
  split.
  - apply (@empty_update_changes_nothing digits_host (object [("data", VObj ∅)])
             st_logged_in).
    right. reflexivity.
  - apply (@empty_update_changes_nothing digits_host (object [("status", VStr "ok")])
             st_logged_in).
    left. reflexivity.
Defined.

(** ** C10: the two versions *)

(** C10: [formatNumber], [formatCurrency], [formatPercentage],
    [formatDate], [formatTime] and [apiRequest] of app.js and of part_000
    give the same result on every input ([apiRequest]: the same result and
    the same final state for every response and every initial state). *)
Theorem versions_agree `{Host} :
  (forall v, App.formatNumber v = Part000.formatNumber v) /\
  (forall v, App.formatCurrency v = Part000.formatCurrency v) /\
  (forall v, App.formatPercentage v = Part000.formatPercentage v) /\
  (forall v, App.formatDate v = Part000.formatDate v) /\
  (forall v, App.formatTime v = Part000.formatTime v) /\
  (forall url options o st,
     App.apiRequest url options o st = Part000.apiRequest url options o st).
Proof. repeat split; reflexivity. Qed.

(** * Further properties of the script *)

(** ** More about the monad *)

Lemma bind_throw {A B} (m : M A) (f : A -> M B) st e st1 :
  m st = (Throw e, st1) -> (m ≫= f) st = (Throw e, st1).
Proof. intros E. unfold mbind, M_bind. rewrite E. reflexivity. Qed.

(** A statement of a [try] block that throws hands over to [catch]. *)
Lemma try_throw {A} (m : M A) (h : error -> M A) (fin : M unit) st e st1 :
  m st = (Throw e, st1) ->
  try_finally (try_catch m h) fin st = try_finally (h e) fin st1.
Proof. intros E. unfold try_finally, try_catch. rewrite E. reflexivity. Qed.

Lemma catch_throw {A} (m : M A) (h : error -> M A) st e st1 :
  m st = (Throw e, st1) -> try_catch m h st = h e st1.
Proof. intros E. unfold try_catch. rewrite E. reflexivity. Qed.

Lemma finally_done {A} (m : M A) (fin : M unit) st r st1 st2 :
  m st = (r, st1) -> fin st1 = (Ok tt, st2) -> try_finally m fin st = (r, st2).
Proof. intros E F. unfold try_finally. rewrite E, F. reflexivity. Qed.

Lemma finally_post (P : state -> Prop) {A} (m : M A) (fin : M unit) st :
  P (snd (m st)) -> preserves P fin -> P (snd (try_finally m fin st)).
Proof.
  intros Hm Hf. unfold try_finally. destruct (m st) as [r st1]. cbn [snd] in Hm.
  specialize (Hf st1 Hm). destruct (fin st1) as [[[]|e] st2]; exact Hf.
Qed.

(** ** Strings *)

Lemma no_byte_cons n c s :
  no_byte n (String c s) = true <-> nat_of_ascii c <> n /\ no_byte n s = true.
Proof.
  unfold no_byte. cbn. rewrite andb_true_iff, negb_true_iff, Nat.eqb_neq. reflexivity.
Qed.

Lemma no_byte_app n s t :
  no_byte n s = true -> no_byte n t = true -> no_byte n (s +:+ t) = true.
Proof.
  intros Hs Ht. induction s as [|c s IH]; [exact Ht|].
  change (String c s +:+ t) with (String c (s +:+ t)).
  apply no_byte_cons in Hs as [Hc Hs]. apply no_byte_cons. auto.
Qed.

(** A pattern whose first byte does not occur is not found. *)
Lemma replace_from_absent p pat rep s :
  no_byte (nat_of_ascii p) s = true -> replace_from (String p pat) rep 0 s = s.
Proof.
  induction s as [|c s IH]; [reflexivity|].
  intros Hs. apply no_byte_cons in Hs as [Hc Hs]. cbn.
  destruct (Ascii.ascii_dec p c) as [->|_]; [contradiction|].
  rewrite IH by assumption. reflexivity.
Qed.

(** Replacing puts no byte into a string that neither the string nor the
    replacement had. *)
Lemma replace_from_no_byte n pat rep skip s :
  no_byte n rep = true -> no_byte n s = true ->
  no_byte n (replace_from pat rep skip s) = true.
Proof.
  intros Hr. revert skip. induction s as [|c s IH]; intros skip Hs; [exact Hs|].
  apply no_byte_cons in Hs as [Hc Hs]. cbn [replace_from]. destruct skip as [|k]; [|auto].
  destruct (String.prefix pat (String c s)).
  - apply no_byte_app; auto.
  - apply no_byte_cons. auto.
Qed.

Lemma replace_newline_no_byte rep s :
  no_byte 10 rep = true -> no_byte 10 (replaceAll newline rep s) = true.
Proof.
  intros Hr. unfold replaceAll. induction s as [|c s IH]; [reflexivity|].
  cbn. destruct (Ascii.ascii_dec (ascii_of_nat 10) c) as [<-|Hne].
  - destruct s; cbn in *; apply no_byte_app; auto.
  - apply no_byte_cons. split; [|exact IH].
    intros E. apply Hne. rewrite <- E, ascii_nat_embedding. reflexivity.
Qed.

(** ** Class lists *)

Lemma classList_add_elem c x e :
  x ∈ className (classList_add c e) <-> x = c \/ x ∈ className e.
Proof.
  unfold classList_add. destruct (existsb (String.eqb c) (className e)) eqn:E.
  - split; [auto|]. intros [->|Hx]; [|exact Hx].
    apply existsb_exists in E as (y & Hy & Hc). apply String.eqb_eq in Hc as ->.
    apply list_elem_of_In, Hy.
  - cbn. rewrite elem_of_app, list_elem_of_singleton. tauto.
Qed.

Lemma classList_remove_elem c x e :
  x ∈ className (classList_remove c e) <-> x <> c /\ x ∈ className e.
Proof.
  unfold classList_remove. cbn. rewrite list_elem_of_In, filter_In, <- list_elem_of_In.
  rewrite negb_true_iff, String.eqb_neq. split; intros [H1 H2]; split; auto.
Qed.

Lemma classList_add_twice c e : classList_add c (classList_add c e) = classList_add c e.
Proof.
  unfold classList_add. destruct (existsb (String.eqb c) (className e)) eqn:E.
  - rewrite E. reflexivity.
  - cbn [className set_className]. rewrite existsb_app. cbn [existsb].
    rewrite String.eqb_refl, orb_true_r. reflexivity.
Qed.

Lemma filter_twice {A} (p : A -> bool) l : List.filter p (List.filter p l) = List.filter p l.
Proof. apply forallb_filter_id, forallb_filter. Qed.

Lemma classList_remove_twice c e :
  classList_remove c (classList_remove c e) = classList_remove c e.
Proof. unfold classList_remove. cbn. rewrite filter_twice. reflexivity. Qed.

(** ** Pages *)

Lemma spinner_dom_twice show (d : gmap string element) :
  spinner_dom show (spinner_dom show d) = spinner_dom show d.
Proof.
  unfold spinner_dom. destruct (d !! "loading-spinner") as [e|] eqn:E; [|rewrite E; reflexivity].
  rewrite lookup_alter_eq, E. cbn. apply map_eq. intros i.
  destruct (decide (i = "loading-spinner")) as [->|Hne].
  - rewrite !lookup_alter_eq, E. cbn.
    destruct show; [rewrite classList_remove_twice | rewrite classList_add_twice]; reflexivity.
  - rewrite !lookup_alter_ne by congruence. reflexivity.
Qed.

Lemma auth_ui_dom_twice b1 b2 (d : gmap string element) :
  auth_ui_dom b2 (auth_ui_dom b1 d) = auth_ui_dom b2 d.
Proof.
  apply map_eq. intros i. unfold auth_ui_dom.
  destruct (decide (i = "auth-btn")) as [->|Hb];
    [|destruct (decide (i = "connection-status")) as [->|Hc]];
    destruct b1, b2;
    repeat first [rewrite lookup_alter_eq | rewrite lookup_alter_ne by done];
    try reflexivity; destruct (d !! _); reflexivity.
Qed.

(** [const e = document.getElementById(id); if (e) { change e }]. *)
Lemma clear_step id f st :
  (element ← getElementById id;
   if element is Some _ then update_element id element f else mret tt) st =
    (Ok tt, set_dom (alter f id (dom st)) st).
Proof.
  destruct (dom st !! id) eqn:E; js_run; [reflexivity|].
  rewrite alter_id' by exact E. rewrite set_dom_same. reflexivity.
Qed.

Lemma foldl_alter_lookup (f : element -> element) l (d : gmap string element) id :
  foldl (fun d id => alter f id d) d l !! id =
    foldl (fun e id' => if decide (id' = id) then f <$> e else e) (d !! id) l.
Proof.
  revert d. induction l as [|id' l IH]; intros d; cbn [foldl]; [reflexivity|].
  rewrite IH. destruct (decide (id' = id)) as [->|Hne].
  - rewrite lookup_alter_eq. reflexivity.
  - rewrite lookup_alter_ne by exact Hne. reflexivity.
Qed.

(** Making the same idempotent change to the elements of a list of ids. *)
Lemma foldl_alter_idempotent (f : element -> element) l (d : gmap string element) id :
  (forall e, f (f e) = f e) ->
  foldl (fun d id => alter f id d) d l !! id =
    if decide (id ∈ l) then f <$> d !! id else d !! id.
Proof.
  intros Hf. rewrite foldl_alter_lookup. generalize (d !! id). clear d.
  induction l as [|id' l IH]; intros o; cbn [foldl].
  - rewrite decide_False by apply not_elem_of_nil. reflexivity.
  - rewrite IH. destruct (decide (id' = id)) as [->|Hne].
    + rewrite (decide_True (P := id ∈ id :: l)) by (apply elem_of_cons; left; reflexivity).
      destruct (decide (id ∈ l)); [|reflexivity].
      destruct o; cbn; [rewrite Hf|]; reflexivity.
    + destruct (decide (id ∈ l)) as [Hin|Hout].
      * rewrite decide_True by (apply elem_of_cons; right; exact Hin). reflexivity.
      * rewrite decide_False; [reflexivity|].
        rewrite not_elem_of_cons. split; [congruence|exact Hout].
Qed.

(** *** Alerts *)

Lemma showAlert_run message type duration st a :
  has_alert_container st a ->
  App.showAlert (VStr message) type duration st =
    (Ok tt, alert_state_for type duration message st).
Proof. intros Ha. unfold has_alert_container in Ha. js_run. reflexivity. Qed.

Lemma filter_fresh (l : list node) id :
  forallb (fun n => (node_id n <? id)%nat) l = true ->
  List.filter (fun n => negb (Nat.eqb (node_id n) id)) l = l.
Proof.
  intros Hl. apply forallb_filter_id, forallb_forall. intros n Hn.
  rewrite forallb_forall in Hl. apply Hl, Nat.ltb_lt in Hn.
  apply negb_true_iff, Nat.eqb_neq. lia.
Qed.

Lemma forallb_older (l : list node) id :
  forallb (fun n => (node_id n <? id)%nat) l = true ->
  forallb (fun n => (node_id n <? S id)%nat) l = true.
Proof.
  rewrite !forallb_forall. intros Hl n Hn. apply Hl, Nat.ltb_lt in Hn. apply Nat.ltb_lt. lia.
Qed.

Lemma fresh_nodes_alert type duration message st :
  fresh_nodes st = true -> fresh_nodes (alert_state_for type duration message st) = true.
Proof.
  unfold fresh_nodes, alert_state_for.
  cbn [dom next_node set_timers set_dom set_next_node]. rewrite lookup_alter_eq.
  destruct (dom st !! "alert-container") as [a0|]; [|reflexivity].
  cbn [fmap option_fmap option_map children set_children].
  intros Hf. rewrite forallb_app, (forallb_older _ _ Hf).
  cbn [forallb alert_node node_id andb].
  rewrite (proj2 (Nat.ltb_lt _ _)) by lia. reflexivity.
Qed.

Lemma fresh_nodes_children st a :
  has_alert_container st a -> fresh_nodes st = true ->
  forallb (fun n => (node_id n <? next_node st)%nat) (children a) = true.
Proof. unfold has_alert_container, fresh_nodes. intros ->. auto. Qed.

(** Removing the alert [id] from a page whose other alerts are older. *)
Lemma remove_alert_dom id type message (d : gmap string element) a :
  d !! "alert-container" = Some a ->
  forallb (fun n => (node_id n <? id)%nat) (children a) = true ->
  alter (fun e => set_children
           (List.filter (fun n => negb (Nat.eqb (node_id n) id)) (children e)) e)
    "alert-container"
    (alter (fun e => set_children (children e ++ [alert_node id type message]) e)
       "alert-container" d) = d.
Proof.
  intros Ha Hf. apply map_eq. intros i.
  destruct (decide (i = "alert-container")) as [->|Hne].
  - rewrite !lookup_alter_eq, Ha. cbn. rewrite List.filter_app, filter_fresh by assumption.
    cbn. rewrite Nat.eqb_refl. cbn. rewrite app_nil_r. destruct a; reflexivity.
  - rewrite !lookup_alter_ne by congruence. reflexivity.
Qed.

(** The [catch] blocks of the script: log, then alert. *)
Lemma log_and_alert label e message st a :
  has_alert_container st a ->
  (console_error label e;; App.showAlert (VStr message) (Some "danger") None) st =
    (Ok tt, alert_state "danger" message (set_trace (trace st ++ [ConsoleError label e]) st)).
Proof.
  intros Ha. erewrite bind_ok by reflexivity. apply (App_showAlert_run _ _ _ a). js_dom.
Qed.

(** *** The dashboard panels of part_000 *)

Lemma forEach_clear_run f l st :
  Part000.forEach l (fun id =>
    element ← getElementById id;
    if element is Some _ then update_element id element f else mret tt) st =
    (Ok tt, set_dom (foldl (fun d id => alter f id d) (dom st) l) st).
Proof.
  revert st. induction l as [|id l IH]; intros st; cbn [Part000.forEach foldl].
  - rewrite set_dom_same. reflexivity.
  - erewrite bind_ok by apply clear_step. rewrite IH. reflexivity.
Qed.

Lemma Part000_clearDashboard_run st :
  Part000.clearDashboard st =
    (Ok tt, set_dom (cleared_dom (dom st))
              (set_trace (trace st ++ [ConsoleLog "대시보드 데이터 초기화" None]) st)).
Proof.
  unfold Part000.clearDashboard. erewrite bind_ok by reflexivity.
  rewrite forEach_clear_run. reflexivity.
Qed.

Lemma cleared_dom_lookup d id :
  cleared_dom d !! id =
    if decide (id ∈ Part000.elementsToClear)
    then set_innerHTML Part000.loading_placeholder <$> d !! id
    else d !! id.
Proof. apply foldl_alter_idempotent. reflexivity. Qed.

Lemma cleared_dom_lookup_ne d id :
  id ∉ Part000.elementsToClear -> cleared_dom d !! id = d !! id.
Proof. intros Hid. rewrite cleared_dom_lookup, decide_False by exact Hid. reflexivity. Qed.

Lemma cleared_dom_lookup_eq d id :
  id ∈ Part000.elementsToClear ->
  cleared_dom d !! id = set_innerHTML Part000.loading_placeholder <$> d !! id.
Proof. intros Hid. rewrite cleared_dom_lookup, decide_True by exact Hid. reflexivity. Qed.

Lemma cleared_dom_twice d : cleared_dom (cleared_dom d) = cleared_dom d.
Proof.
  apply map_eq. intros id. rewrite !cleared_dom_lookup.
  destruct (decide (id ∈ Part000.elementsToClear)); [|reflexivity].
  destruct (d !! id); reflexivity.
Qed.

(** Side condition: an id is none of the panels. *)
Ltac not_cleared :=
  unfold Part000.elementsToClear; rewrite !not_elem_of_cons;
  repeat split; solve [ congruence | apply not_elem_of_nil ].

(** Lookups in a page built from the helpers' pages. *)
Ltac page_lookup :=
  repeat first
    [ rewrite lookup_alter_eq
    | rewrite lookup_alter_ne by done
    | rewrite spinner_dom_lookup_ne by js_ne
    | rewrite auth_ui_dom_lookup_ne by js_ne
    | rewrite cleared_dom_lookup_ne by not_cleared
    | rewrite cleared_dom_lookup_eq by (repeat constructor)
    | match goal with H : _ !! _ = _ |- _ => rewrite H end ].

(** *** The login dialog of part_000 *)

Lemma Part000_showLoginProgressModal_throws st :
  has_bootstrap (env st) = false ->
  Part000.showLoginProgressModal st =
    (Throw (ReferenceError "bootstrap"), set_dom (modal_markup_dom (dom st)) st).
Proof.
  intros Hbs. unfold modal_markup_dom.
  destruct (dom st !! "loginProgressModal") eqn:E; js_run; reflexivity.
Qed.

Lemma modal_markup_dom_modal d : is_Some (modal_markup_dom d !! "loginProgressModal").
Proof. unfold modal_markup_dom, Part000.modalHTML. js_lookup. eauto. Qed.

Lemma modal_markup_dom_lookup_ne d id :
  id ∉ Part000.loginProgress_ids -> modal_markup_dom d !! id = d !! id.
Proof.
  unfold Part000.loginProgress_ids. rewrite !not_elem_of_cons.
  intros (H1 & H2 & H3 & H4 & H5 & _). unfold modal_markup_dom, Part000.modalHTML.
  rewrite !lookup_insert_ne by congruence.
  destruct (d !! "loginProgressModal"); [|reflexivity].
  cbn. rewrite !lookup_delete_ne by congruence. reflexivity.
Qed.

Lemma modal_ids_delete_lookup (d : gmap string element) id :
  foldr delete d Part000.loginProgress_ids !! id =
    if decide (id ∈ Part000.loginProgress_ids) then None else d !! id.
Proof.
  unfold Part000.loginProgress_ids. cbn [foldr].
  destruct (decide (id ∈ _)) as [Hin|Hout].
  - rewrite !elem_of_cons in Hin.
    destruct Hin as [->|[->|[->|[->|[->|Hin]]]]]; [| | | | |inversion Hin];
      repeat first [rewrite lookup_delete_eq | rewrite lookup_delete_ne by done]; reflexivity.
  - rewrite !not_elem_of_cons in Hout. destruct Hout as (H1 & H2 & H3 & H4 & H5 & _).
    rewrite !lookup_delete_ne by congruence. reflexivity.
Qed.

Lemma modalHTML_delete (d : gmap string element) :
  Part000.modalHTML (foldr delete d Part000.loginProgress_ids) = Part000.modalHTML d.
Proof.
  apply map_eq. intros id. unfold Part000.modalHTML.
  repeat match goal with
         | |- context [<[?k := _]> _ !! id] =>
             destruct (decide (k = id)) as [<-|?];
             [rewrite !lookup_insert_eq; reflexivity
             |rewrite !(lookup_insert_ne _ k) by assumption]
         end.
  rewrite modal_ids_delete_lookup. rewrite decide_False; [reflexivity|].
  unfold Part000.loginProgress_ids. rewrite !not_elem_of_cons.
  repeat split; try congruence. apply not_elem_of_nil.
Qed.

Lemma modal_dom_twice d : modal_dom (modal_dom d) = modal_dom d.
Proof.
  assert (E : forall d', modal_dom d' =
            alter (set_bs_modal (Some true)) "loginProgressModal"
              (alter (set_bs_modal (Some false)) "loginProgressModal" (Part000.modalHTML d'))).
  { intros d'. unfold modal_dom. destruct (d' !! "loginProgressModal"); [|reflexivity].
    rewrite modalHTML_delete. reflexivity. }
  rewrite (E (modal_dom d)), (E d). f_equal. f_equal.
  apply map_eq. intros id. unfold Part000.modalHTML.
  repeat match goal with
         | |- context [<[?k := _]> _ !! id] =>
             destruct (decide (k = id)) as [<-|?];
             [rewrite !lookup_insert_eq; reflexivity
             |rewrite !(lookup_insert_ne _ k) by assumption]
         end.
  rewrite !lookup_alter_ne by assumption.
  rewrite !lookup_insert_ne by assumption. reflexivity.
Qed.

Lemma modal_dom_modal d :
  modal_dom d !! "loginProgressModal" =
    Some (set_bs_modal (Some true) (set_bs_modal (Some false)
            (set_className ["modal"; "fade"] blank_element))).
Proof. unfold modal_dom, Part000.modalHTML. js_lookup. reflexivity. Qed.

Lemma no_modal_lookup d id :
  no_modal d = true -> id ∈ Part000.loginProgress_ids -> d !! id = None.
Proof.
  unfold no_modal. rewrite forallb_forall. intros Hn Hin.
  apply list_elem_of_In, Hn in Hin. destruct (d !! id); [discriminate|reflexivity].
Qed.

(** Taking the dialog off a page that did not have it before it was shown. *)
Lemma modal_removed (d d' : gmap string element) :
  no_modal d = true ->
  (forall id, id ∉ Part000.loginProgress_ids -> d' !! id = d !! id) ->
  foldr delete d' Part000.loginProgress_ids = d.
Proof.
  intros Hn Hd. apply map_eq. intros id. rewrite modal_ids_delete_lookup.
  destruct (decide (id ∈ Part000.loginProgress_ids)) as [Hin|Hout].
  - symmetry. apply no_modal_lookup; assumption.
  - apply Hd, Hout.
Qed.

Lemma Part000_modal_hidden_run st m :
  dom st !! "loginProgressModal" = Some m -> remove_when_hidden m = true ->
  Part000.modal_hidden st =
    (Ok tt, set_dom (foldr delete (dom st) Part000.loginProgress_ids) st).
Proof. intros Hm Hr. js_run. rewrite Hr. reflexivity. Qed.

(** One tick of the progress animation. *)
Lemma tick_step id o st k p m :
  timers st !! id = Some (animation k true) -> Part000.steps !! k = Some (p, m) ->
  Part000.fire id o st =
    (Ok tt,
     set_timers (alter (fun t => {| delay := delay t; periodic := periodic t;
                                    callback := LoginProgressStep (S k);
                                    active := active t |}) id (timers st))
       (set_dom (alter (set_textContent m) "loginProgressDetail"
                   (alter (set_style_width p) "loginProgressBar" (dom st))) st)).
Proof.
  intros Ht Hs. unfold Part000.fire. erewrite bind_ok by (cbn; rewrite Ht; reflexivity).
  cbn [animation active periodic callback]. erewrite bind_ok by reflexivity.
  cbn [Part000.run_task]. rewrite Hs. reflexivity.
Qed.

Lemma tick_last id o st k :
  timers st !! id = Some (animation k true) -> Part000.steps !! k = None ->
  Part000.fire id o st = (Ok tt, set_timers (alter spent id (timers st)) st).
Proof.
  intros Ht Hs. unfold Part000.fire. erewrite bind_ok by (cbn; rewrite Ht; reflexivity).
  cbn [animation active periodic callback]. erewrite bind_ok by reflexivity.
  cbn [Part000.run_task]. rewrite Hs. reflexivity.
Qed.

Lemma tick_cleared id o st k :
  timers st !! id = Some (animation k false) -> Part000.fire id o st = (Ok tt, st).
Proof.
  intros Ht. unfold Part000.fire. erewrite bind_ok by (cbn; rewrite Ht; reflexivity).
  reflexivity.
Qed.

Lemma dialog_shows_step st p m frame t :
  dialog_shows st frame ->
  dialog_shows
    (set_timers t
       (set_dom (alter (set_textContent m) "loginProgressDetail"
                  (alter (set_style_width p) "loginProgressBar" (dom st))) st))
    (p, m).
Proof.
  intros [Hb Hd]. unfold dialog_shows. cbn.
  rewrite lookup_alter_ne, !lookup_alter_eq, lookup_alter_ne by done.
  destruct (dom st !! "loginProgressBar"); [|discriminate].
  destruct (dom st !! "loginProgressDetail"); [|discriminate]. split; reflexivity.
Qed.

(** *** Navigation *)

Lemma App_forEach_modify l (g : string -> gmap string element -> gmap string element) st :
  App.forEach l (fun item => modify (fun st => set_dom (g item (dom st)) st)) st =
    (Ok tt, set_dom (foldl (fun d item => g item d) (dom st) l) st).
Proof.
  revert st. induction l as [|x l IH]; intros st; cbn [App.forEach foldl].
  - rewrite set_dom_same. reflexivity.
  - erewrite bind_ok by reflexivity. rewrite IH. reflexivity.
Qed.

Lemma Part000_forEach_eq {A} (l : list A) (f : A -> M unit) :
  Part000.forEach l f = App.forEach l f.
Proof. induction l as [|x l IH]; cbn; [reflexivity|rewrite IH; reflexivity]. Qed.

(** The page after [setActiveNavigation()]. *)
Lemma App_setActiveNavigation_run currentPath navItems st :
  App.setActiveNavigation currentPath navItems st =
    (Ok tt,
     let d := foldl (fun d item => alter (classList_remove "active") item d) (dom st)
                navItems in
     set_dom (match nav_target currentPath with
              | Some id => alter (classList_add "active") id d
              | None => d
              end) st).
Proof.
  unfold App.setActiveNavigation, nav_target.
  erewrite bind_ok
    by apply (App_forEach_modify navItems (fun item => alter (classList_remove "active") item)).
  repeat match goal with
         | |- context [String.eqb currentPath ?p] => destruct (String.eqb currentPath p)
         end;
    unfold App.activate; rewrite ?clear_step; reflexivity.
Qed.

(** *** The push channel *)

(** An event with a listener among those of [connectWebSocket]. *)
Lemma App_receive `{Host} name h data st :
  socket st = Some registered ->
  (name, h) ∈ registered ->
  App.socket_receive name data st = App.socket_listener h data st.
Proof.
  intros Hs Hin. unfold App.socket_receive.
  erewrite bind_ok by (cbn; rewrite Hs; reflexivity).
  unfold registered in *. rewrite !elem_of_cons in Hin.
  destruct Hin as [E|[E|[E|[E|[E|E]]]]]; [| | | | |inversion E];
    injection E as -> <-;
    cbn [App.run_listeners String.eqb Ascii.eqb Bool.eqb];
    generalize (App.socket_listener h data); intros m;
    repeat (erewrite bind_ok by reflexivity);
    unfold mbind, M_bind; destruct (m st) as [[[]|e] st']; reflexivity.
Qed.

Lemma App_receive_unknown `{Host} name data st :
  socket st = Some registered ->
  name ∉ map fst registered ->
  App.socket_receive name data st = (Ok tt, st).
Proof.
  intros Hs Hout. unfold App.socket_receive.
  erewrite bind_ok by (cbn; rewrite Hs; reflexivity).
  unfold registered in *. cbn [map fst] in Hout. rewrite !not_elem_of_cons in Hout.
  destruct Hout as (H1 & H2 & H3 & H4 & H5 & _).
  cbn [App.run_listeners].
  rewrite !(proj2 (String.eqb_neq _ _)) by congruence. reflexivity.
Qed.

(** ** Requests that bring no data *)

Lemma no_data_body r d :
  body r = Some d -> no_data (Responded r) = false -> d <> VUndefined /\ d <> VNull.
Proof. cbn. intros ->. destruct d; try discriminate; split; discriminate. Qed.

(** Reading a response that brings no data throws once the request is out. *)
Lemma no_data_throws {B} req o f (k : value -> value -> M B) :
  no_data o = true ->
  forall st,
    (response ← fetch req o; data ← json response; v ← getField data f; k data v) st
      = (Throw (request_error o), set_trace (trace st ++ [Fetch req]) st).
Proof.
  destruct o as [|[s [d|]]]; cbn; [reflexivity| |reflexivity].
  destruct d; try discriminate; js_run; reflexivity.
Qed.

(** Find the request of the [try] block at hand and let it fail. *)
Ltac no_data_step Hn He :=
  match goal with
  | |- context [fetch ?req ?o ≫=
                 (fun response => json response ≫=
                    (fun data => getField data ?f ≫= @?k data))] =>
      pose proof (no_data_throws req o f k Hn) as He
  end.

Lemma preserves_no_data (P : state -> Prop) {B} req o f (k : value -> value -> M B) :
  (forall t st, P st -> P (set_trace t st)) ->
  no_data o = true ->
  preserves P (response ← fetch req o; data ← json response; v ← getField data f; k data v).
Proof.
  intros Pt Hn st HP. rewrite (no_data_throws req o f k Hn). apply Pt, HP.
Qed.

Section FailedRequest.

Variable P : state -> Prop.
Hypothesis P_dom : forall d st, P st -> P (set_dom d st).
Hypothesis P_trace : forall t st, P st -> P (set_trace t st).
Hypothesis P_timers : forall t st, P st -> P (set_timers t st).
Hypothesis P_next_node : forall n st, P st -> P (set_next_node n st).
Variable o : fetch_outcome.
Hypothesis failed : no_data o = true.

Lemma App_login_no_data_preserves : preserves P (App.login o).
Proof.
  unfold App.login.
  apply preserves_try_finally; [|apply App_showLoading_preserves; assumption].
  apply preserves_try_catch.
  - apply preserves_bind; [apply App_showLoading_preserves; assumption|intros _].
    apply preserves_bind; [preserves_tac|intros _].
    apply (preserves_no_data P _ _ f_success
             (fun data success => if truthy success then _ else _) P_trace failed).
  - intros e. apply preserves_bind; [preserves_tac|intros _].
    apply App_showAlert_preserves; assumption.
Qed.

Lemma App_logout_no_data_preserves confirmed : preserves P (App.logout confirmed o).
Proof.
  unfold App.logout.
  apply preserves_try_finally; [|apply App_showLoading_preserves; assumption].
  apply preserves_try_catch.
  - destruct confirmed; cbn [negb]; [|apply preserves_ret].
    apply preserves_bind; [apply App_showLoading_preserves; assumption|intros _].
    apply (preserves_no_data P _ _ f_success
             (fun data success => if truthy success then _ else _) P_trace failed).
  - intros e. apply preserves_bind; [preserves_tac|intros _].
    apply App_showAlert_preserves; assumption.
Qed.

Lemma App_checkAuthStatus_no_data_preserves : preserves P (App.checkAuthStatus o).
Proof.
  unfold App.checkAuthStatus.
  apply preserves_try_catch.
  - apply (preserves_no_data P _ _ f_authenticated
             (fun data authenticated => _) P_trace failed).
  - intros e. apply preserves_bind; [preserves_tac|intros _].
    apply App_showAlert_preserves; assumption.
Qed.

Lemma Part000_login_no_data_preserves : preserves P (Part000.login o).
Proof.
  unfold Part000.login.
  apply preserves_try_finally; [|apply Part000_showLoading_preserves; assumption].
  apply preserves_try_catch.
  - apply preserves_bind; [apply Part000_showLoading_preserves; assumption|intros _].
    apply preserves_bind; [preserves_tac|intros _].
    apply preserves_bind; [apply Part000_showLoginProgressModal_preserves; assumption|intros _].
    apply (preserves_no_data P _ _ f_success
             (fun data success => if truthy success then _ else _) P_trace failed).
  - intros e. apply preserves_bind; [preserves_tac|intros _].
    apply preserves_bind; [apply Part000_hideLoginProgressModal_preserves; assumption|intros _].
    apply Part000_showAlert_preserves; assumption.
Qed.

Lemma Part000_logout_no_data_preserves confirmed : preserves P (Part000.logout confirmed o).
Proof.
  unfold Part000.logout.
  apply preserves_try_finally; [|apply Part000_showLoading_preserves; assumption].
  apply preserves_try_catch.
  - destruct confirmed; cbn [negb]; [|apply preserves_ret].
    apply preserves_bind; [apply Part000_showLoading_preserves; assumption|intros _].
    apply (preserves_no_data P _ _ f_success
             (fun data success => if truthy success then _ else _) P_trace failed).
  - intros e. apply preserves_bind; [preserves_tac|intros _].
    apply Part000_showAlert_preserves; assumption.
Qed.

End FailedRequest.

(** [login], [logout] and [checkAuthStatus] when the request fails: the
    [catch] block runs, and the [finally] block where there is one. *)
Lemma App_login_no_data_run o st a :
  no_data o = true -> has_alert_container st a ->
  App.login o st =
    (Ok tt,
     let st1 := alert_state "danger" "로그인 중 오류가 발생했습니다."
       (set_trace (trace st ++
          [ConsoleLog "로그인 시도 시작" None; Fetch login_request;
           ConsoleError "로그인 실패:" (request_error o)])
          (set_dom (spinner_dom true (dom st)) st)) in
     set_dom (spinner_dom false (dom st1)) st1).
Proof.
  intros Hn Ha. unfold App.login.
  erewrite try_step by apply App_showLoading_run.
  erewrite try_step by reflexivity.
  no_data_step Hn He. erewrite try_throw by apply He. clear He.
  erewrite finally_done; cycle 1.
  { apply (log_and_alert _ _ _ _ a). js_dom. }
  { apply App_showLoading_run. }
  cbn. rewrite <- !app_assoc. reflexivity.
Qed.

Lemma App_logout_no_data_run o st a :
  no_data o = true -> has_alert_container st a ->
  App.logout true o st =
    (Ok tt,
     let st1 := alert_state "danger" "로그아웃 중 오류가 발생했습니다."
       (set_trace (trace st ++
          [Fetch logout_request; ConsoleError "로그아웃 실패:" (request_error o)])
          (set_dom (spinner_dom true (dom st)) st)) in
     set_dom (spinner_dom false (dom st1)) st1).
Proof.
  intros Hn Ha. unfold App.logout. cbn [negb].
  erewrite try_step by apply App_showLoading_run.
  no_data_step Hn He. erewrite try_throw by apply He. clear He.
  erewrite finally_done; cycle 1.
  { apply (log_and_alert _ _ _ _ a). js_dom. }
  { apply App_showLoading_run. }
  cbn. rewrite <- !app_assoc. reflexivity.
Qed.

Lemma Part000_logout_no_data_run o st a :
  no_data o = true -> has_alert_container st a ->
  Part000.logout true o st = App.logout true o st.
Proof.
  intros Hn Ha. rewrite (App_logout_no_data_run o st a Hn Ha).
  unfold Part000.logout. cbn [negb]. rewrite Part000_showLoading_eq, Part000_showAlert_eq.
  erewrite try_step by apply App_showLoading_run.
  no_data_step Hn He. erewrite try_throw by apply He. clear He.
  erewrite finally_done; cycle 1.
  { apply (log_and_alert _ _ _ _ a). js_dom. }
  { apply App_showLoading_run. }
  cbn. rewrite <- !app_assoc. reflexivity.
Qed.

Lemma App_checkAuthStatus_no_data_run o st a :
  no_data o = true -> has_alert_container st a ->
  App.checkAuthStatus o st =
    (Ok tt,
     alert_state "danger" "인증 상태 확인에 실패했습니다."
       (set_trace (trace st ++
          [Fetch status_request; ConsoleError "인증 상태 확인 실패:" (request_error o)]) st)).
Proof.
  intros Hn Ha. unfold App.checkAuthStatus.
  no_data_step Hn He. erewrite catch_throw by apply He. clear He.
  erewrite (log_and_alert _ _ _ _ a) by js_dom.
  cbn. rewrite <- !app_assoc. reflexivity.
Qed.

(** ** Elements that the script never takes off the page *)

Section Kept.

Variable id : string.
Hypothesis id_not_modal : id ∉ Part000.loginProgress_ids.

Lemma kept_ret {A} (a : A) : preserves (has_element id) (mret a).
Proof. intros st Hs. exact Hs. Qed.

Lemma kept_throw {A} (e : error) : preserves (has_element id) (mthrow e : M A).
Proof. intros st Hs. exact Hs. Qed.

Lemma kept_gets {A} (f : state -> A) : preserves (has_element id) (gets f).
Proof. intros st Hs. exact Hs. Qed.

Lemma kept_emit e : preserves (has_element id) (emit e).
Proof. intros st Hs. exact Hs. Qed.

Lemma kept_setTimer d p t : preserves (has_element id) (setTimer d p t).
Proof. intros st Hs. exact Hs. Qed.

Lemma kept_createElement : preserves (has_element id) createElement.
Proof. intros st Hs. exact Hs. Qed.

Lemma kept_getField v f : preserves (has_element id) (getField v f).
Proof. intros st Hs. destruct v; exact Hs. Qed.

Lemma kept_fetch r o : preserves (has_element id) (fetch r o).
Proof. intros st Hs. destruct o; exact Hs. Qed.

Lemma kept_json r : preserves (has_element id) (json r).
Proof. intros st Hs. unfold json. destruct (body r); exact Hs. Qed.

Lemma kept_set_flag v : preserves (has_element id) (modify (set_isAuthenticated v)).
Proof. intros st Hs. exact Hs. Qed.

Lemma kept_update_element id' e f : preserves (has_element id) (update_element id' e f).
Proof.
  intros st Hs. destruct e; [|exact Hs]. unfold has_element in *. cbn.
  destruct (decide (id' = id)) as [->|Hne].
  - rewrite lookup_alter_eq. apply fmap_is_Some, Hs.
  - rewrite lookup_alter_ne by exact Hne. exact Hs.
Qed.

Lemma kept_remove_modal : preserves (has_element id) Part000.remove_modal.
Proof.
  intros st Hs. unfold has_element in *. cbn.
  revert id_not_modal. unfold Part000.loginProgress_ids. rewrite !not_elem_of_cons.
  intros (H1 & H2 & H3 & H4 & H5 & _).
  rewrite !lookup_delete_ne by congruence. exact Hs.
Qed.

Lemma kept_modalHTML :
  preserves (has_element id) (modify (fun st => set_dom (Part000.modalHTML (dom st)) st)).
Proof.
  intros st Hs. unfold has_element, Part000.modalHTML in *. cbn.
  revert id_not_modal. unfold Part000.loginProgress_ids. rewrite !not_elem_of_cons.
  intros (H1 & H2 & H3 & H4 & H5 & _).
  rewrite !lookup_insert_ne by congruence. exact Hs.
Qed.

End Kept.

Create HintDb kept discriminated.
#[global] Hint Resolve kept_ret kept_throw kept_gets kept_emit kept_setTimer kept_createElement
  kept_getField kept_fetch kept_json kept_set_flag kept_update_element kept_remove_modal
  kept_modalHTML : kept.

(** Decompose a goal about a kept element along the structure of the code. *)
Ltac kept_tac :=
  unfold getElementById, console_log, console_error, setTimeout, setInterval, when,
    refreshDashboard, typeof_refreshDashboard_is_function;
  repeat first
    [ progress intros
    | apply preserves_bind
    | apply preserves_try_catch
    | apply preserves_try_finally
    | solve [ eauto with kept ]
    | match goal with
      | |- preserves _ (match ?x with _ => _ end) => destruct x
      | |- preserves _ (if ?x then _ else _) => destruct x
      end ].

Section KeptByScript.

Variable id : string.
Hypothesis id_not_modal : id ∉ Part000.loginProgress_ids.

Lemma kept_showAlert message type duration :
  preserves (has_element id) (App.showAlert message type duration).
Proof. unfold App.showAlert. kept_tac. Qed.

Lemma kept_showLoading show : preserves (has_element id) (App.showLoading show).
Proof. unfold App.showLoading. kept_tac. Qed.

Lemma kept_updateAuthUI authenticated :
  preserves (has_element id) (App.updateAuthUI authenticated).
Proof. unfold App.updateAuthUI. kept_tac. Qed.

Lemma kept_forEach {A} (l : list A) (f : A -> M unit) :
  (forall x, preserves (has_element id) (f x)) ->
  preserves (has_element id) (Part000.forEach l f).
Proof.
  intros Hf. induction l as [|x l IH]; cbn [Part000.forEach].
  - apply kept_ret.
  - apply preserves_bind; [apply Hf | intros _; exact IH].
Qed.

Lemma kept_clearDashboard : preserves (has_element id) Part000.clearDashboard.
Proof.
  unfold Part000.clearDashboard. apply preserves_bind; [kept_tac|intros _].
  apply kept_forEach. kept_tac.
Qed.

Lemma kept_showLoginProgressModal :
  preserves (has_element id) Part000.showLoginProgressModal.
Proof.
  unfold Part000.showLoginProgressModal, Part000.startLoginProgressAnimation. kept_tac.
Qed.

Lemma kept_hideLoginProgressModal :
  preserves (has_element id) Part000.hideLoginProgressModal.
Proof. unfold Part000.hideLoginProgressModal. kept_tac. Qed.

Lemma kept_updateLoginProgress message type :
  preserves (has_element id) (Part000.updateLoginProgress message type).
Proof. unfold Part000.updateLoginProgress. kept_tac. Qed.

End KeptByScript.

(** [finally { showLoading(false) }] *)
Lemma finally_hides_spinner {A} (m : M A) st :
  preserves (has_element "loading-spinner") m ->
  has_element "loading-spinner" st ->
  has_class "d-none" "loading-spinner" (snd (try_finally m (App.showLoading false) st)).
Proof.
  intros Hm Hs. specialize (Hm st Hs). unfold try_finally.
  destruct (m st) as [r st1]. cbn [snd] in Hm. destruct Hm as [e1 E1].
  rewrite App_showLoading_run.
  exists (classList_add "d-none" e1). split.
  - cbn. unfold spinner_dom. rewrite E1, lookup_alter_eq, E1. reflexivity.
  - apply classList_add_elem. auto.
Qed.

(** ** Code that sends no request *)

Lemma requests_snoc t e :
  requests (t ++ [e]) = requests t ++ match e with Fetch r => [r] | _ => [] end.
Proof. unfold requests. rewrite omap_app. destruct e; reflexivity. Qed.

Lemma sent_fetch l req o st :
  sent l st -> sent (l ++ [req]) (snd (fetch req o st)).
Proof.
  unfold sent. intros <-. destruct o; cbn; apply requests_snoc.
Qed.

Section Quiet.

Variable l : list request.

Lemma quiet_emit e : no_request e = true -> preserves (sent l) (emit e).
Proof.
  intros He st Hs. unfold sent in *. cbn. rewrite requests_snoc, Hs.
  destruct e; [| |discriminate| |]; apply app_nil_r.
Qed.

Lemma quiet_ret {A} (a : A) : preserves (sent l) (mret a).
Proof. intros st Hs. exact Hs. Qed.

Lemma quiet_throw {A} (e : error) : preserves (sent l) (mthrow e : M A).
Proof. intros st Hs. exact Hs. Qed.

Lemma quiet_gets {A} (f : state -> A) : preserves (sent l) (gets f).
Proof. intros st Hs. exact Hs. Qed.

Lemma quiet_update_element id e f : preserves (sent l) (update_element id e f).
Proof. intros st Hs. destruct e; exact Hs. Qed.

Lemma quiet_setTimer d p t : preserves (sent l) (setTimer d p t).
Proof. intros st Hs. exact Hs. Qed.

Lemma quiet_createElement : preserves (sent l) createElement.
Proof. intros st Hs. exact Hs. Qed.

Lemma quiet_getField v f : preserves (sent l) (getField v f).
Proof. intros st Hs. destruct v; exact Hs. Qed.

Lemma quiet_json r : preserves (sent l) (json r).
Proof. intros st Hs. unfold json. destruct (body r); exact Hs. Qed.

Lemma quiet_set_flag v : preserves (sent l) (modify (set_isAuthenticated v)).
Proof. intros st Hs. exact Hs. Qed.

Lemma quiet_modify_dom (g : state -> gmap string element) :
  preserves (sent l) (modify (fun st => set_dom (g st) st)).
Proof. intros st Hs. exact Hs. Qed.

End Quiet.

Create HintDb quiet discriminated.
#[global] Hint Resolve quiet_emit quiet_ret quiet_throw quiet_gets quiet_update_element
  quiet_setTimer quiet_createElement quiet_getField quiet_json quiet_set_flag
  quiet_modify_dom : quiet.

(** Decompose a goal about code that sends nothing. *)
Ltac quiet_tac :=
  repeat autounfold with js;
  unfold getElementById, console_log, console_error, setTimeout, setInterval, when,
    refreshDashboard, typeof_refreshDashboard_is_function;
  repeat first
    [ progress intros
    | apply preserves_bind
    | apply preserves_try_catch
    | apply preserves_try_finally
    | solve [ eauto with quiet ]
    | match goal with
      | |- preserves _ (match ?x with _ => _ end) => destruct x
      | |- preserves _ (if ?x then _ else _) => destruct x
      end ].

Section QuietScript.

Variable l : list request.

Lemma quiet_showAlert message type duration :
  preserves (sent l) (App.showAlert message type duration).
Proof. quiet_tac. Qed.

Lemma quiet_showLoading show : preserves (sent l) (App.showLoading show).
Proof. quiet_tac. Qed.

Lemma quiet_updateAuthUI authenticated : preserves (sent l) (App.updateAuthUI authenticated).
Proof. quiet_tac. Qed.

Lemma quiet_forEach {A} (xs : list A) (f : A -> M unit) :
  (forall x, preserves (sent l) (f x)) -> preserves (sent l) (Part000.forEach xs f).
Proof.
  intros Hf. induction xs as [|x xs IH]; cbn [Part000.forEach].
  - apply quiet_ret.
  - apply preserves_bind; [apply Hf | intros _; exact IH].
Qed.

Lemma quiet_clearDashboard : preserves (sent l) Part000.clearDashboard.
Proof.
  unfold Part000.clearDashboard. apply preserves_bind; [quiet_tac|intros _].
  apply quiet_forEach. quiet_tac.
Qed.

Lemma quiet_hideLoginProgressModal : preserves (sent l) Part000.hideLoginProgressModal.
Proof. quiet_tac. Qed.

Lemma quiet_updateLoginProgress message type :
  preserves (sent l) (Part000.updateLoginProgress message type).
Proof. quiet_tac. Qed.

Lemma quiet_log_and_alert label message type e :
  preserves (sent l) (console_error label e;; App.showAlert message type None).
Proof. apply preserves_bind; [quiet_tac|intros _; apply quiet_showAlert]. Qed.

End QuietScript.

(** The request of a [try] block, and what follows it. *)
Lemma adds_fetch {B} l req o (k : response -> M B) st :
  (forall l r, preserves (sent l) (k r)) ->
  sent l st -> sent (l ++ [req]) (snd ((fetch req o ≫= k) st)).
Proof.
  intros Hk Hs. apply (bind_post (sent _)); [|intros r; apply Hk].
  apply sent_fetch, Hs.
Qed.

Lemma adds_bind_ok {A B} l (m : M A) (f : A -> M B) st a st1 :
  m st = (Ok a, st1) -> sent l (snd (f a st1)) -> sent l (snd ((m ≫= f) st)).
Proof. intros E Hf. erewrite bind_ok by exact E. exact Hf. Qed.

Lemma sent_log l label arg st :
  sent l st -> sent l (set_trace (trace st ++ [ConsoleLog label arg]) st).
Proof. intros Hs. apply (quiet_emit l (ConsoleLog label arg) eq_refl st Hs). Qed.

(** ** X1, X2: the message of an alert *)

(** X1: [showAlert]'s formatting leaves a message unchanged when it holds
    no line feed (byte 10) and no byte 0xE2, the first byte of each of the
    four emoji it looks for: every other character, HTML markup included,
    reaches the alert's [innerHTML] as it was written. *)
Theorem formatMessage_plain_text message :
  no_byte 10 message = true -> no_byte 226 message = true ->
  formatMessage message = message.
Proof.
  intros Hn He. unfold formatMessage, replaceAll, newline.
  rewrite (replace_from_absent (ascii_of_nat 10)) by exact Hn.
  rewrite !(replace_from_absent (ascii_of_nat 226) _ _ message) by exact He.
  reflexivity.
Qed.

Lemma formatMessage_plain_text_witness :
  formatMessage "<b>매수</b> 005930" = "<b>매수</b> 005930".
Proof. apply formatMessage_plain_text; reflexivity. Defined.

(** X2: whatever the message is, the formatted message holds no line
    feed: each one has become [<br>], and the icons put none back. *)
Theorem formatMessage_no_line_break message : no_byte 10 (formatMessage message) = true.
Proof.
  unfold formatMessage, replaceAll at 1 2 3 4.
  do 4 (apply replace_from_no_byte; [reflexivity|]).
  apply replace_newline_no_byte. reflexivity.
Qed.

(** ** X3, X4, X5: alerts come and go *)

(** X3: [showAlert] returns normally exactly when the message is a string
    and the page has [#alert-container]; it has then appended one alert and
    registered one timer to remove it.  In every other case it throws a
    TypeError and has left the page and the timers as they were.  Both
    versions. *)
Theorem showAlert_outcome message type duration st :
  match message, dom st !! "alert-container" with
  | VStr s, Some _ =>
      App.showAlert message type duration st = (Ok tt, alert_state_for type duration s st)
  | _, _ =>
      exists msg, App.showAlert message type duration st =
                    (Throw (TypeError msg), set_next_node (S (next_node st)) st)
  end /\
  Part000.showAlert message type duration st = App.showAlert message type duration st.
Proof.
  split; [|reflexivity].
  destruct message, (dom st !! "alert-container") eqn:E; js_run; eauto.
Qed.

(** X4: on a page whose alerts are all older than the next node, the
    timer that [showAlert] registers takes off exactly the alert it was
    registered for: once it has fired the page is as it was before the
    alert, the timer is spent, and firing it again changes nothing.
    [showAlert] keeps the page's alerts older than the next node.  Both
    versions. *)
Theorem alert_removed_by_its_timer message type duration st a :
  has_alert_container st a -> fresh_nodes st = true ->
  let st1 := snd (App.showAlert (VStr message) type duration st) in
  let id := length (timers st) in
  fresh_nodes st1 = true /\
  exists st2,
    App.fire id st1 = (Ok tt, st2) /\
    (forall o, Part000.fire id o st1 = (Ok tt, st2)) /\
    dom st2 = dom st /\
    timers st2 =
      timers st ++ [spent (timeout (default 5000 duration) (RemoveAlert (next_node st)))] /\
    App.fire id st2 = (Ok tt, st2).
Proof.
  intros Ha Hf. rewrite (showAlert_run _ _ _ _ a Ha). cbn [snd].
  split; [apply fresh_nodes_alert, Hf|].
  assert (Hl : (timers st ++ [timeout (default 5000 duration) (RemoveAlert (next_node st))])
                 !! length (timers st)
               = Some (timeout (default 5000 duration) (RemoveAlert (next_node st))))
    by apply list_lookup_middle, eq_refl.
  assert (Hal : alter spent (length (timers st))
                  (timers st ++ [timeout (default 5000 duration) (RemoveAlert (next_node st))])
                = timers st ++ [spent (timeout (default 5000 duration) (RemoveAlert (next_node st)))]).
  { rewrite alter_app_r_alt by lia. rewrite Nat.sub_diag. reflexivity. }
  eexists. split; [|split; [|split; [|split]]].
  - unfold App.fire, alert_state_for. js_run. reflexivity.
  - intros o. unfold Part000.fire, alert_state_for. js_run. reflexivity.
  - cbn. apply (remove_alert_dom _ _ _ _ a); [exact Ha|].
    apply fresh_nodes_children; assumption.
  - cbn. exact Hal.
  - unfold App.fire. js_run. fold spent. rewrite Hal.
    rewrite list_lookup_middle by reflexivity. reflexivity.
Qed.

Lemma alert_removed_by_its_timer_witness :
  exists st2,
    App.fire 0
      (snd (App.showAlert (VStr "주문 접수") (Some "success") None st_logged_out))
      = (Ok tt, st2) /\
    dom st2 = dom st_logged_out.
Proof.
  destruct (alert_removed_by_its_timer "주문 접수" (Some "success") None
              st_logged_out blank_element eq_refl eq_refl) as (_ & st2 & E & _ & D & _).
  exists st2. split; [exact E | exact D].
Defined.

(** X5: an alert shown later stays when the timer of an earlier one fires:
    after two calls of [showAlert], firing the first call's timer leaves
    the container with its former children and the second alert. *)
Theorem alert_removal_keeps_later_alerts m1 t1 d1 m2 t2 d2 st a :
  has_alert_container st a -> fresh_nodes st = true ->
  let st2 := snd (App.showAlert (VStr m2) t2 d2
                    (snd (App.showAlert (VStr m1) t1 d1 st))) in
  exists st3,
    App.fire (length (timers st)) st2 = (Ok tt, st3) /\
    has_alert_container st3
      (set_children (children a ++ [alert_node (S (next_node st)) (default "info" t2) m2]) a).
Proof.
  intros Ha Hf. rewrite (showAlert_run _ _ _ _ a Ha). cbn [snd].
  erewrite showAlert_run
    by (unfold has_alert_container, alert_state_for; cbn; rewrite lookup_alter_eq, Ha;
        reflexivity).
  cbn [snd].
  assert (Hl : ((timers st ++ [timeout (default 5000 d1) (RemoveAlert (next_node st))]) ++
                [timeout (default 5000 d2) (RemoveAlert (S (next_node st)))])
                 !! length (timers st)
               = Some (timeout (default 5000 d1) (RemoveAlert (next_node st)))).
  { rewrite <- app_assoc. apply list_lookup_middle, eq_refl. }
  eexists. split.
  - unfold App.fire, alert_state_for. js_run. reflexivity.
  - unfold has_alert_container.
    cbn [dom set_dom set_timers set_next_node App.run_task]. rewrite !lookup_alter_eq, Ha.
    cbn [fmap option_fmap option_map children set_children].
    rewrite !List.filter_app, filter_fresh by (apply fresh_nodes_children; assumption).
    cbn [List.filter alert_node node_id].
    rewrite Nat.eqb_refl, (proj2 (Nat.eqb_neq (S (next_node st)) (next_node st))) by lia.
    cbn [negb]. rewrite app_nil_r. destruct a; reflexivity.
Qed.

Lemma alert_removal_keeps_later_alerts_witness :
  exists st3,
    App.fire 0
      (snd (App.showAlert (VStr "둘") None None
              (snd (App.showAlert (VStr "하나") None None st_logged_out))))
      = (Ok tt, st3) /\
    has_alert_container st3
      (set_children (children blank_element ++ [alert_node 1 (default "info" None) "둘"])
         blank_element).
Proof.
  exact (alert_removal_keeps_later_alerts "하나" None None "둘" None None
           st_logged_out blank_element eq_refl eq_refl).
Defined.

(** ** X6, X7: the loading spinner *)

(** X6: [showLoading] never throws.  Without [#loading-spinner] it does
    nothing; with it, the spinner carries the class [d-none] afterwards
    exactly when [show] is false, its other classes and the other
    elements are as before, and a second call with the same argument
    changes nothing.  Both versions. *)
Theorem showLoading_toggles show st :
  (dom st !! "loading-spinner" = None ->
   App.showLoading show st = (Ok tt, st)) /\
  (forall e, dom st !! "loading-spinner" = Some e ->
   exists st' e',
     App.showLoading show st = (Ok tt, st') /\
     dom st' !! "loading-spinner" = Some e' /\
     ("d-none" ∈ className e' <-> show = false) /\
     (forall c, c <> "d-none" -> c ∈ className e' <-> c ∈ className e) /\
     (forall id, id <> "loading-spinner" -> dom st' !! id = dom st !! id) /\
     App.showLoading show st' = (Ok tt, st')) /\
  Part000.showLoading show st = App.showLoading show st.
Proof.
  split; [|split; [|reflexivity]].
  - intros E. rewrite App_showLoading_run. unfold spinner_dom. rewrite E.
    rewrite set_dom_same. reflexivity.
  - intros e E. rewrite App_showLoading_run. eexists. eexists.
    split; [reflexivity|]. cbn [dom set_dom].
    split; [unfold spinner_dom; rewrite E, lookup_alter_eq, E; reflexivity|].
    split; [|split; [|split]].
    + destruct show.
      * rewrite classList_remove_elem. split; [tauto|discriminate].
      * rewrite classList_add_elem. tauto.
    + intros c Hc. destruct show.
      * rewrite classList_remove_elem. tauto.
      * rewrite classList_add_elem. tauto.
    + intros id Hid. apply spinner_dom_lookup_ne, Hid.
    + rewrite App_showLoading_run. cbn [dom set_dom]. rewrite spinner_dom_twice.
      reflexivity.
Qed.

Lemma showLoading_toggles_witness :
  exists st' e',
    App.showLoading false st_loading = (Ok tt, st') /\
    dom st' !! "loading-spinner" = Some e' /\
    ("d-none" ∈ className e' <-> false = false).
Proof.
  destruct (proj1 (proj2 (showLoading_toggles false st_loading))
              (set_className ["spinner-border"] blank_element) eq_refl)
    as (st' & e' & E & L & D & _).
  exists st', e'. split; [exact E | split; [exact L | exact D]].
Defined.

(** X7: whatever the outcome of the request and whatever else the page
    holds, on a page with [#loading-spinner] the spinner is hidden (carries
    [d-none]) when [login] or [logout] is over: the [finally] block sees to
    it even when the [catch] block itself throws.  Both versions. *)
Theorem spinner_hidden_after_login_and_logout o confirmed st e :
  dom st !! "loading-spinner" = Some e ->
  has_class "d-none" "loading-spinner" (snd (App.login o st)) /\
  has_class "d-none" "loading-spinner" (snd (App.logout confirmed o st)) /\
  has_class "d-none" "loading-spinner" (snd (Part000.login o st)) /\
  has_class "d-none" "loading-spinner" (snd (Part000.logout confirmed o st)).
Proof.
  intros E.
  assert (Hs : has_element "loading-spinner" st) by (exists e; exact E).
  assert (Hid : "loading-spinner" ∉ Part000.loginProgress_ids) by js_ne.
  pose proof (kept_showAlert "loading-spinner") as KA.
  pose proof (kept_updateAuthUI "loading-spinner") as KU.
  pose proof (kept_showLoading "loading-spinner") as KL.
  pose proof (kept_clearDashboard "loading-spinner") as KC.
  pose proof (kept_showLoginProgressModal "loading-spinner" Hid) as KS.
  pose proof (kept_hideLoginProgressModal "loading-spinner") as KH.
  pose proof (kept_updateLoginProgress "loading-spinner") as KP.
  repeat split; apply finally_hides_spinner; try exact Hs; kept_tac.
Qed.

Lemma spinner_hidden_after_login_and_logout_witness :
  has_class "d-none" "loading-spinner" (snd (App.login NetworkFailure st_loading)).
Proof.
  exact (proj1 (spinner_hidden_after_login_and_logout NetworkFailure true
                  st_loading _ eq_refl)).
Defined.

(** ** X8, X9: the authentication UI *)

(** X8: [updateAuthUI] returns normally exactly when the page has both
    [#auth-btn] and [#connection-status].  Without the button it throws a
    TypeError and changes nothing; with the button but without the status
    element it throws a TypeError after it has switched the button.  Both
    versions. *)
Theorem updateAuthUI_outcome authenticated st :
  match dom st !! "auth-btn", dom st !! "connection-status" with
  | Some _, Some _ =>
      App.updateAuthUI authenticated st =
        (Ok tt, set_dom (auth_ui_dom (truthy authenticated) (dom st)) st)
  | Some _, None =>
      exists msg, App.updateAuthUI authenticated st =
        (Throw (TypeError msg), set_dom (auth_btn_dom (truthy authenticated) (dom st)) st)
  | None, _ =>
      exists msg, App.updateAuthUI authenticated st = (Throw (TypeError msg), st)
  end /\
  Part000.updateAuthUI authenticated st = App.updateAuthUI authenticated st.
Proof.
  split; [|reflexivity]. unfold auth_ui_dom, auth_btn_dom.
  destruct (dom st !! "auth-btn") eqn:Eb, (dom st !! "connection-status") eqn:Ec,
    (truthy authenticated) eqn:Et; js_run; eauto.
Qed.

(** X9: on a page with the authentication UI, what [updateAuthUI] leaves
    behind depends on its last call only: calling it with [v2] after a
    call with [v1] gives the state that the call with [v2] alone gives,
    which shows the logged-in UI when [v2] is truthy and the logged-out UI
    otherwise.  Both versions. *)
Theorem updateAuthUI_last_call_wins v1 v2 st b c :
  has_auth_ui st b c ->
  App.updateAuthUI v2 (snd (App.updateAuthUI v1 st)) = App.updateAuthUI v2 st /\
  Part000.updateAuthUI v2 (snd (Part000.updateAuthUI v1 st)) = Part000.updateAuthUI v2 st /\
  (if truthy v2
   then shows_logged_in (snd (App.updateAuthUI v2 st)) b c
   else shows_logged_out (snd (App.updateAuthUI v2 st)) b c).
Proof.
  intros Hui. rewrite Part000_updateAuthUI_eq.
  rewrite (App_updateAuthUI_run v1 st b c Hui). cbn [snd].
  assert (exists b' c', has_auth_ui (set_dom (auth_ui_dom (truthy v1) (dom st)) st) b' c')
    as (b' & c' & Hui').
  { destruct Hui as [Hb Hc]. unfold has_auth_ui, auth_ui_dom. cbn.
    destruct (truthy v1); js_lookup; eauto. }
  rewrite (App_updateAuthUI_run v2 _ b' c' Hui'), (App_updateAuthUI_run v2 st b c Hui).
  cbn [dom set_dom snd]. rewrite auth_ui_dom_twice.
  split; [reflexivity|]. split; [reflexivity|].
  destruct Hui as [Hb Hc]. unfold shows_logged_in, shows_logged_out, auth_ui_dom.
  destruct (truthy v2); cbn; js_lookup; auto.
Qed.

Lemma updateAuthUI_last_call_wins_witness :
  App.updateAuthUI (VBool false) (snd (App.updateAuthUI (VBool true) st_logged_out)) =
    App.updateAuthUI (VBool false) st_logged_out.
Proof.
  exact (proj1 (updateAuthUI_last_call_wins (VBool true) (VBool false)
                  st_logged_out _ _ (conj eq_refl eq_refl))).
Defined.

(** ** X10: the status check *)

(** X10: when the status response brings a JSON value other than [null],
    [checkAuthStatus] sets [isAuthenticated] to that value's
    [authenticated] field as it is ([undefined] when the field is
    missing), whatever the page is and whatever the HTTP status; on a page
    with the authentication UI it then returns normally, the UI shows the
    state the field's truthiness gives, and [refreshDashboard] is called
    exactly when the field is truthy and the page defines the function.
    Both versions. *)
Theorem checkAuthStatus_adopts_answer r d st :
  body r = Some d -> no_data (Responded r) = false ->
  isAuthenticated (snd (App.checkAuthStatus (Responded r) st)) = member d f_authenticated /\
  (forall b c, has_auth_ui st b c ->
     App.checkAuthStatus (Responded r) st =
       (Ok tt,
        set_trace (trace st ++ Fetch status_request ::
                     auth_status_log (member d f_authenticated) st)
          (set_dom (auth_ui_dom (truthy (member d f_authenticated)) (dom st))
             (set_isAuthenticated (member d f_authenticated) st)))) /\
  Part000.checkAuthStatus (Responded r) st = App.checkAuthStatus (Responded r) st.
Proof.
  intros Hb Hn. destruct (no_data_body r d Hb Hn) as [Hu Hnull].
  split; [|split; [|reflexivity]]; unfold App.checkAuthStatus.
  - erewrite catch_step by reflexivity.
    erewrite catch_step by (cbn; rewrite Hb; reflexivity).
    erewrite catch_step by (apply getField_member; assumption).
    erewrite catch_step by reflexivity.
    apply (preserves_try_catch (fun s => isAuthenticated s = member d f_authenticated));
      [| |reflexivity].
    + apply preserves_bind; [apply App_updateAuthUI_preserves; auto|].
      intros _. destruct (truthy (member d f_authenticated)); preserves_tac.
    + intros e. apply preserves_bind; [preserves_tac|].
      intros _. apply App_showAlert_preserves; auto.
  - intros b c Hui.
    erewrite catch_step by reflexivity.
    erewrite catch_step by (cbn; rewrite Hb; reflexivity).
    erewrite catch_step by (apply getField_member; assumption).
    erewrite catch_step by reflexivity.
    erewrite catch_step by (apply (App_updateAuthUI_run _ _ b c); js_dom).
    unfold auth_status_log, status_request.
    destruct (truthy (member d f_authenticated)) eqn:Ht;
      [destruct (has_refreshDashboard (env st)) eqn:Hr|];
      js_run; rewrite <- ?app_assoc; reflexivity.
Qed.

Lemma checkAuthStatus_adopts_answer_witness :
  isAuthenticated
    (snd (App.checkAuthStatus
            (Responded (response_200 (object [("authenticated", VStr "yes")])))
            st_logged_out)) = VStr "yes".
Proof.
  exact (proj1 (checkAuthStatus_adopts_answer
                  (response_200 (object [("authenticated", VStr "yes")]))
                  (object [("authenticated", VStr "yes")]) st_logged_out eq_refl eq_refl)).
Defined.

(** ** X11, X12: requests that fail *)

(** X11: when the request brings no data (the network fails, the body is
    not JSON, or it is [null]), [login], [logout] and [checkAuthStatus]
    leave [isAuthenticated], the socket and the refresh timer's id as they
    were, whatever the page is.  Both versions. *)
Theorem failed_request_keeps_session o confirmed st :
  no_data o = true ->
  let unchanged st' :=
    isAuthenticated st' = isAuthenticated st /\ socket st' = socket st /\
    refreshInterval st' = refreshInterval st in
  unchanged (snd (App.login o st)) /\
  unchanged (snd (App.logout confirmed o st)) /\
  unchanged (snd (App.checkAuthStatus o st)) /\
  unchanged (snd (Part000.login o st)) /\
  unchanged (snd (Part000.logout confirmed o st)) /\
  unchanged (snd (Part000.checkAuthStatus o st)).
Proof.
  intros Hn unchanged.
  repeat split;
    first [ apply (App_login_no_data_preserves (fun s => _ s = _ st))
          | apply (App_logout_no_data_preserves (fun s => _ s = _ st))
          | apply (App_checkAuthStatus_no_data_preserves (fun s => _ s = _ st))
          | apply (Part000_login_no_data_preserves (fun s => _ s = _ st))
          | apply (Part000_logout_no_data_preserves (fun s => _ s = _ st)) ];
    auto.
Qed.

Lemma failed_request_keeps_session_witness :
  isAuthenticated (snd (App.logout true NetworkFailure st_logged_in)) =
    isAuthenticated st_logged_in.
Proof.
  exact (proj1 (proj1 (proj2 (failed_request_keeps_session NetworkFailure true
                                st_logged_in eq_refl)))).
Defined.

(** X12: when the request brings no data, on a page with
    [#alert-container], [login], [logout] and [checkAuthStatus] return
    normally and have shown one danger alert with their own fixed text,
    registered the alert's timer and no other, and left every element but
    the container and the spinner as it was. *)
Theorem failed_request_alerts o st a :
  no_data o = true -> has_alert_container st a ->
  let alerted message st' :=
    alert_shown st' a (next_node st) "danger" message /\
    timers st' = timers st ++ [timeout 5000 (RemoveAlert (next_node st))] /\
    forall id, id <> "alert-container" -> id <> "loading-spinner" ->
               dom st' !! id = dom st !! id in
  (exists st', App.login o st = (Ok tt, st') /\
     alerted "로그인 중 오류가 발생했습니다." st') /\
  (exists st', App.logout true o st = (Ok tt, st') /\ Part000.logout true o st = (Ok tt, st') /\
     alerted "로그아웃 중 오류가 발생했습니다." st') /\
  (exists st', App.checkAuthStatus o st = (Ok tt, st') /\
     Part000.checkAuthStatus o st = (Ok tt, st') /\
     alerted "인증 상태 확인에 실패했습니다." st').
Proof.
  intros Hn Ha alerted.
  rewrite (Part000_logout_no_data_run o st a Hn Ha).
  change (Part000.checkAuthStatus o st) with (App.checkAuthStatus o st).
  rewrite (App_login_no_data_run o st a Hn Ha), (App_logout_no_data_run o st a Hn Ha),
    (App_checkAuthStatus_no_data_run o st a Hn Ha).
  unfold has_alert_container in Ha.
  repeat split; eexists; (split; [reflexivity|]); repeat split;
    unfold alert_shown; cbn;
    rewrite ?spinner_dom_lookup_ne by js_ne;
    try (rewrite lookup_alter_eq; rewrite ?spinner_dom_lookup_ne by js_ne;
         rewrite Ha; reflexivity);
    intros id H1 H2; rewrite ?spinner_dom_lookup_ne by exact H2;
    rewrite lookup_alter_ne by congruence; rewrite ?spinner_dom_lookup_ne by exact H2;
    reflexivity.
Qed.

Lemma failed_request_alerts_witness :
  exists st', App.login NetworkFailure st_logged_out = (Ok tt, st') /\
    alert_shown st' blank_element 0 "danger" "로그인 중 오류가 발생했습니다.".
Proof.
  destruct (proj1 (failed_request_alerts NetworkFailure st_logged_out
                     blank_element eq_refl eq_refl)) as (st' & E & A & _).
  exists st'. split; [exact E | exact A].
Defined.

(** ** X13, X14, X15: logout *)

(** X13: when the user cancels the [confirm] dialog, [logout] sends no
    request, shows no alert, registers no timer and leaves
    [isAuthenticated] alone: all that happens is that the [finally] block
    hides the spinner.  Both versions. *)
Theorem logout_cancelled_sends_nothing o st :
  App.logout false o st = (Ok tt, set_dom (spinner_dom false (dom st)) st) /\
  Part000.logout false o st = (Ok tt, set_dom (spinner_dom false (dom st)) st).
Proof.
  unfold App.logout, Part000.logout. rewrite Part000_showLoading_eq. cbn [negb].
  split; (erewrite try_done; [reflexivity | reflexivity | apply App_showLoading_run]).
Qed.

(** X14: after a logout response whose [success] is truthy and whose
    [message] is a string, on a page with the authentication UI and the
    alert container: app.js shows the logged-out UI, the message as an info
    alert, and schedules the page reload after one second; part_000 shows
    the login button and the same alert, but [clearDashboard] has
    overwritten [#connection-status] with the loading placeholder, and
    what it schedules is the status check after half a second. *)
Theorem logout_success_page r d msg st b c a :
  body r = Some d -> truthy (member d f_success) = true -> member d f_message = VStr msg ->
  has_auth_ui st b c -> has_alert_container st a ->
  (exists st',
     App.logout true (Responded r) st = (Ok tt, st') /\
     shows_logged_out st' b c /\
     alert_shown st' a (next_node st) "info" msg /\
     last (timers st') = Some (timeout 1000 ReloadPage)) /\
  (exists st',
     Part000.logout true (Responded r) st = (Ok tt, st') /\
     dom st' !! "auth-btn" = Some (set_onclick HLogin (set_innerHTML login_label b)) /\
     dom st' !! "connection-status" = Some (set_innerHTML Part000.loading_placeholder c) /\
     alert_shown st' a (next_node st) "info" msg /\
     last (timers st') = Some (timeout 500 RecheckAuthStatus)).
Proof.
  intros Hb Hs Hm Hui Hac.
  destruct (truthy_member_object _ _ Hs) as [m ->].
  split.
  - unfold App.logout. cbn [negb].
    erewrite try_step by apply App_showLoading_run.
    erewrite try_step by reflexivity.
    erewrite try_step by (cbn; rewrite Hb; reflexivity).
    erewrite try_step by reflexivity.
    rewrite Hs.
    erewrite try_step by reflexivity.
    erewrite try_step by (apply (App_updateAuthUI_run _ _ b c); js_dom).
    erewrite try_step by reflexivity.
    rewrite Hm.
    erewrite try_step by (apply (App_showAlert_run _ _ _ a); js_dom).
    erewrite try_done; [ | reflexivity | apply App_showLoading_run ].
    eexists. split; [reflexivity|].
    destruct Hui as [Hbtn Hcs]. unfold has_alert_container in Hac.
    split; [|split].
    + unfold shows_logged_out, auth_ui_dom. cbn. page_lookup. auto.
    + unfold alert_shown. cbn. page_lookup. reflexivity.
    + cbn. rewrite last_snoc. reflexivity.
  - unfold Part000.logout. cbn [negb].
    rewrite Part000_showLoading_eq, Part000_updateAuthUI_eq, Part000_showAlert_eq.
    erewrite try_step by apply App_showLoading_run.
    erewrite try_step by reflexivity.
    erewrite try_step by (cbn; rewrite Hb; reflexivity).
    erewrite try_step by reflexivity.
    rewrite Hs.
    erewrite try_step by reflexivity.
    erewrite try_step by (apply (App_updateAuthUI_run _ _ b c); js_dom).
    erewrite try_step by apply Part000_clearDashboard_run.
    erewrite try_step by reflexivity.
    rewrite Hm.
    erewrite try_step
      by (apply (App_showAlert_run _ _ _ a); js_dom;
          rewrite cleared_dom_lookup_ne by not_cleared; js_dom).
    erewrite try_done; [ | reflexivity | apply App_showLoading_run ].
    eexists. split; [reflexivity|].
    destruct Hui as [Hbtn Hcs]. unfold has_alert_container in Hac.
    split; [|split; [|split]].
    + cbn. page_lookup. unfold auth_ui_dom. page_lookup. reflexivity.
    + cbn. page_lookup. unfold auth_ui_dom. page_lookup. reflexivity.
    + unfold alert_shown. cbn. page_lookup. reflexivity.
    + cbn. rewrite last_snoc. reflexivity.
Qed.

Lemma logout_success_page_witness :
  exists st',
    Part000.logout true
      (Responded (response_200 (object [("success", VBool true); ("message", VStr "bye")])))
      st_logged_in = (Ok tt, st') /\
    dom st' !! "connection-status" =
      Some (set_innerHTML Part000.loading_placeholder
              (set_innerHTML connected_label blank_element)).
Proof.
  destruct (proj2 (logout_success_page
                     (response_200 (object [("success", VBool true); ("message", VStr "bye")]))
                     (object [("success", VBool true); ("message", VStr "bye")]) "bye"
                     st_logged_in _ _ blank_element eq_refl eq_refl eq_refl
                     (conj eq_refl eq_refl) eq_refl)) as (st' & E & _ & C & _).
  exists st'. split; [exact E | exact C].
Defined.

(** X15: [clearDashboard] of part_000 never throws; it sets the
    [innerHTML] of those of its five panels that the page has to the
    loading placeholder, creates no element, leaves every other element,
    [isAuthenticated] and the timers as they were, and a second call
    leaves the page as the first one left it. *)
Theorem clearDashboard_only_resets_panels st :
  exists st',
    Part000.clearDashboard st = (Ok tt, st') /\
    (forall id, dom st' !! id =
       if decide (id ∈ Part000.elementsToClear)
       then set_innerHTML Part000.loading_placeholder <$> dom st !! id
       else dom st !! id) /\
    isAuthenticated st' = isAuthenticated st /\ timers st' = timers st /\
    dom (snd (Part000.clearDashboard st')) = dom st'.
Proof.
  rewrite Part000_clearDashboard_run. eexists. split; [reflexivity|].
  split; [intros id; apply cleared_dom_lookup|].
  split; [reflexivity|]. split; [reflexivity|].
  rewrite Part000_clearDashboard_run. cbn. apply cleared_dom_twice.
Qed.

(** ** X16, X17, X18: requests *)

(** X16: no function of the script sends a request twice.  Whatever the
    outcome of the request and whatever the page holds, one call of
    [apiRequest], [checkAuthStatus], [login], a confirmed [logout] or
    [searchStockInfo] adds exactly one request to those sent, and it is
    the function's own ([apiRequest]: with the caller's headers in place of
    the default ones when there are any); [login] of part_000 sends its
    request when bootstrap is loaded and none when it is not. *)
Theorem one_request_per_call o st :
  let after (m : state -> state) l := requests (trace (m st)) = requests (trace st) ++ l in
  (forall url options,
     after (fun st => snd (App.apiRequest url options o st)) [api_request url options]) /\
  after (fun st => snd (App.checkAuthStatus o st)) [status_request] /\
  after (fun st => snd (App.login o st)) [login_request] /\
  after (fun st => snd (App.logout true o st)) [logout_request] /\
  after (fun st => snd (Part000.logout true o st)) [logout_request] /\
  (forall stockCode,
     after (fun st => snd (App.searchStockInfo stockCode o st)) [quote_request stockCode]) /\
  after (fun st => snd (Part000.login o st))
    (if has_bootstrap (env st) then [login_request] else []).
Proof.
  intros after. unfold after, status_request, login_request, logout_request, quote_request.
  pose proof quiet_showAlert as QA. pose proof quiet_updateAuthUI as QU.
  pose proof quiet_showLoading as QL. pose proof quiet_clearDashboard as QC.
  pose proof quiet_hideLoginProgressModal as QH.
  pose proof quiet_updateLoginProgress as QP.
  assert (Hst : sent (requests (trace st)) st) by reflexivity.
  repeat split.
  - intros url options. unfold App.apiRequest.
    apply (catch_post (sent _)); [|intros e; quiet_tac].
    apply adds_fetch; [|exact Hst]. intros l r.
    apply preserves_bind; [quiet_tac|intros _].
    apply preserves_bind; [quiet_tac|intros d].
    apply preserves_bind; [quiet_tac|intros s].
    apply preserves_bind; [|quiet_tac].
    destruct (is_false s); [|quiet_tac].
    apply preserves_bind; [quiet_tac|intros a]. destruct (is_false a); [|quiet_tac].
    apply preserves_bind; [quiet_tac|intros _].
    apply preserves_bind; [quiet_tac|intros _].
    apply preserves_bind; [apply QU|intros _]. apply QA.
  - unfold App.checkAuthStatus.
    apply (catch_post (sent _)); [|intros e; apply quiet_log_and_alert].
    apply adds_fetch; [|exact Hst]. intros l r.
    apply preserves_bind; [quiet_tac|intros d].
    apply preserves_bind; [quiet_tac|intros a].
    apply preserves_bind; [quiet_tac|intros _].
    apply preserves_bind; [apply QU|intros _].
    destruct (truthy a); quiet_tac.
  - unfold App.login.
    apply (finally_post (sent _)); [|apply QL].
    apply (catch_post (sent _)); [|intros e; apply quiet_log_and_alert].
    eapply adds_bind_ok; [apply App_showLoading_run|].
    eapply adds_bind_ok; [reflexivity|].
    apply adds_fetch; [|apply sent_log, Hst]. intros l r.
    apply preserves_bind; [quiet_tac|intros d].
    apply preserves_bind; [quiet_tac|intros s].
    destruct (truthy s).
    + apply preserves_bind; [quiet_tac|intros _].
      apply preserves_bind; [apply QU|intros _].
      apply preserves_bind; [quiet_tac|intros msg].
      apply preserves_bind; [apply QA|intros _]. quiet_tac.
    + apply preserves_bind; [quiet_tac|intros msg]. apply QA.
  - unfold App.logout. cbn [negb].
    apply (finally_post (sent _)); [|apply QL].
    apply (catch_post (sent _)); [|intros e; apply quiet_log_and_alert].
    eapply adds_bind_ok; [apply App_showLoading_run|].
    apply adds_fetch; [|exact Hst]. intros l r.
    apply preserves_bind; [quiet_tac|intros d].
    apply preserves_bind; [quiet_tac|intros s].
    destruct (truthy s).
    + apply preserves_bind; [quiet_tac|intros _].
      apply preserves_bind; [apply QU|intros _].
      apply preserves_bind; [quiet_tac|intros msg].
      apply preserves_bind; [apply QA|intros _]. quiet_tac.
    + apply preserves_bind; [quiet_tac|intros msg]. apply QA.
  - unfold Part000.logout. cbn [negb].
    apply (finally_post (sent _)); [|apply QL].
    apply (catch_post (sent _)); [|intros e; apply quiet_log_and_alert].
    eapply adds_bind_ok; [apply App_showLoading_run|].
    apply adds_fetch; [|exact Hst]. intros l r.
    apply preserves_bind; [quiet_tac|intros d].
    apply preserves_bind; [quiet_tac|intros s].
    destruct (truthy s).
    + apply preserves_bind; [quiet_tac|intros _].
      apply preserves_bind; [apply QU|intros _].
      apply preserves_bind; [apply QC|intros _].
      apply preserves_bind; [quiet_tac|intros msg].
      apply preserves_bind; [apply QA|intros _]. quiet_tac.
    + apply preserves_bind; [quiet_tac|intros msg]. apply QA.
  - intros stockCode. unfold App.searchStockInfo.
    apply (catch_post (sent _)); [|intros e; quiet_tac].
    apply adds_fetch; [|exact Hst]. intros l r. quiet_tac.
  - unfold Part000.login.
    apply (finally_post (sent _)); [|apply QL].
    assert (Hh : forall l e, preserves (sent l)
              (console_error "로그인 실패:" e;; Part000.hideLoginProgressModal;;
               Part000.showAlert (VStr "로그인 중 오류가 발생했습니다.") (Some "danger") None)).
    { intros l e. apply preserves_bind; [quiet_tac|intros _].
      apply preserves_bind; [apply QH|intros _]. apply QA. }
    apply (catch_post (sent _)); [|intros e; apply Hh].
    eapply adds_bind_ok; [apply App_showLoading_run|].
    eapply adds_bind_ok; [reflexivity|].
    destruct (has_bootstrap (env st)) eqn:Hbs.
    + eapply adds_bind_ok; [apply Part000_showLoginProgressModal_run; exact Hbs|].
      apply adds_fetch; [|apply sent_log, Hst]. intros l r.
      apply preserves_bind; [quiet_tac|intros d].
      apply preserves_bind; [quiet_tac|intros s].
      destruct (truthy s).
      * apply preserves_bind; [quiet_tac|intros _].
        apply preserves_bind; [apply QU|intros _].
        apply preserves_bind; [apply QP|intros _]. quiet_tac.
      * apply preserves_bind; [apply QH|intros _].
        apply preserves_bind; [quiet_tac|intros msg]. apply QA.
    + rewrite app_nil_r.
      erewrite bind_throw by (apply Part000_showLoginProgressModal_throws; exact Hbs).
      apply sent_log, Hst.
Qed.

(** X17: [apiRequest] does not swallow a failure.  When the network
    fails, or a response with a 2xx status has a body that is not JSON or
    is [null], it throws that very error after logging it, and has changed
    nothing but the trace.  Both versions. *)
Theorem apiRequest_rethrows url options o st :
  no_data o = true -> (forall r, o = Responded r -> ok r = true) ->
  App.apiRequest url options o st =
    (Throw (request_error o),
     set_trace (trace st ++ [Fetch (api_request url options);
                             ConsoleError "API 요청 실패:" (request_error o)]) st) /\
  Part000.apiRequest url options o st = App.apiRequest url options o st.
Proof.
  intros Hn Hok. split; [|reflexivity]. unfold api_request.
  destruct o as [|[s [d|]]]; [| |].
  - js_run. rewrite <- app_assoc. reflexivity.
  - specialize (Hok _ eq_refl). destruct d; try discriminate Hn; js_run;
      rewrite <- app_assoc; reflexivity.
  - specialize (Hok _ eq_refl). js_run. rewrite <- app_assoc. reflexivity.
Qed.

Lemma apiRequest_rethrows_witness :
  App.apiRequest "/api/account" None NetworkFailure st_logged_in =
    (Throw NetworkError,
     set_trace (trace st_logged_in ++
                  [Fetch (api_request "/api/account" None);
                   ConsoleError "API 요청 실패:" NetworkError]) st_logged_in).
Proof.
  refine (proj1 (apiRequest_rethrows "/api/account" None NetworkFailure
                   st_logged_in eq_refl _)).
  intros r E. discriminate E.
Defined.

(** X18: [searchStockInfo] is silent.  It never throws, shows no alert and
    changes nothing but the trace: a request that brings no data is logged
    as an error; a response whose [success] is truthy has its [data]
    logged by [displayStockInfo]; any other response leaves no mark beyond
    the request.  Both versions. *)
Theorem searchStockInfo_is_silent stockCode o st :
  (no_data o = true ->
   App.searchStockInfo stockCode o st =
     (Ok tt, set_trace (trace st ++
               [Fetch (quote_request stockCode);
                ConsoleError "종목 정보 검색 실패:" (request_error o)]) st)) /\
  (forall r d, o = Responded r -> body r = Some d -> no_data o = false ->
   App.searchStockInfo stockCode o st =
     (Ok tt, set_trace (trace st ++ Fetch (quote_request stockCode) ::
               (if truthy (member d f_success)
                then [ConsoleLog "종목 정보:" (Some (member d f_data))]
                else [])) st)) /\
  Part000.searchStockInfo stockCode o st = App.searchStockInfo stockCode o st.
Proof.
  unfold quote_request. split; [|split; [|reflexivity]].
  - intros Hn. unfold App.searchStockInfo.
    no_data_step Hn He. erewrite catch_throw by apply He.
    cbn. rewrite <- app_assoc. reflexivity.
  - intros r d -> Hb Hn. destruct (no_data_body r d Hb Hn) as [Hu Hnull].
    unfold App.searchStockInfo.
    erewrite catch_step by reflexivity.
    erewrite catch_step by (cbn; rewrite Hb; reflexivity).
    erewrite catch_step by (apply getField_member; assumption).
    destruct (truthy (member d f_success)).
    + erewrite catch_step by (apply getField_member; assumption).
      cbn. rewrite <- app_assoc. reflexivity.
    + reflexivity.
Qed.

Lemma searchStockInfo_is_silent_witness :
  App.searchStockInfo "005930" NetworkFailure st_logged_in =
    (Ok tt, set_trace (trace st_logged_in ++
              [Fetch (quote_request "005930");
               ConsoleError "종목 정보 검색 실패:" NetworkError]) st_logged_in).
Proof.
  exact (proj1 (searchStockInfo_is_silent "005930" NetworkFailure st_logged_in)
           eq_refl).
Defined.

(** ** X19, X20, X21: the push channel *)

(** X19: [connectWebSocket] never throws: with socket.io loaded it leaves
    the socket with its five listeners, without it the ReferenceError is
    caught and logged and the [socket] variable stays as it was.  Both
    versions. *)
Theorem connectWebSocket_never_throws st :
  App.connectWebSocket st =
    (Ok tt,
     if has_io (env st) then set_socket (Some registered) st
     else set_trace (trace st ++
            [ConsoleError "웹소켓 연결 실패:" (ReferenceError "io")]) st) /\
  Part000.connectWebSocket st = App.connectWebSocket st.
Proof.
  split; [|reflexivity].
  destruct (has_io (env st)) eqn:E; js_run; reflexivity.
Qed.

(** X20: once [connectWebSocket] has registered the listeners, a [connect]
    event writes the connected label into [#connection-status] and a
    [disconnect] event the disconnected label, and neither touches any
    other element, [isAuthenticated] or the timers; on a page without
    [#connection-status] both listeners throw a TypeError after logging; a
    [status] event is only logged; an event under any other name than the
    five registered ones changes nothing.  Both versions. *)
Theorem connection_events `{Host} data st :
  socket st = Some registered ->
  let shows label c st' :=
    dom st' !! "connection-status" = Some (set_innerHTML label c) /\
    (forall id, id <> "connection-status" -> dom st' !! id = dom st !! id) /\
    isAuthenticated st' = isAuthenticated st /\ timers st' = timers st in
  (forall c, dom st !! "connection-status" = Some c ->
     (exists st', App.socket_receive "connect" data st = (Ok tt, st') /\
                  shows connected_label c st') /\
     (exists st', App.socket_receive "disconnect" data st = (Ok tt, st') /\
                  shows disconnected_label c st')) /\
  (dom st !! "connection-status" = None ->
     exists msg,
     App.socket_receive "connect" data st =
       (Throw (TypeError msg), set_trace (trace st ++ [ConsoleLog "웹소켓 연결됨" None]) st) /\
     App.socket_receive "disconnect" data st =
       (Throw (TypeError msg), set_trace (trace st ++ [ConsoleLog "웹소켓 연결 끊김" None]) st)) /\
  App.socket_receive "status" data st =
    (Ok tt, set_trace (trace st ++ [ConsoleLog "서버 상태:" (Some data)]) st) /\
  (forall name, name ∉ map fst registered -> App.socket_receive name data st = (Ok tt, st)) /\
  (forall name, Part000.socket_receive name data st = App.socket_receive name data st).
Proof.
  intros Hs shows.
  rewrite (App_receive "connect" OnConnect), (App_receive "disconnect" OnDisconnect),
    (App_receive "status" OnStatus)
    by first [assumption | unfold registered; repeat constructor].
  split; [|split; [|split; [|split]]].
  - intros c Hc. split; eexists; (split; [js_run; reflexivity|]); unfold shows; cbn;
      (split; [rewrite lookup_alter_eq, Hc; reflexivity|]);
      (split; [intros id Hid; rewrite lookup_alter_ne by congruence; reflexivity|]);
      split; reflexivity.
  - intros Hc. eexists. split; js_run; reflexivity.
  - reflexivity.
  - intros name Hn. apply App_receive_unknown; assumption.
  - reflexivity.
Qed.

Lemma connection_events_witness :
  exists st',
    @App.socket_receive digits_host "disconnect" VUndefined
      (set_socket (Some registered) st_logged_in) = (Ok tt, st') /\
    dom st' !! "connection-status" =
      Some (set_innerHTML disconnected_label (set_innerHTML connected_label blank_element)) /\
    isAuthenticated st' = VBool true.
Proof.
  destruct (proj2 (proj1 (@connection_events digits_host VUndefined
                     (set_socket (Some registered) st_logged_in) eq_refl) _ eq_refl))
    as (st' & E & C & _ & A & _).
  exists st'. split; [exact E | split; [exact C | exact A]].
Defined.

(** X21: an [update] or [subscribed] event that arrives without a payload
    ([undefined] or [null]) makes its listener throw a TypeError once the
    payload is logged, and changes nothing else.  Both versions. *)
Theorem events_without_payload `{Host} data st :
  socket st = Some registered -> data = VUndefined \/ data = VNull ->
  exists msg,
    App.socket_receive "update" data st =
      (Throw (TypeError msg),
       set_trace (trace st ++ [ConsoleLog "실시간 업데이트:" (Some data)]) st) /\
    App.socket_receive "subscribed" data st =
      (Throw (TypeError msg),
       set_trace (trace st ++ [ConsoleLog "구독됨:" (Some data)]) st) /\
    Part000.socket_receive "update" data st = App.socket_receive "update" data st /\
    Part000.socket_receive "subscribed" data st = App.socket_receive "subscribed" data st.
Proof.
  intros Hs Hd.
  change (Part000.socket_receive "update" data st) with (App.socket_receive "update" data st).
  change (Part000.socket_receive "subscribed" data st)
    with (App.socket_receive "subscribed" data st).
  rewrite (App_receive "update" OnUpdate), (App_receive "subscribed" OnSubscribed)
    by first [assumption | unfold registered; repeat constructor].
  destruct Hd as [-> | ->]; eexists; repeat split; js_run; reflexivity.
Qed.

Lemma events_without_payload_witness :
  exists msg,
    @App.socket_receive digits_host "subscribed" VNull
      (set_socket (Some registered) st_logged_in) =
      (Throw (TypeError msg),
       set_trace (trace (set_socket (Some registered) st_logged_in) ++
                    [ConsoleLog "구독됨:" (Some VNull)])
         (set_socket (Some registered) st_logged_in)).
Proof.
  destruct (@events_without_payload digits_host VNull
              (set_socket (Some registered) st_logged_in) eq_refl (or_intror eq_refl))
    as (msg & _ & E & _).
  exists msg. exact E.
Defined.

(** ** X22, X23, X24, X25: the login dialog of part_000 *)

(** X22: with bootstrap loaded, calling [showLoginProgressModal] again
    leaves the page as the first call left it (the existing dialog is
    replaced, not doubled), but registers a second animation interval
    beside the first, which it does not clear. *)
Theorem showLoginProgressModal_again st :
  has_bootstrap (env st) = true ->
  let st1 := snd (Part000.showLoginProgressModal st) in
  exists st2,
    Part000.showLoginProgressModal st1 = (Ok tt, st2) /\
    dom st2 = dom st1 /\
    timers st1 = timers st ++ [animation 0 true] /\
    timers st2 = timers st ++ [animation 0 true; animation 0 true].
Proof.
  intros Hbs. rewrite (Part000_showLoginProgressModal_run st Hbs). cbn [snd].
  rewrite Part000_showLoginProgressModal_run by exact Hbs.
  eexists. split; [reflexivity|]. cbn. rewrite modal_dom_twice, <- app_assoc.
  repeat split.
Qed.

Lemma showLoginProgressModal_again_witness :
  exists st2,
    Part000.showLoginProgressModal
      (snd (Part000.showLoginProgressModal st_logged_out)) = (Ok tt, st2) /\
    timers st2 = timers st_logged_out ++ [animation 0 true; animation 0 true].
Proof.
  destruct (showLoginProgressModal_again st_logged_out eq_refl)
    as (st2 & E & _ & _ & T).
  exists st2. split; [exact E | exact T].
Defined.

(** X23: with bootstrap loaded, on a page without the dialog's elements:
    [showLoginProgressModal], then [hideLoginProgressModal], then the
    dialog's [hidden.bs.modal] event leave the page exactly as it was; in
    between, after hiding, the dialog is still on the page, closed; and
    hiding again when it is gone does nothing. *)
Theorem login_dialog_round_trip st :
  has_bootstrap (env st) = true -> no_modal (dom st) = true ->
  exists st1 st2 st3 m,
    Part000.showLoginProgressModal st = (Ok tt, st1) /\
    Part000.hideLoginProgressModal st1 = (Ok tt, st2) /\
    dom st2 !! "loginProgressModal" = Some m /\ bs_modal m = Some false /\
    Part000.modal_hidden st2 = (Ok tt, st3) /\
    dom st3 = dom st /\
    Part000.hideLoginProgressModal st3 = (Ok tt, st3).
Proof.
  intros Hbs Hn.
  rewrite (Part000_showLoginProgressModal_run st Hbs).
  eexists. eexists. eexists. eexists.
  split; [reflexivity|].
  split; [apply Part000_hideLoginProgressModal_run; exact Hbs|].
  cbn [dom set_dom set_timers]. unfold hidden_dom. rewrite modal_dom_modal.
  cbn [bs_modal set_bs_modal].
  split; [rewrite lookup_alter_eq, lookup_alter_eq, modal_dom_modal; reflexivity|].
  split; [reflexivity|].
  assert (Hd : foldr delete
             (alter (set_remove_when_hidden true) "loginProgressModal"
                (alter (set_bs_modal (Some false)) "loginProgressModal" (modal_dom (dom st))))
             Part000.loginProgress_ids = dom st).
  { apply modal_removed; [exact Hn|]. intros id Hid.
    assert (id <> "loginProgressModal")
      by (intros ->; apply Hid; unfold Part000.loginProgress_ids; repeat constructor).
    rewrite !lookup_alter_ne by congruence. apply modal_dom_lookup_ne, Hid. }
  split; [|split].
  - erewrite Part000_modal_hidden_run;
      [ | cbn; rewrite !lookup_alter_eq, modal_dom_modal; reflexivity | reflexivity ].
    reflexivity.
  - cbn. exact Hd.
  - unfold Part000.hideLoginProgressModal. js_run. reflexivity.
Qed.

Lemma login_dialog_round_trip_witness :
  exists st1 st2 st3,
    Part000.showLoginProgressModal st_logged_out = (Ok tt, st1) /\
    Part000.hideLoginProgressModal st1 = (Ok tt, st2) /\
    Part000.modal_hidden st2 = (Ok tt, st3) /\
    dom st3 = dom st_logged_out.
Proof.
  destruct (login_dialog_round_trip st_logged_out eq_refl eq_refl)
    as (st1 & st2 & st3 & m & E1 & E2 & _ & _ & E3 & D & _).
  exists st1, st2, st3. split; [exact E1 | split; [exact E2 | split; [exact E3 | exact D]]].
Defined.

(** X24: with bootstrap loaded, after [showLoginProgressModal] and [n]
    ticks of the interval it registers, the dialog shows the [n]-th step
    of the animation (bar width and detail text), for [n] from 1 to 7, and
    the seventh step, 95%, from then on: the animation alone never shows
    more than 95%.  The interval runs while [n] is at most 7; the eighth
    tick clears it. *)
Theorem login_progress_animation o st n :
  has_bootstrap (env st) = true ->
  let id := length (timers st) in
  let st' := fired n id o (snd (Part000.showLoginProgressModal st)) in
  timers st' !! id = Some (animation (min n 7) (n <=? 7)%nat) /\
  dialog_shows st' (animation_frame n).
Proof.
  intros Hbs id st'. subst st'. rewrite (Part000_showLoginProgressModal_run st Hbs).
  cbn [snd]. induction n as [|n [IHt IHd]].
  - cbn [fired]. split.
    + cbn. apply list_lookup_middle. reflexivity.
    + unfold dialog_shows, modal_dom, Part000.modalHTML. cbn. js_lookup. split; reflexivity.
  - cbn [fired]. set (s := fired n id o _) in *.
    destruct (le_lt_dec n 6) as [Hle|Hgt].
    + assert (exists p m, Part000.steps !! n = Some (p, m)) as (p & m & Hs).
      { do 7 (destruct n as [|n]; [cbn; eauto|]). lia. }
      rewrite Nat.min_l in IHt by lia.
      rewrite (proj2 (Nat.leb_le n 7)) in IHt by lia.
      rewrite (tick_step id o s n p m IHt Hs). cbn [snd]. split.
      * cbn [timers set_timers]. rewrite list_lookup_alter_eq, IHt.
        rewrite Nat.min_l by lia. rewrite (proj2 (Nat.leb_le (S n) 7)) by lia. reflexivity.
      * cbn [animation_frame]. rewrite Hs. cbn [default].
        apply (dialog_shows_step s p m _ _ IHd).
    + destruct (decide (n = 7%nat)) as [->|Hne].
      * change (animation (7 `min` 7) (7 <=? 7)%nat) with (animation 7 true) in IHt.
        rewrite (tick_last id o s 7%nat IHt eq_refl). cbn [snd]. split.
        -- cbn [timers set_timers]. rewrite list_lookup_alter_eq, IHt. reflexivity.
        -- exact IHd.
      * rewrite Nat.min_r in IHt by lia.
        rewrite (proj2 (Nat.leb_gt n 7)) in IHt by lia.
        rewrite (tick_cleared id o s 7%nat IHt). cbn [snd]. split.
        -- rewrite IHt, Nat.min_r by lia. rewrite (proj2 (Nat.leb_gt (S n) 7)) by lia.
           reflexivity.
        -- assert (E : animation_frame (S n) = animation_frame n);
             [|rewrite E; exact IHd].
           destruct n as [|n]; [lia|]. cbn [animation_frame].
           rewrite !(lookup_ge_None_2 Part000.steps) by (cbn; lia). reflexivity.
Qed.

Lemma login_progress_animation_witness :
  dialog_shows
    (fired 9 0 NetworkFailure
       (snd (Part000.showLoginProgressModal st_logged_out)))
    ("95%", "완료 처리 중...").
Proof.
  exact (proj2 (login_progress_animation NetworkFailure st_logged_out 9 eq_refl)).
Defined.

(** X25: when bootstrap is not loaded, [login] of part_000 never reaches
    the server: it throws the ReferenceError (the [catch] block fails on
    bootstrap too), sends no request, shows no alert, leaves
    [isAuthenticated] and the timers alone, and leaves the dialog's markup
    on the page. *)
Theorem login_without_bootstrap o st :
  has_bootstrap (env st) = false ->
  exists st',
    Part000.login o st = (Throw (ReferenceError "bootstrap"), st') /\
    trace st' = trace st ++ [ConsoleLog "로그인 시도 시작" None;
                             ConsoleError "로그인 실패:" (ReferenceError "bootstrap")] /\
    isAuthenticated st' = isAuthenticated st /\
    timers st' = timers st /\
    is_Some (dom st' !! "loginProgressModal") /\
    (forall id, id ∉ Part000.loginProgress_ids -> id <> "loading-spinner" ->
                dom st' !! id = dom st !! id).
Proof.
  intros Hbs. unfold Part000.login. rewrite Part000_showLoading_eq.
  erewrite try_step by apply App_showLoading_run.
  erewrite try_step by reflexivity.
  erewrite try_throw
    by (apply bind_throw, Part000_showLoginProgressModal_throws; exact Hbs).
  assert (Hh : forall s, has_bootstrap (env s) = false ->
            is_Some (dom s !! "loginProgressModal") ->
            Part000.hideLoginProgressModal s = (Throw (ReferenceError "bootstrap"), s)).
  { intros s Hs [m Hm]. js_run. reflexivity. }
  erewrite finally_done; cycle 1.
  { erewrite bind_ok by reflexivity. apply bind_throw, Hh; [exact Hbs|].
    cbn. apply modal_markup_dom_modal. }
  { apply App_showLoading_run. }
  eexists. split; [reflexivity|]. cbn.
  split; [rewrite <- app_assoc; reflexivity|].
  split; [reflexivity|]. split; [reflexivity|]. split.
  - rewrite spinner_dom_lookup_ne by js_ne. apply modal_markup_dom_modal.
  - intros id H1 H2. rewrite spinner_dom_lookup_ne by exact H2.
    rewrite modal_markup_dom_lookup_ne by exact H1.
    apply spinner_dom_lookup_ne, H2.
Qed.

Lemma login_without_bootstrap_witness :
  exists st',
    Part000.login (Responded (response_200 (object [("success", VBool true)])))
      st_no_bootstrap = (Throw (ReferenceError "bootstrap"), st') /\
    isAuthenticated st' = VBool false.
Proof.
  destruct (login_without_bootstrap
              (Responded (response_200 (object [("success", VBool true)])))
              st_no_bootstrap eq_refl) as (st' & E & _ & A & _).
  exists st'. split; [exact E | exact A].
Defined.

(** ** X26: navigation *)

(** X26: [setActiveNavigation] never throws and creates or removes no
    element.  Afterwards a link is active only if it is the one the path
    selects, or it is not among the navigation links and was active
    before; the link that the path selects is active whenever the page
    has it.  Both versions. *)
Theorem one_active_navigation_link currentPath navItems st :
  exists st',
    App.setActiveNavigation currentPath navItems st = (Ok tt, st') /\
    Part000.setActiveNavigation currentPath navItems st = (Ok tt, st') /\
    (forall id, has_class "active" id st' ->
       nav_target currentPath = Some id \/
       ((id ∉ navItems) /\ has_class "active" id st)) /\
    (forall id, nav_target currentPath = Some id -> is_Some (dom st !! id) ->
       has_class "active" id st') /\
    (forall id, is_Some (dom st' !! id) <-> is_Some (dom st !! id)) /\
    isAuthenticated st' = isAuthenticated st /\ trace st' = trace st.
Proof.
  assert (Ep : Part000.setActiveNavigation currentPath navItems st =
               App.setActiveNavigation currentPath navItems st).
  { unfold Part000.setActiveNavigation, App.setActiveNavigation.
    rewrite Part000_forEach_eq. reflexivity. }
  rewrite Ep, App_setActiveNavigation_run. eexists. split; [reflexivity|].
  split; [reflexivity|]. cbn.
  set (d := foldl _ (dom st) navItems).
  assert (Hd : forall id, d !! id =
            if decide (id ∈ navItems) then classList_remove "active" <$> dom st !! id
            else dom st !! id).
  { intros id. apply foldl_alter_idempotent, classList_remove_twice. }
  destruct (nav_target currentPath) as [t|] eqn:Et;
    (split; [|split; [|split; [|split; reflexivity]]]).
  - intros id (e & He & Ha). unfold has_class.
    destruct (decide (t = id)) as [->|Hne]; [left; reflexivity|right].
    cbn [dom set_dom] in He. rewrite lookup_alter_ne, Hd in He by exact Hne.
    destruct (decide (id ∈ navItems)); [|eauto].
    destruct (dom st !! id); [|discriminate]. injection He as <-.
    apply classList_remove_elem in Ha as [Ha _]. contradiction.
  - intros id [= ->] [e He]. unfold has_class. cbn [dom set_dom].
    rewrite lookup_alter_eq, Hd.
    destruct (decide (id ∈ navItems)); rewrite He; eexists; (split; [reflexivity|]);
      apply classList_add_elem; auto.
  - intros id.
    assert (E : is_Some (d !! id) <-> is_Some (dom st !! id)).
    { rewrite Hd. destruct (decide (id ∈ navItems)); [|reflexivity]. apply fmap_is_Some. }
    cbn [dom set_dom]. destruct (decide (t = id)) as [->|Hne].
    + rewrite lookup_alter_eq, fmap_is_Some. exact E.
    + rewrite lookup_alter_ne by exact Hne. exact E.
  - intros id (e & He & Ha). unfold has_class. right. cbn [dom set_dom] in He.
    rewrite Hd in He.
    destruct (decide (id ∈ navItems)); [|eauto].
    destruct (dom st !! id); [|discriminate]. injection He as <-.
    apply classList_remove_elem in Ha as [Ha _]. contradiction.
  - intros id [=].
  - intros id. cbn [dom set_dom]. rewrite Hd.
    destruct (decide (id ∈ navItems)); [|reflexivity]. apply fmap_is_Some.
Qed.

Lemma one_active_navigation_link_witness :
  exists st',
    App.setActiveNavigation "/" ["nav-dashboard"; "nav-orders"] st_navigation = (Ok tt, st') /\
    has_class "active" "nav-dashboard" st'.
Proof.
  destruct (one_active_navigation_link "/" ["nav-dashboard"; "nav-orders"]
              st_navigation) as (st' & E & _ & _ & A & _).
  exists st'. split; [exact E|].
  apply (A "nav-dashboard" eq_refl). eexists. reflexivity.
Defined.

(** ** X27: leaving the page *)

(** X27: the [beforeunload] listener stops the auto refresh that
    [setupAutoRefresh] started: the interval is cleared, so that firing
    it does nothing any more (while before, with the client authenticated
    and [refreshDashboard] defined, a tick did refresh); the socket is
    told to disconnect exactly when there is one; the page is not
    touched.  Both versions. *)
Theorem unload_stops_auto_refresh st :
  let st1 := snd (App.setupAutoRefresh st) in
  let id := length (timers st) in
  exists st2,
    App.beforeunload st1 = (Ok tt, st2) /\
    Part000.beforeunload (snd (Part000.setupAutoRefresh st)) = (Ok tt, st2) /\
    timers st2 = timers st ++ [spent refresh_timer] /\
    trace st2 = trace st ++
      (if socket st is Some _ then [Invoke "socket.disconnect" None] else []) /\
    dom st2 = dom st /\
    App.fire id st2 = (Ok tt, st2) /\
    (forall o, Part000.fire id o st2 = (Ok tt, st2)) /\
    (truthy (isAuthenticated st) = true -> has_refreshDashboard (env st) = true ->
     App.fire id st1 =
       (Ok tt, set_trace (trace st1 ++ [Invoke "refreshDashboard" None]) st1)).
Proof.
  intros st1 id. subst st1 id.
  change (Part000.beforeunload (snd (Part000.setupAutoRefresh st)))
    with (App.beforeunload (snd (App.setupAutoRefresh st))).
  rewrite App_setupAutoRefresh_run. cbn [snd]. fold refresh_timer.
  assert (Hl : (timers st ++ [refresh_timer]) !! length (timers st) = Some refresh_timer)
    by apply list_lookup_middle, eq_refl.
  assert (Hal : alter spent (length (timers st)) (timers st ++ [refresh_timer])
                = timers st ++ [spent refresh_timer]).
  { rewrite alter_app_r_alt by lia. rewrite Nat.sub_diag. reflexivity. }
  assert (Hl' : (timers st ++ [spent refresh_timer]) !! length (timers st)
                = Some (spent refresh_timer))
    by apply list_lookup_middle, eq_refl.
  assert (Eb : App.beforeunload
                 (set_refreshInterval (Some (length (timers st)))
                    (set_timers (timers st ++ [refresh_timer]) st)) =
               (Ok tt,
                set_trace (trace st ++
                    (if socket st is Some _ then [Invoke "socket.disconnect" None] else []))
                  (set_timers (timers st ++ [spent refresh_timer])
                     (set_refreshInterval (Some (length (timers st))) st)))).
  { unfold App.beforeunload. rewrite <- Hal.
    destruct (socket st) as [ls|] eqn:Es; js_run; rewrite Es; js_run;
      rewrite ?app_nil_r; reflexivity. }
  rewrite Eb. eexists. split; [reflexivity|]. split; [reflexivity|]. cbn.
  split; [reflexivity|]. split; [reflexivity|]. split; [reflexivity|].
  split; [|split].
  - unfold App.fire. js_run. reflexivity.
  - intros o. unfold Part000.fire. js_run. reflexivity.
  - intros Ha Hr. unfold App.fire. js_run. reflexivity.
Qed.

Lemma unload_stops_auto_refresh_witness :
  App.fire 0 (snd (App.setupAutoRefresh st_logged_in)) =
    (Ok tt, set_trace (trace (snd (App.setupAutoRefresh st_logged_in)) ++
                         [Invoke "refreshDashboard" None])
              (snd (App.setupAutoRefresh st_logged_in))).
Proof.
  destruct (unload_stops_auto_refresh st_logged_in)
    as (st2 & _ & _ & _ & _ & _ & _ & _ & F).
  exact (F eq_refl eq_refl).
Defined.
